(** * Attendance eligibility engine (server/utils/attendance.ts and the
      custom working-days utility): a shallow embedding and its properties.

    The engine manipulates JavaScript [Date] objects.  A [Date] is modelled by
    its time value (milliseconds since the epoch, [None] for the NaN time
    value of an "Invalid Date"), and the [Date] methods the source calls are
    transcribed from their ECMAScript definitions (ECMA-262, "Date Objects"):
    [Day], [TimeWithinDay], [DayFromYear], [YearFromTime], [MonthFromTime],
    [DateFromTime], [WeekDay], [MakeDay], [MakeDate], [TimeClip], [LocalTime]
    and [UTC].  The host's offset from UTC, [LocalTZA], depends on the time
    value (daylight saving, changes of zone); statements that need more say
    what they ask of the host. *)

From Stdlib Require Import ZArith Lia List Sorted Bool Ascii String DecimalString.
From Stdlib Require Import PrimFloat FloatOps SpecFloat FloatAxioms Uint63.
Import ListNotations.
Local Open Scope string_scope.
Local Open Scope list_scope.
Local Open Scope Z_scope.

(** ** Host environment *)

(** What the engine takes from its host: the local time zone adjustment in
    milliseconds, ECMA-262 LocalTZA(t, isUTC) (the offset in force at the UTC
    time value [t] when [isUTC] is true, at the local time value [t] when it
    is false), and the implementation-defined fallback [Date.parse] applies
    to a string that is not in the Date Time String Format. *)
Class Host : Type := {
  LocalTZA : Z -> bool -> Z;
  fallbackParse : string -> option Z
}.

(** ** Completions: a call returns a value, throws, or (for the model of the
    [while] loop only) runs out of fuel. *)

Inductive exn : Type :=
| RangeError (msg : string).

Inductive outcome (A : Type) : Type :=
| Value (a : A)
| Throws (e : exn)
| OutOfFuel.
Arguments Value {A} a.
Arguments Throws {A} e.
Arguments OutOfFuel {A}.

Definition bind {A B : Type} (m : outcome A) (k : A -> outcome B) : outcome B :=
  match m with
  | Value a => k a
  | Throws e => Throws e
  | OutOfFuel => OutOfFuel
  end.

Notation "x <- m ;; k" := (bind m (fun x => k))
  (at level 61, m at next level, right associativity).

(** ** ECMAScript time arithmetic *)

Definition msPerDay : Z := 86400000.
Definition maxTime : Z := 8640000000000000.

Definition Day (t : Z) : Z := t / msPerDay.
Definition TimeWithinDay (t : Z) : Z := t mod msPerDay.

Definition isLeapYear (y : Z) : bool :=
  ((y mod 4 =? 0) && negb (y mod 100 =? 0)) || (y mod 400 =? 0).

Definition DaysInYear (y : Z) : Z := if isLeapYear y then 366 else 365.

Definition DayFromYear (y : Z) : Z :=
  365 * (y - 1970) + (y - 1969) / 4 - (y - 1901) / 100 + (y - 1601) / 400.

(** The largest [y] with [DayFromYear y <= d]: an estimate from the mean
    year length, corrected by at most one year either way. *)
Definition YearFromDay (d : Z) : Z :=
  let y := 1970 + (400 * d) / 146097 in
  if d <? DayFromYear y then y - 1
  else if DayFromYear (y + 1) <=? d then y + 1
  else y.

Definition YearFromTime (t : Z) : Z := YearFromDay (Day t).
Definition InLeapYear (t : Z) : Z := if isLeapYear (YearFromTime t) then 1 else 0.
Definition DayWithinYear (t : Z) : Z := Day t - DayFromYear (YearFromTime t).

(** First day (within the year) of month [m] (0 = January). *)
Definition monthStart (leap : Z) (m : Z) : Z :=
  match m with
  | 0 => 0
  | 1 => 31
  | 2 => 59 + leap
  | 3 => 90 + leap
  | 4 => 120 + leap
  | 5 => 151 + leap
  | 6 => 181 + leap
  | 7 => 212 + leap
  | 8 => 243 + leap
  | 9 => 273 + leap
  | 10 => 304 + leap
  | _ => 334 + leap
  end.

Definition monthOfDayWithinYear (leap : Z) (dwy : Z) : Z :=
  if dwy <? 31 then 0
  else if dwy <? 59 + leap then 1
  else if dwy <? 90 + leap then 2
  else if dwy <? 120 + leap then 3
  else if dwy <? 151 + leap then 4
  else if dwy <? 181 + leap then 5
  else if dwy <? 212 + leap then 6
  else if dwy <? 243 + leap then 7
  else if dwy <? 273 + leap then 8
  else if dwy <? 304 + leap then 9
  else if dwy <? 334 + leap then 10
  else 11.

Definition MonthFromTime (t : Z) : Z :=
  monthOfDayWithinYear (InLeapYear t) (DayWithinYear t).

Definition DateFromTime (t : Z) : Z :=
  DayWithinYear t - monthStart (InLeapYear t) (MonthFromTime t) + 1.

Definition WeekDay (t : Z) : Z := (Day t + 4) mod 7.

(** [MakeDay year month date]: the day number of the first of the month
    ([month] may lie outside 0..11 and carries into the year), plus
    [date - 1]. *)
Definition MakeDay (year month date : Z) : Z :=
  let ym := year + month / 12 in
  let mn := month mod 12 in
  DayFromYear ym + monthStart (if isLeapYear ym then 1 else 0) mn + date - 1.

Definition MakeDate (day time : Z) : Z := day * msPerDay + time.

Definition TimeClip (t : Z) : option Z :=
  if Z.abs t <=? maxTime then Some t else None.


(** ** Strings of decimal digits *)

Definition digitChar (k : Z) : ascii := ascii_of_N (Z.to_N (48 + k)).

Definition digitValue (c : ascii) : option Z :=
  let n := Z.of_N (N_of_ascii c) in
  if (48 <=? n) && (n <=? 57) then Some (n - 48) else None.

Definition pad2 (k : Z) : string :=
  String (digitChar (k / 10 mod 10)) (String (digitChar (k mod 10)) "").

Definition pad4 (k : Z) : string :=
  pad2 (k / 100) ++ pad2 k.

Definition pad6 (k : Z) : string :=
  pad2 (k / 10000) ++ pad4 k.

Definition pad3 (k : Z) : string :=
  String (digitChar (k / 100 mod 10)) (pad2 k).

Definition digits2 (a b : ascii) : option Z :=
  match digitValue a, digitValue b with
  | Some x, Some y => Some (10 * x + y)
  | _, _ => None
  end.

Definition digits4 (a b c d : ascii) : option Z :=
  match digits2 a b, digits2 c d with
  | Some x, Some y => Some (100 * x + y)
  | _, _ => None
  end.

Definition digits6 (a b c d e f : ascii) : option Z :=
  match digits2 a b, digits4 c d e f with
  | Some x, Some y => Some (10000 * x + y)
  | _, _ => None
  end.

(** ** Date Time String Format *)

(** [Date.prototype.toISOString] of a valid time value:
    YYYY-MM-DDTHH:mm:ss.sssZ, with the expanded year (sign and six digits)
    outside 0..9999. *)
Definition isoYear (y : Z) : string :=
  if (0 <=? y) && (y <=? 9999) then pad4 y
  else if y <? 0 then "-" ++ pad6 (- y)
  else "+" ++ pad6 y.

Definition isoDate (t : Z) : string :=
  isoYear (YearFromTime t) ++ "-" ++ pad2 (MonthFromTime t + 1)
    ++ "-" ++ pad2 (DateFromTime t).

Definition isoTime (t : Z) : string :=
  let w := TimeWithinDay t in
  pad2 (w / 3600000) ++ ":" ++ pad2 (w / 60000 mod 60) ++ ":"
    ++ pad2 (w / 1000 mod 60) ++ "." ++ pad3 (w mod 1000) ++ "Z".

Definition isoString (t : Z) : string := isoDate t ++ "T" ++ isoTime t.

(** [s.split("T")[0]]: the text before the first T, all of [s] without one. *)
Fixpoint splitT0 (s : string) : string :=
  match s with
  | EmptyString => EmptyString
  | String c r => if Ascii.eqb c "T" then EmptyString else String c (splitT0 r)
  end.

(** The fields of a string in the date-only form, YYYY-MM-DD or, with an
    expanded year, +YYYYYY-MM-DD and -YYYYYY-MM-DD (the year -000000 is not
    in the format). *)
Definition dateOnlyFields (s : string) : option (Z * Z * Z) :=
  match s with
  | String c1 (String c2 (String c3 (String c4 (String c5 (String c6
      (String c7 (String c8 (String c9 (String c10 rest))))))))) =>
      match rest with
      | EmptyString =>
          if Ascii.eqb c5 "-" && Ascii.eqb c8 "-" then
            match digits4 c1 c2 c3 c4, digits2 c6 c7, digits2 c9 c10 with
            | Some y, Some m, Some d => Some (y, m, d)
            | _, _, _ => None
            end
          else None
      | String c11 (String c12 (String c13 EmptyString)) =>
          if Ascii.eqb c8 "-" && Ascii.eqb c11 "-" then
            match digits6 c2 c3 c4 c5 c6 c7, digits2 c9 c10, digits2 c12 c13 with
            | Some y, Some m, Some d =>
                if Ascii.eqb c1 "+" then Some (y, m, d)
                else if Ascii.eqb c1 "-" && negb (y =? 0) then Some (- y, m, d)
                else None
            | _, _, _ => None
            end
          else None
      | _ => None
      end
  | _ => None
  end.

Definition DaysInMonth (y m : Z) : Z :=
  let leap := if isLeapYear y then 1 else 0 in
  (if m =? 12 then 365 + leap else monthStart leap m) - monthStart leap (m - 1).

(** The date-only strings that name a day of the calendar. *)
Definition calendarDay (s : string) : option Z :=
  match dateOnlyFields s with
  | Some (y, m, d) =>
      if (1 <=? m) && (m <=? 12) && (1 <=? d) && (d <=? DaysInMonth y m)
      then Some (MakeDay y (m - 1) d)
      else None
  | None => None
  end.

(** ** The Date object *)

(** A JavaScript number that is an integer or NaN. *)
Definition Number : Type := option Z.
Definition NaN : Number := None.

Definition num_add (a b : Number) : Number :=
  match a, b with Some x, Some y => Some (x + y) | _, _ => None end.
Definition num_sub (a b : Number) : Number :=
  match a, b with Some x, Some y => Some (x - y) | _, _ => None end.
Definition num_le (a b : Number) : bool :=
  match a, b with Some x, Some y => x <=? y | _, _ => false end.
Definition num_ge (a b : Number) : bool := num_le b a.
Definition num_eq (a b : Number) : bool :=
  match a, b with Some x, Some y => x =? y | _, _ => false end.

(** A Date object, by its time value. *)
Definition Date : Type := Number.

Section DateObject.
Context {host : Host}.

Definition LocalTime (t : Z) : Z := t + LocalTZA t true.
Definition UTC (t : Z) : Z := t - LocalTZA t false.

(** [Date.parse]: a date-only string is UTC midnight of its day; any other
    string is left to the host (which decides, for instance, whether
    2024-02-30 is NaN or rolls over to March). *)
Definition Date_parse (s : string) : Number :=
  match calendarDay s with
  | Some d => TimeClip (MakeDate d 0)
  | None =>
      match fallbackParse s with
      | Some t => TimeClip t
      | None => NaN
      end
  end.

(** [new Date(s)] and [new Date(d)]. *)
Definition Date_new (s : string) : Date := Date_parse s.
Definition Date_copy (d : Date) : Date := d.

Definition getTime (d : Date) : Number := d.
Definition getDay (d : Date) : Number :=
  match d with Some t => Some (WeekDay (LocalTime t)) | None => NaN end.
Definition getDate (d : Date) : Number :=
  match d with Some t => Some (DateFromTime (LocalTime t)) | None => NaN end.

Definition setDate (d : Date) (date : Number) : Date :=
  match d, date with
  | Some t0, Some dt =>
      let t := LocalTime t0 in
      let newDate :=
        MakeDate (MakeDay (YearFromTime t) (MonthFromTime t) dt)
                 (TimeWithinDay t) in
      TimeClip (UTC newDate)
  | _, _ => NaN
  end.

Definition toISOString (d : Date) : outcome string :=
  match d with
  | Some t => Value (isoString t)
  | None => Throws (RangeError "Invalid time value")
  end.

(** [a <= b] on Date objects. *)
Definition Date_le (a b : Date) : bool := num_le a b.
End DateObject.

(** ** server/utils/attendance.ts *)

(** [Array.prototype.includes] on an array of strings. *)
Definition includes (l : list string) (s : string) : bool :=
  existsb (String.eqb s) l.

Inductive AttendanceStatus : Type := present | absent.

Definition AttendanceStatus_eqb (a b : AttendanceStatus) : bool :=
  match a, b with
  | present, present | absent, absent => true
  | _, _ => false
  end.

(** An element of [attendanceRecords] / [existingAttendance]. *)
Record AttendanceRecord : Type := {
  date : string;
  status : AttendanceStatus
}.

Record WorkingDayResult : Type := {
  wd_isValid : bool;
  reason : option string
}.

Record AttendanceCount : Type := {
  cnt_present : Z;
  cnt_absent : Z;
  total : Z
}.

Record ValidationResult : Type := {
  isValid : bool;
  errors : list string
}.

(** [String(n)] of an integer number (below 10^21 in absolute value, where
    JavaScript prints all the digits). *)
Definition Number_toString (n : Z) : string :=
  NilZero.string_of_int (Z.to_int n).

Section Attendance.
Context {host : Host}.

Definition isWeekend (dateStr : string) : bool :=
  let date := Date_new dateStr in
  let dayOfWeek := getDay date in
  num_eq dayOfWeek (Some 0) || num_eq dayOfWeek (Some 6).

Definition isValidWorkingDay (dateStr : string) (holidays : list string)
  : WorkingDayResult :=
  if isWeekend dateStr then
    {| wd_isValid := false;
       reason := Some "Cannot mark attendance on weekends" |}
  else if includes holidays dateStr then
    {| wd_isValid := false;
       reason := Some "Cannot mark attendance on holidays" |}
  else {| wd_isValid := true; reason := None |}.

Definition isWithinInternshipPeriod (date startDate endDate : string) : bool :=
  let checkDate := getTime (Date_new date) in
  let start := getTime (Date_new startDate) in
  let end_ := getTime (Date_new endDate) in
  num_ge checkDate start && num_le checkDate end_.

(** The [while (current <= end)] loop of [getWorkingDaysInRange]; one unit
    of fuel per evaluation of the loop condition. *)
Fixpoint workingDaysLoop (fuel : nat) (current end_ : Date)
    (holidays workingDays : list string) : outcome (list string) :=
  match fuel with
  | O => OutOfFuel
  | S fuel' =>
      if Date_le current end_ then
        iso <- toISOString current ;;
        let dateStr := splitT0 iso in
        let workingDays :=
          if negb (isWeekend dateStr) && negb (includes holidays dateStr)
          then workingDays ++ [dateStr]
          else workingDays in
        let current := setDate current (num_add (getDate current) (Some 1)) in
        workingDaysLoop fuel' current end_ holidays workingDays
      else Value workingDays
  end.

(** Evaluations of the loop condition the loop can need: one per day from
    [current] to [end_], the one that leaves the loop, and two more for days
    that a change of the host's offset makes shorter than 24 hours. *)
Definition loopFuel (current end_ : Date) : nat :=
  match current, end_ with
  | Some c, Some e => S (Z.to_nat ((e - c) / msPerDay + 3))
  | _, _ => 1%nat
  end.

Definition getWorkingDaysInRange (startDate endDate : string)
    (holidays : list string) : outcome (list string) :=
  let workingDays := [] in
  let current := Date_new startDate in
  let end_ := Date_new endDate in
  workingDaysLoop (loopFuel current end_) current end_ holidays workingDays.

Definition getWorkingDaysInWeek (dateStr : string) (holidays : list string)
  : outcome (list string) :=
  let date := Date_new dateStr in
  let dayOfWeek := getDay date in
  let monday := Date_copy date in
  let monday :=
    setDate monday (num_add (num_sub (getDate date) dayOfWeek) (Some 1)) in
  let friday := Date_copy monday in
  let friday := setDate friday (num_add (getDate monday) (Some 4)) in
  mondayIso <- toISOString monday ;;
  fridayIso <- toISOString friday ;;
  getWorkingDaysInRange (splitT0 mondayIso) (splitT0 fridayIso) holidays.

(** The body of the [for (const record of attendanceRecords)] loop, on the
    pair of counters. *)
Definition countStep (startTime endTime : Number) (acc : Z * Z)
    (record : AttendanceRecord) : Z * Z :=
  let '(np, na) := acc in
  let recordTime := getTime (Date_new (date record)) in
  if num_ge recordTime startTime && num_le recordTime endTime then
    if AttendanceStatus_eqb (status record) present then (np + 1, na)
    else (np, na + 1)
  else (np, na).

Definition countAttendance (attendanceRecords : list AttendanceRecord)
    (startDate endDate : string) : AttendanceCount :=
  let startTime := getTime (Date_new startDate) in
  let endTime := getTime (Date_new endDate) in
  let '(np, na) :=
    fold_left (countStep startTime endTime) attendanceRecords (0, 0) in
  {| cnt_present := np; cnt_absent := na; total := np + na |}.

Definition weeklyLimitMessage (daysPerWeekAllowed : Z) : string :=
  "Weekly attendance limit exceeded (" ++ Number_toString daysPerWeekAllowed
    ++ " days per week allowed)".

Definition validateAttendanceMarkable (studentId date_ : string)
    (daysPerWeekAllowed : Z) (internshipStartDate internshipEndDate : string)
    (holidays : list string) (existingAttendance : list AttendanceRecord)
  : outcome ValidationResult :=
  let errors : list string := [] in
  let errors :=
    if negb (isWithinInternshipPeriod date_ internshipStartDate internshipEndDate)
    then errors ++ ["Date is outside internship period"]
    else errors in
  let r := isValidWorkingDay date_ holidays in
  let errors :=
    if negb (wd_isValid r) then
      errors ++ [match reason r with
                 | Some msg => if String.eqb msg "" then "Not a working day" else msg
                 | None => "Not a working day"
                 end]
    else errors in
  let errors :=
    if existsb (fun a => String.eqb (date a) date_) existingAttendance
    then errors ++ ["Attendance already marked for this date"]
    else errors in
  weekWorkingDays <- getWorkingDaysInWeek date_ holidays ;;
  let weekAttendance :=
    filter (fun a => includes weekWorkingDays (date a)) existingAttendance in
  let errors :=
    if daysPerWeekAllowed <=? Z.of_nat (List.length weekAttendance)
    then errors ++ [weeklyLimitMessage daysPerWeekAllowed]
    else errors in
  Value {| isValid := (List.length errors =? 0)%nat; errors := errors |}.
End Attendance.

(** *** [calculateAttendancePercentage]: IEEE 754 binary64 arithmetic *)

(** The number whose value is the integer [n] (exact below 2^53). *)
Definition float_of_Z (n : Z) : float :=
  if n <? 0 then PrimFloat.opp (PrimFloat.of_uint63 (Uint63.of_Z (- n)))
  else PrimFloat.of_uint63 (Uint63.of_Z n).

(** [Math.round]: the nearest integer, a tie going towards +infinity;
    computed exactly on the mantissa and exponent of [x]. *)
Definition Math_round (x : float) : float :=
  match Prim2SF x with
  | S754_finite s m e =>
      if 0 <=? e then x
      else
        let k := - e in
        let n := (2 * (if s then Z.neg m else Z.pos m) + 2 ^ k) / 2 ^ (k + 1) in
        if n =? 0 then (if s then PrimFloat.neg_zero else PrimFloat.zero)
        else float_of_Z n
  | _ => x
  end.

(** The integer a number is, when it is one. *)
Definition integerValue (x : float) : option Z :=
  match Prim2SF x with
  | S754_zero _ => Some 0
  | S754_finite s m e =>
      let sm := if s then Z.neg m else Z.pos m in
      if 0 <=? e then Some (sm * 2 ^ e)
      else if Z.pos m mod 2 ^ (- e) =? 0 then Some (sm / 2 ^ (- e))
      else None
  | _ => None
  end.

Definition calculateAttendancePercentage (presentDays totalWorkingDays : float)
  : float :=
  if PrimFloat.eqb totalWorkingDays (float_of_Z 0) then float_of_Z 0
  else Math_round
         (PrimFloat.mul (PrimFloat.div presentDays totalWorkingDays)
                        (float_of_Z 100)).

(** [round(100 * p / t)] on the rationals, a tie going up. *)
Definition exactPercentage (p t : Z) : Z := (200 * p + t) / (2 * t).

(** ** The custom working-days utility *)

Module CustomWorkingDays.

Record WorkingDaysConfig : Type := {
  daysPerWeek : Z;
  customDays : option (list string);
  internshipStartDate : string;
  internshipEndDate : string
}.

(** The [date: string | Date] parameter. *)
Inductive DateArg : Type :=
| DateString (s : string)
| DateObject (d : Date).

Definition dayNames : list string :=
  ["Sunday"; "Monday"; "Tuesday"; "Wednesday"; "Thursday"; "Friday"; "Saturday"].

(** [dayNames[n]], [undefined] off the array. *)
Definition dayNameAt (n : Number) : option string :=
  match n with
  | Some k => if k <? 0 then None else nth_error dayNames (Z.to_nat k)
  | None => None
  end.

(** An array element inside a template literal. *)
Definition templateText (o : option string) : string :=
  match o with Some s => s | None => "undefined" end.

Definition includesValue (l : list string) (o : option string) : bool :=
  match o with Some s => includes l s | None => false end.

Section Utility.
Context {host : Host}.

Definition isValidWorkingDay (date_ : DateArg) (config : WorkingDaysConfig)
    (holidays : list string) : outcome WorkingDayResult :=
  let checkDate :=
    match date_ with DateString s => Date_new s | DateObject d => d end in
  iso <- toISOString checkDate ;;
  let dateStr := splitT0 iso in
  if String.ltb dateStr (internshipStartDate config) then
    Value {| wd_isValid := false;
             reason := Some "Date is before internship start date" |}
  else if String.ltb (internshipEndDate config) dateStr then
    Value {| wd_isValid := false;
             reason := Some "Date is after internship end date" |}
  else if includes holidays dateStr then
    Value {| wd_isValid := false; reason := Some "Date is a holiday" |}
  else
    let dayOfWeek := getDay checkDate in
    let dayName := dayNameAt dayOfWeek in
    match customDays config with
    | Some (d :: ds) =>
        let custom := d :: ds in
        if negb (includesValue custom dayName) then
          Value {| wd_isValid := false;
                   reason := Some (templateText dayName
                               ++ " is not a working day. Working days: "
                               ++ String.concat ", " custom)%string |}
        else Value {| wd_isValid := true; reason := None |}
    | _ =>
        if num_eq dayOfWeek (Some 0) || num_eq dayOfWeek (Some 6) then
          Value {| wd_isValid := false;
                   reason := Some "Weekends are not working days" |}
        else Value {| wd_isValid := true; reason := None |}
    end.

(** [setHours(0, 0, 0, 0)]. *)
Definition setHoursZero (d : Date) : Date :=
  match d with
  | Some t0 => TimeClip (UTC (MakeDate (Day (LocalTime t0)) 0))
  | None => NaN
  end.

(** The start of the week in [validateWeeklyAttendanceLimit]
    ("Get start of week (Monday)"). *)
Definition startOfWeek (date_ : string) : Date :=
  let checkDate := Date_new date_ in
  let startOfWeek := Date_copy checkDate in
  let day := getDay startOfWeek in
  let diff :=
    num_add (num_sub (getDate startOfWeek) day)
            (if num_eq day (Some 0) then Some (-6) else Some 1) in
  let startOfWeek := setDate startOfWeek diff in
  setHoursZero startOfWeek.
End Utility.

End CustomWorkingDays.

(** ** Vocabulary of the statements *)

(** [n] consecutive time values a day apart, from [c]. *)
Fixpoint daysFrom (c : Z) (n : nat) : list Z :=
  match n with
  | O => []
  | S n' => c :: daysFrom (c + msPerDay) n'
  end.

Section Vocabulary.
Context {host : Host}.

(** The test [getWorkingDaysInRange] applies to each date string. *)
Definition workable (holidays : list string) (dateStr : string) : bool :=
  negb (isWeekend dateStr) && negb (includes holidays dateStr).

(** The calendar day (days since the epoch) and the weekday (0 = Sunday,
    ..., 6 = Saturday) a date string denotes. *)
Definition dayOf (s : string) : option Z :=
  match Date_parse s with Some t => Some (Day t) | None => None end.
Definition weekdayOf (s : string) : option Z :=
  match Date_parse s with Some t => Some (WeekDay t) | None => None end.
End Vocabulary.

(** ** Hosts the statements are instantiated at *)

(** A host whose offset from UTC is [tza] at every time value: no daylight
    saving, no change of zone. *)
Class ConstantOffset {host : Host} (tza : Z) : Prop :=
  constant_offset : forall t isUTC, LocalTZA t isUTC = tza.

(** A server running in UTC, and one in India Standard Time (+05:30), whose
    [Date.parse] gives NaN outside the date-only form. *)
Definition UTC_host : Host :=
  {| LocalTZA := fun _ _ => 0; fallbackParse := fun _ => None |}.
Definition IST_host : Host :=
  {| LocalTZA := fun _ _ => 19800000; fallbackParse := fun _ => None |}.

(** A server in Colombia (America/Bogota): -05:00 all year. *)
Definition Bogota_host : Host :=
  {| LocalTZA := fun _ _ => -18000000; fallbackParse := fun _ => None |}.

(** A server in Egypt in 2024 (Africa/Cairo): +02:00, and +03:00 from the
    clocks going forward on 26 April at 00:00 local time (2024-04-25T22:00Z)
    until they go back on 31 October at 24:00 local time (2024-10-31T21:00Z).
    A local time the clocks skip or repeat is read with the offset in force
    before the change, as ECMA-262 has it. *)
Definition Cairo_dstStart : Z := 1714082400000.
Definition Cairo_dstEnd : Z := 1730408400000.
Definition Cairo_host : Host :=
  {| LocalTZA := fun t isUTC =>
       if isUTC then
         if (Cairo_dstStart <=? t) && (t <? Cairo_dstEnd) then 10800000
         else 7200000
       else
         if t - 10800000 <? Cairo_dstStart then 7200000
         else if t - 10800000 <? Cairo_dstEnd then 10800000
         else 7200000;
     fallbackParse := fun _ => None |}.

(** ** The four checks, as the specification words them *)

Section Checks.
Context {host : Host}.

(** A date string whose week the engine can compute: it parses, and the
    five days before and after its time value are time values a Date can
    hold (every date of the years 0000 to 9999 is such a date). *)
Definition validDate (s : string) : bool :=
  match Date_parse s with
  | Some t => Z.abs t + 5 * msPerDay <=? maxTime
  | None => false
  end.

Definition rangeReason (date_ startDate endDate : string) : list string :=
  if isWithinInternshipPeriod date_ startDate endDate then []
  else ["Date is outside internship period"].

Definition workingDayReason (date_ : string) (holidays : list string)
  : list string :=
  if isWeekend date_ then ["Cannot mark attendance on weekends"]
  else if includes holidays date_ then ["Cannot mark attendance on holidays"]
  else [].

Definition duplicateReason (date_ : string)
    (existingAttendance : list AttendanceRecord) : list string :=
  if existsb (fun a => String.eqb (date a) date_) existingAttendance
  then ["Attendance already marked for this date"]
  else [].

(** The existing records, of either status, dated on one of the days of
    the week. *)
Definition weekCount (weekWorkingDays : list string)
    (existingAttendance : list AttendanceRecord) : Z :=
  Z.of_nat (List.length
    (filter (fun a => includes weekWorkingDays (date a)) existingAttendance)).

Definition weeklyReason (daysPerWeekAllowed : Z)
    (weekWorkingDays : list string)
    (existingAttendance : list AttendanceRecord) : list string :=
  if daysPerWeekAllowed <=? weekCount weekWorkingDays existingAttendance
  then [weeklyLimitMessage daysPerWeekAllowed]
  else [].

(** The records of one status dated on one of the days of the week. *)
Definition weekCountOf (st : AttendanceStatus) (weekWorkingDays : list string)
    (existingAttendance : list AttendanceRecord) : Z :=
  Z.of_nat (List.length
    (filter (fun a => includes weekWorkingDays (date a)
                      && AttendanceStatus_eqb (status a) st)
            existingAttendance)).
End Checks.

(** ** Bounds on the numbers of [calculateAttendancePercentage] *)

(** The exponent of the binary64 numbers of magnitude [2^z]. *)
Definition fexp64 (z : Z) : Z := Z.max (z - 53) (-1074).

(** A number that is zero or positive, with its exponent at most [eb] and
    its value between [lo * 2^eb] and [hi * 2^eb]. *)
Definition SFbetween (f : spec_float) (lo hi eb : Z) : Prop :=
  match f with
  | S754_zero false => lo <= 0 <= hi
  | S754_finite false m e =>
      e <= eb /\ lo * 2 ^ (eb - e) <= Zpos m <= hi * 2 ^ (eb - e)
  | _ => False
  end.

(** The quotient [p / t] rounded down and up to a multiple of [2^-s], and
    a hundred times these rounded down and up to a multiple of [2^(7-s)],
    in units of [2^-s] and of [2^(7-s)]. *)
Definition quotientLow (s p t : Z) : Z := (p * 2 ^ s) / t.
Definition quotientHigh (s p t : Z) : Z := (p * 2 ^ s + t - 1) / t.
Definition productLow (s p t : Z) : Z := (100 * quotientLow s p t) / 128.
Definition productHigh (s p t : Z) : Z := (100 * quotientHigh s p t + 127) / 128.

(** The scale at which the quotient of more present days than working days
    is bracketed: [2^-s] with the quotient below [2^(52 - s)]. *)
Definition quotientScale (p t : Z) : Z := 51 - Z.log2 (p / t).

(** ** The other functions of server/utils/attendance.ts *)

Section AttendanceMore.
Context {host : Host}.

(** [days[date.getDay()]]; [undefined] when the date is invalid. *)
Definition getDayName (dateStr : string) : option string :=
  let date := Date_new dateStr in
  let days := ["Sunday"; "Monday"; "Tuesday"; "Wednesday"; "Thursday";
               "Friday"; "Saturday"] in
  match getDay date with
  | Some k => if k <? 0 then None else nth_error days (Z.to_nat k)
  | None => None
  end.

Definition getTotalWorkingDaysInInternship (startDate endDate : string)
    (holidays : list string) : outcome Z :=
  workingDays <- getWorkingDaysInRange startDate endDate holidays ;;
  Value (Z.of_nat (List.length workingDays)).

(** The [while] loop of [getNextWorkingDay]; one unit of fuel per evaluation
    of the loop condition, [isWeekend(...) || holidays.includes(...)]. *)
Fixpoint nextWorkingDayLoop (fuel : nat) (current : Date)
    (holidays : list string) : outcome Date :=
  match fuel with
  | O => OutOfFuel
  | S fuel' =>
      iso <- toISOString current ;;
      if isWeekend (splitT0 iso) then
        nextWorkingDayLoop fuel'
          (setDate current (num_add (getDate current) (Some 1))) holidays
      else
        iso' <- toISOString current ;;
        if includes holidays (splitT0 iso') then
          nextWorkingDayLoop fuel'
            (setDate current (num_add (getDate current) (Some 1))) holidays
        else Value current
  end.

(** Among the seven days of each of [length holidays + 1] weeks there is a
    day that is no weekend day, and they cannot all be holidays: the loop
    needs no more evaluations of its condition, but two more for dates that
    a change of the host's offset makes it visit twice. *)
Definition nextWorkingDayFuel (holidays : list string) : nat :=
  (7 * S (List.length holidays) + 3)%nat.

Definition getNextWorkingDay (dateStr : string) (holidays : list string)
  : outcome string :=
  let current := Date_new dateStr in
  let current := setDate current (num_add (getDate current) (Some 1)) in
  current <- nextWorkingDayLoop (nextWorkingDayFuel holidays) current holidays ;;
  iso <- toISOString current ;;
  Value (splitT0 iso).

End AttendanceMore.

(** [hasDatePassed]; [now] is the time value of the [new Date()] it reads.
    [setHours(0, 0, 0, 0)] moves a Date to the local midnight of its day. *)
Definition hasDatePassed {host : Host} (now : Z) (dateStr : string) : bool :=
  let date := Date_new dateStr in
  let today : Date := Some now in
  let today := CustomWorkingDays.setHoursZero today in
  let date := CustomWorkingDays.setHoursZero date in
  match date, today with
  | Some a, Some b => a <? b
  | _, _ => false
  end.

(** ** The other functions of the custom working-days utility *)

Module WorkingDaysUtility.
Import CustomWorkingDays.

(** An element of the [existingAttendance] of
    [validateWeeklyAttendanceLimit]. *)
Record WeekRecord : Type := {
  studentEmail : string;
  wr_date : string;
  wr_status : string
}.

Record WeeklyLimitResult : Type := {
  wl_isValid : bool;
  count : Z;
  limit : Z
}.

Section Utility.
Context {host : Host}.

(** The [for (let d = new Date(start); d <= end; d.setDate(d.getDate() + 1))]
    loop of [getWorkingDaysInRange]; one unit of fuel per evaluation of the
    loop condition. *)
Fixpoint workingDaysLoop (fuel : nat) (d end_ : Date)
    (config : WorkingDaysConfig) (holidays workingDays : list string)
  : outcome (list string) :=
  match fuel with
  | O => OutOfFuel
  | S fuel' =>
      if Date_le d end_ then
        iso <- toISOString d ;;
        let dateStr := splitT0 iso in
        r <- isValidWorkingDay (DateString dateStr) config holidays ;;
        let workingDays :=
          if wd_isValid r then workingDays ++ [dateStr] else workingDays in
        workingDaysLoop fuel' (setDate d (num_add (getDate d) (Some 1))) end_
          config holidays workingDays
      else Value workingDays
  end.

Definition getWorkingDaysInRange (startDate endDate : string)
    (config : WorkingDaysConfig) (holidays : list string)
  : outcome (list string) :=
  let workingDays := [] in
  let start := Date_new startDate in
  let end_ := Date_new endDate in
  workingDaysLoop (loopFuel (Date_copy start) end_) (Date_copy start) end_
    config holidays workingDays.

Definition getTotalExpectedWorkingDays (config : WorkingDaysConfig)
    (holidays : list string) : outcome Z :=
  workingDays <- getWorkingDaysInRange (internshipStartDate config)
                   (internshipEndDate config) config holidays ;;
  Value (Z.of_nat (List.length workingDays)).

(** [setHours(23, 59, 59, 999)]. *)
Definition setHoursEndOfDay (d : Date) : Date :=
  match d with
  | Some t0 =>
      TimeClip (UTC (MakeDate (Day (LocalTime t0))
                       (23 * 3600000 + 59 * 60000 + 59 * 1000 + 999)))
  | None => NaN
  end.

Definition endOfWeek (date_ : string) : Date :=
  let startOfWeek := startOfWeek date_ in
  let endOfWeek := Date_copy startOfWeek in
  let endOfWeek :=
    setDate endOfWeek (num_add (getDate startOfWeek) (Some 6)) in
  setHoursEndOfDay endOfWeek.

(** The test of the [filter] of [validateWeeklyAttendanceLimit]. *)
Definition countedInWeek (studentEmail_ : string) (startOfWeek endOfWeek : Date)
    (att : WeekRecord) : bool :=
  if negb (String.eqb (studentEmail att) studentEmail_)
     || negb (String.eqb (wr_status att) "present")
  then false
  else
    let attDate := Date_new (wr_date att) in
    num_ge attDate startOfWeek && num_le attDate endOfWeek.

Definition validateWeeklyAttendanceLimit (studentEmail_ date_ : string)
    (config : WorkingDaysConfig) (existingAttendance : list WeekRecord)
  : WeeklyLimitResult :=
  let presentDaysThisWeek :=
    Z.of_nat (List.length
      (filter (countedInWeek studentEmail_ (startOfWeek date_) (endOfWeek date_))
              existingAttendance)) in
  {| wl_isValid := presentDaysThisWeek <? daysPerWeek config;
     count := presentDaysThisWeek;
     limit := daysPerWeek config |}.

End Utility.
End WorkingDaysUtility.

(** The order of two triples, the first component deciding first. *)
Definition compare3 (a b : Z * Z * Z) : comparison :=
  let '(y1, m1, d1) := a in
  let '(y2, m2, d2) := b in
  match y1 ?= y2 with
  | Eq => match m1 ?= m2 with Eq => d1 ?= d2 | c => c end
  | c => c
  end.

(** The dates [getWorkingDaysInRange] of the utility keeps: those
    [isValidWorkingDay] returns a valid result for. *)
Definition customValid {host : Host}
    (config : CustomWorkingDays.WorkingDaysConfig) (holidays : list string)
    (dateStr : string) : bool :=
  match CustomWorkingDays.isValidWorkingDay
          (CustomWorkingDays.DateString dateStr) config holidays with
  | Value r => wd_isValid r
  | _ => false
  end.

(** A present record of the student dated within the window from [s] to
    [e]. *)
Definition presentWithin {host : Host} (studentEmail_ : string) (s e : Z)
    (att : WorkingDaysUtility.WeekRecord) : bool :=
  String.eqb (WorkingDaysUtility.studentEmail att) studentEmail_
  && String.eqb (WorkingDaysUtility.wr_status att) "present"
  && match Date_parse (WorkingDaysUtility.wr_date att) with
     | Some u => (s <=? u) && (u <=? e)
     | None => false
     end.

(** ** The in-memory data store *)

Module DataStore.

(** The fields of a [Student] the attendance routes read. *)
Record Student : Type := {
  student_id : string;
  student_email : string;
  student_internshipStartDate : string;
  student_internshipEndDate : string;
  student_daysPerWeekAllowed : Z
}.

(** An [AttendanceRecord] of the store. *)
Record StoredAttendance : Type := {
  record_id : string;
  record_studentEmail : string;
  record_date : string;
  record_status : AttendanceStatus;
  record_remarks : option string;
  record_markedBy : option string
}.

(** A [Map<string, V>]: its entries, in insertion order. *)
Fixpoint mapGet {V : Type} (m : list (string * V)) (k : string) : option V :=
  match m with
  | [] => None
  | (k', v) :: rest => if String.eqb k' k then Some v else mapGet rest k
  end.

Fixpoint mapSet {V : Type} (m : list (string * V)) (k : string) (v : V)
  : list (string * V) :=
  match m with
  | [] => [(k, v)]
  | (k', v') :: rest =>
      if String.eqb k' k then (k, v) :: rest else (k', v') :: mapSet rest k v
  end.

(** The maps of the [DataStore] the attendance routes use. *)
Record Store : Type := {
  students : list (string * Student);
  attendance : list (string * list StoredAttendance)
}.

Definition getAllStudents (store : Store) : list Student :=
  map snd (students store).

Definition getAttendance (store : Store) (studentEmail : string)
  : list StoredAttendance :=
  match mapGet (attendance store) studentEmail with
  | Some records => records
  | None => []
  end.

Definition addAttendance (store : Store) (record : StoredAttendance) : Store :=
  let existing := getAttendance store (record_studentEmail record) in
  let existing := existing ++ [record] in
  {| students := students store;
     attendance := mapSet (attendance store) (record_studentEmail record) existing |}.

(** No two records of a student have the same date string. *)
Definition uniqueDates (store : Store) : Prop :=
  forall studentEmail,
    NoDup (map record_date (getAttendance store studentEmail)).

End DataStore.

(** ** The faculty attendance routes *)

Module FacultyRoutes.
Import DataStore.

(** A field of a JSON request body: absent, a string, or another value. *)
Inductive JsonValue : Type :=
| JUndefined
| JString (s : string)
| JOther.

Record Body : Type := {
  body_studentId : JsonValue;
  body_date : JsonValue;
  body_status : JsonValue;
  body_remarks : JsonValue
}.

(** [req.user], as far as the routes read it. *)
Record User : Type := {
  user_email : string;
  user_roleId : string
}.

Record AttendanceJson : Type := {
  json_id : string;
  json_studentId : string;
  json_facultyId : string;
  json_date : string;
  json_status : AttendanceStatus;
  json_remarks : option string;
  json_createdAt : string;
  json_updatedAt : string
}.

Record ValidationDetails : Type := {
  details_isWeekend : bool;
  details_isHoliday : bool;
  details_exceedsWeeklyLimit : bool;
  details_outsideInternshipDates : bool
}.

(** What a handler sends: [res.status(code).json({error, message})], or
    [res.json(response)] with status 200. *)
Inductive Response : Type :=
| ErrorResponse (statusCode : Z) (error : string) (message : option string)
| MarkAttendanceResponse (success : bool) (message : string)
    (attendance : AttendanceJson)
| ValidateAttendanceResponse (isValid_ : bool) (reason_ : option string)
    (details : ValidationDetails).

Definition statusCode (r : Response) : Z :=
  match r with
  | ErrorResponse code _ _ => code
  | _ => 200
  end.

Definition isDigit (c : ascii) : bool :=
  match digitValue c with Some _ => true | None => false end.

(** [/^\d{4}-\d{2}-\d{2}$/]. *)
Definition matchesDatePattern (s : string) : bool :=
  match s with
  | String c1 (String c2 (String c3 (String c4 (String c5 (String c6
      (String c7 (String c8 (String c9 (String c10 EmptyString))))))))) =>
      isDigit c1 && isDigit c2 && isDigit c3 && isDigit c4
      && Ascii.eqb c5 "-" && isDigit c6 && isDigit c7
      && Ascii.eqb c8 "-" && isDigit c9 && isDigit c10
  | _ => false
  end.

(** [z.enum(["present", "absent"])]. *)
Definition parseStatus (s : string) : option AttendanceStatus :=
  if String.eqb s "present" then Some present
  else if String.eqb s "absent" then Some absent
  else None.

(** [markAttendanceSchema.parse(req.body)]; [None] stands for the thrown
    ZodError. *)
Definition parseMarkAttendance (body : Body)
  : option (string * string * AttendanceStatus * option string) :=
  match body_studentId body, body_date body, body_status body with
  | JString studentId, JString date_, JString status_ =>
      if negb (String.eqb studentId "") && matchesDatePattern date_ then
        match parseStatus status_, body_remarks body with
        | Some st, JUndefined => Some (studentId, date_, st, None)
        | Some st, JString remarks => Some (studentId, date_, st, Some remarks)
        | _, _ => None
        end
      else None
  | _, _, _ => None
  end.

(** [validateAttendanceSchema.parse(req.body)]. *)
Definition parseValidateAttendance (body : Body)
  : option (string * string * AttendanceStatus) :=
  match body_studentId body, body_date body, body_status body with
  | JString studentId, JString date_, JString status_ =>
      if negb (String.eqb studentId "") && matchesDatePattern date_ then
        match parseStatus status_ with
        | Some st => Some (studentId, date_, st)
        | None => None
        end
      else None
  | _, _, _ => None
  end.

(** A record of the store as [validateAttendanceMarkable] reads it. *)
Definition asAttendanceRecord (r : StoredAttendance) : AttendanceRecord :=
  {| date := record_date r; status := record_status r |}.

Section Handlers.
Context {host : Host}.

(** The message of the first issue zod reports for a body it rejects. *)
Variable zodMessage : Body -> string.

Definition handleValidateAttendance (store : Store) (body : Body)
  : outcome Response :=
  match parseValidateAttendance body with
  | None =>
      Value (ErrorResponse 400 "Validation error" (Some (zodMessage body)))
  | Some (studentId, date_, status_) =>
      match find (fun s => String.eqb (student_id s) studentId)
                 (getAllStudents store) with
      | None => Value (ErrorResponse 404 "Student not found" None)
      | Some student =>
          let existingAttendance := getAttendance store (student_email student) in
          let holidays : list string := [] in
          match validateAttendanceMarkable studentId date_
                  (student_daysPerWeekAllowed student)
                  (student_internshipStartDate student)
                  (student_internshipEndDate student)
                  holidays (map asAttendanceRecord existingAttendance) with
          | Value validation =>
              Value (ValidateAttendanceResponse
                       (isValid validation)
                       (hd_error (errors validation))
                       {| details_isWeekend :=
                            num_eq (getDay (Date_new date_)) (Some 0)
                            || num_eq (getDay (Date_new date_)) (Some 6);
                          details_isHoliday := includes holidays date_;
                          details_exceedsWeeklyLimit := false;
                          details_outsideInternshipDates :=
                            String.ltb date_ (student_internshipStartDate student)
                            || String.ltb (student_internshipEndDate student) date_ |})
          | Throws (RangeError msg) =>
              Value (ErrorResponse 500 "Validation failed" (Some msg))
          | OutOfFuel => OutOfFuel
          end
      end
  end.

(** [now] is the value of [Date.now()], [created] and [updated] the time
    values of the two [new Date()] of the response. *)
Definition handleMarkAttendance (store : Store) (user : option User)
    (body : Body) (now created updated : Z) : outcome (Response * Store) :=
  match parseMarkAttendance body with
  | None =>
      Value (ErrorResponse 400 "Validation error" (Some (zodMessage body)),
             store)
  | Some (studentId, date_, status_, remarks) =>
      match user with
      | None => Value (ErrorResponse 401 "Not authenticated" None, store)
      | Some u =>
          match find (fun s => String.eqb (student_id s) studentId)
                     (getAllStudents store) with
          | None => Value (ErrorResponse 404 "Student not found" None, store)
          | Some student =>
              let existingAttendance :=
                getAttendance store (student_email student) in
              let holidays : list string := [] in
              match validateAttendanceMarkable studentId date_
                      (student_daysPerWeekAllowed student)
                      (student_internshipStartDate student)
                      (student_internshipEndDate student)
                      holidays (map asAttendanceRecord existingAttendance) with
              | Value validation =>
                  if negb (isValid validation) then
                    Value (ErrorResponse 400 "Cannot mark attendance"
                             (hd_error (errors validation)), store)
                  else
                    let attendanceRecord :=
                      {| record_id := "att-" ++ Number_toString now;
                         record_studentEmail := student_email student;
                         record_date := date_;
                         record_status := status_;
                         record_remarks := remarks;
                         record_markedBy := Some (user_email u) |} in
                    let store := addAttendance store attendanceRecord in
                    Value (MarkAttendanceResponse true
                             "Attendance marked successfully"
                             {| json_id := record_id attendanceRecord;
                                json_studentId := studentId;
                                json_facultyId := user_roleId u;
                                json_date := date_;
                                json_status := status_;
                                json_remarks := remarks;
                                json_createdAt := isoString created;
                                json_updatedAt := isoString updated |},
                           store)
              | Throws (RangeError msg) =>
                  Value (ErrorResponse 500 "Failed to mark attendance" (Some msg),
                         store)
              | OutOfFuel => OutOfFuel
              end
          end
      end
  end.

End Handlers.
End FacultyRoutes.

(** * Properties *)

(** ** The calendar *)

Lemma DayFromYear_succ y : DayFromYear (y + 1) = DayFromYear y + DaysInYear y.
Proof.
  unfold DayFromYear, DaysInYear, isLeapYear.
  destruct (y mod 4 =? 0) eqn:E4; destruct (y mod 100 =? 0) eqn:E100;
    destruct (y mod 400 =? 0) eqn:E400; cbn [andb orb negb];
    rewrite ?Z.eqb_eq, ?Z.eqb_neq in *;
    Z.div_mod_to_equations; lia.
Qed.

(** [YearFromDay d] is the year that contains day [d]. *)
Lemma YearFromDay_spec d :
  DayFromYear (YearFromDay d) <= d < DayFromYear (YearFromDay d + 1).
Proof.
  unfold YearFromDay.
  set (y := 1970 + 400 * d / 146097).
  assert (Hlo : DayFromYear (y - 1) <= d).
  { unfold DayFromYear, y. Z.div_mod_to_equations. lia. }
  assert (Hhi : d < DayFromYear (y + 2)).
  { unfold DayFromYear, y. Z.div_mod_to_equations. lia. }
  destruct (d <? DayFromYear y) eqn:E1.
  - apply Z.ltb_lt in E1. replace (y - 1 + 1) with y by lia. lia.
  - apply Z.ltb_ge in E1.
    destruct (DayFromYear (y + 1) <=? d) eqn:E2.
    + apply Z.leb_le in E2. replace (y + 1 + 1) with (y + 2) by lia. lia.
    + apply Z.leb_gt in E2. lia.
Qed.

Lemma DayWithinYear_range t :
  0 <= DayWithinYear t < DaysInYear (YearFromTime t).
Proof.
  unfold DayWithinYear, YearFromTime.
  pose proof (YearFromDay_spec (Day t)) as H.
  rewrite DayFromYear_succ in H. lia.
Qed.

Lemma InLeapYear_DaysInYear t :
  DaysInYear (YearFromTime t) = 365 + InLeapYear t.
Proof. unfold DaysInYear, InLeapYear. destruct (isLeapYear _); reflexivity. Qed.

Lemma InLeapYear_cases t : InLeapYear t = 0 \/ InLeapYear t = 1.
Proof. unfold InLeapYear. destruct (isLeapYear _); auto. Qed.

Ltac month_cases :=
  unfold monthOfDayWithinYear;
  repeat match goal with
         | |- context [?a <? ?b] =>
             let E := fresh "E" in
             destruct (Z.ltb_spec a b) as [E | E]
         end.

Lemma MonthFromTime_range t : 0 <= MonthFromTime t <= 11.
Proof. unfold MonthFromTime. month_cases; lia. Qed.

(** The date of the month lies in the month. *)
Lemma DateFromTime_range t :
  1 <= DateFromTime t <= DaysInMonth (YearFromTime t) (MonthFromTime t + 1).
Proof.
  pose proof (DayWithinYear_range t) as Hd.
  rewrite InLeapYear_DaysInYear in Hd.
  unfold DateFromTime, DaysInMonth, MonthFromTime.
  fold (InLeapYear t).
  destruct (InLeapYear_cases t) as [-> | ->] in Hd |- *;
    month_cases; cbn; lia.
Qed.

Lemma DaysInMonth_le_31 y m : 1 <= m <= 12 -> DaysInMonth y m <= 31.
Proof.
  intros H. unfold DaysInMonth.
  assert (m = 1 \/ m = 2 \/ m = 3 \/ m = 4 \/ m = 5 \/ m = 6 \/ m = 7 \/ m = 8
          \/ m = 9 \/ m = 10 \/ m = 11 \/ m = 12) as Hm by lia.
  destruct (isLeapYear y);
    repeat (destruct Hm as [-> | Hm]; [cbn; lia|]); subst; cbn; lia.
Qed.

(** [MakeDay] inverts the decomposition of a time value into year, month
    and date, also when the date is moved by [k] days. *)
Lemma MakeDay_fields t k :
  MakeDay (YearFromTime t) (MonthFromTime t) (DateFromTime t + k) = Day t + k.
Proof.
  pose proof (MonthFromTime_range t) as Hm.
  unfold MakeDay.
  rewrite Z.div_small, Z.mod_small, Z.add_0_r by lia.
  unfold DateFromTime, DayWithinYear. fold (InLeapYear t). lia.
Qed.

Lemma Day_TimeWithinDay t : MakeDate (Day t) (TimeWithinDay t) = t.
Proof.
  unfold MakeDate, Day, TimeWithinDay, msPerDay.
  pose proof (Z.div_mod t 86400000). lia.
Qed.

Lemma Day_add_days t k : Day (t + k * msPerDay) = Day t + k.
Proof. unfold Day, msPerDay. rewrite Z.div_add by lia. reflexivity. Qed.

Lemma Day_MakeDate d : Day (MakeDate d 0) = d.
Proof. unfold Day, MakeDate, msPerDay. rewrite Z.add_0_r, Z.div_mul; lia. Qed.

Lemma MakeDate_Day_le t : MakeDate (Day t) 0 <= t < MakeDate (Day t) 0 + msPerDay.
Proof. unfold MakeDate, Day, msPerDay. Z.div_mod_to_equations. lia. Qed.

(** A date-only time value read in a zone at or east of Greenwich is on the
    same calendar day. *)
Lemma Day_LocalTime_midnight tz d :
  0 <= tz < msPerDay -> Day (MakeDate d 0 + tz) = d.
Proof.
  unfold Day, MakeDate, msPerDay. intros H. Z.div_mod_to_equations. lia.
Qed.

Lemma DayFromYear_mono y1 y2 : y1 <= y2 -> DayFromYear y1 <= DayFromYear y2.
Proof. unfold DayFromYear. intros H. Z.div_mod_to_equations. lia. Qed.

(** Years of the time values a Date can hold. *)
Lemma YearFromTime_bounds t :
  Z.abs t <= maxTime -> -271821 <= YearFromTime t <= 275760.
Proof.
  intros Ht. unfold YearFromTime.
  pose proof (YearFromDay_spec (Day t)) as [Hlo Hhi].
  assert (Hd : -100000000 <= Day t <= 100000000).
  { unfold Day, msPerDay, maxTime in *. Z.div_mod_to_equations. lia. }
  split.
  - destruct (Z_lt_le_dec (YearFromDay (Day t)) (-271821)) as [Hy|]; [|assumption].
    pose proof (DayFromYear_mono (YearFromDay (Day t) + 1) (-271821) ltac:(lia)) as Hm.
    assert (DayFromYear (-271821) = -100000109) by reflexivity. lia.
  - destruct (Z_lt_le_dec 275760 (YearFromDay (Day t))) as [Hy|]; [|assumption].
    pose proof (DayFromYear_mono 275761 (YearFromDay (Day t)) ltac:(lia)) as Hm.
    assert (DayFromYear 275761 = 100000110) by reflexivity. lia.
Qed.

(** ** Digits and the date-only form *)

Lemma digit_cases k :
  0 <= k < 10 ->
  k = 0 \/ k = 1 \/ k = 2 \/ k = 3 \/ k = 4 \/ k = 5 \/ k = 6 \/ k = 7
  \/ k = 8 \/ k = 9.
Proof. lia. Qed.

Ltac each_digit H :=
  repeat (destruct H as [-> | H]; [reflexivity |]); subst; reflexivity.

Lemma digitValue_digitChar k : 0 <= k < 10 -> digitValue (digitChar k) = Some k.
Proof. intros H. apply digit_cases in H. each_digit H. Qed.

Lemma digitChar_not_dash k : 0 <= k < 10 -> Ascii.eqb (digitChar k) "-" = false.
Proof. intros H. apply digit_cases in H. each_digit H. Qed.

Lemma digitChar_not_T k : 0 <= k < 10 -> Ascii.eqb (digitChar k) "T" = false.
Proof. intros H. apply digit_cases in H. each_digit H. Qed.

Lemma digits2_digitChar a b :
  0 <= a < 10 -> 0 <= b < 10 ->
  digits2 (digitChar a) (digitChar b) = Some (10 * a + b).
Proof.
  intros Ha Hb. unfold digits2.
  rewrite !digitValue_digitChar by assumption. reflexivity.
Qed.

Lemma mod10_range k : 0 <= k mod 10 < 10.
Proof. apply Z.mod_pos_bound. lia. Qed.

Lemma pad2_value k :
  0 <= k < 100 ->
  digits2 (digitChar (k / 10 mod 10)) (digitChar (k mod 10)) = Some k.
Proof.
  intros H. rewrite digits2_digitChar by apply mod10_range.
  f_equal. Z.div_mod_to_equations. lia.
Qed.

Lemma pad4_value k :
  0 <= k < 10000 ->
  digits4 (digitChar (k / 100 / 10 mod 10)) (digitChar (k / 100 mod 10))
          (digitChar (k / 10 mod 10)) (digitChar (k mod 10)) = Some k.
Proof.
  intros H. unfold digits4. rewrite !digits2_digitChar by apply mod10_range.
  f_equal. Z.div_mod_to_equations. lia.
Qed.

Lemma pad6_value k :
  0 <= k < 1000000 ->
  digits6 (digitChar (k / 10000 / 10 mod 10)) (digitChar (k / 10000 mod 10))
          (digitChar (k / 100 / 10 mod 10)) (digitChar (k / 100 mod 10))
          (digitChar (k / 10 mod 10)) (digitChar (k mod 10)) = Some k.
Proof.
  intros H. unfold digits6, digits4.
  rewrite !digits2_digitChar by apply mod10_range.
  f_equal. Z.div_mod_to_equations. lia.
Qed.

(** Reading back a printed date gives its fields. *)
Lemma dateOnlyFields_print y m d :
  -1000000 < y < 1000000 -> 0 <= m < 100 -> 0 <= d < 100 ->
  dateOnlyFields (isoYear y ++ "-" ++ pad2 m ++ "-" ++ pad2 d) = Some (y, m, d).
Proof.
  intros Hy Hm Hd. unfold isoYear.
  destruct ((0 <=? y) && (y <=? 9999)) eqn:E4.
  - apply andb_true_iff in E4 as [E1 E2].
    apply Z.leb_le in E1, E2.
    cbn [pad4 pad2 append dateOnlyFields].
    change (Ascii.eqb "-" "-") with true. cbn [andb].
    rewrite pad4_value, !pad2_value by lia. reflexivity.
  - destruct (y <? 0) eqn:En.
    + apply Z.ltb_lt in En.
      cbn [pad6 pad4 pad2 append dateOnlyFields].
      change (Ascii.eqb "-" "-") with true. cbn [andb].
      rewrite pad6_value, !pad2_value by lia.
      change (Ascii.eqb "-" "+") with false. cbn match.
      replace (- y =? 0) with false by (symmetry; apply Z.eqb_neq; lia).
      cbn [negb]. rewrite Z.opp_involutive. reflexivity.
    + apply Z.ltb_ge in En.
      cbn [pad6 pad4 pad2 append dateOnlyFields].
      change (Ascii.eqb "-" "-") with true. cbn [andb].
      rewrite pad6_value, !pad2_value by lia.
      change (Ascii.eqb "+" "+") with true. reflexivity.
Qed.

(** The printed date of a time value names the day of that time value. *)
Lemma calendarDay_isoDate t :
  Z.abs t <= maxTime -> calendarDay (isoDate t) = Some (Day t).
Proof.
  intros Ht. unfold calendarDay, isoDate.
  pose proof (YearFromTime_bounds t Ht) as Hy.
  pose proof (MonthFromTime_range t) as Hm.
  pose proof (DateFromTime_range t) as Hd.
  pose proof (DaysInMonth_le_31 (YearFromTime t) (MonthFromTime t + 1) ltac:(lia)).
  rewrite dateOnlyFields_print by lia.
  replace (1 <=? MonthFromTime t + 1) with true by (symmetry; apply Z.leb_le; lia).
  replace (MonthFromTime t + 1 <=? 12) with true by (symmetry; apply Z.leb_le; lia).
  replace (1 <=? DateFromTime t) with true by (symmetry; apply Z.leb_le; lia).
  replace (DateFromTime t <=? _) with true by (symmetry; apply Z.leb_le; lia).
  cbn [andb]. f_equal.
  replace (MonthFromTime t + 1 - 1) with (MonthFromTime t) by lia.
  pose proof (MakeDay_fields t 0) as E. rewrite !Z.add_0_r in E. exact E.
Qed.

Lemma splitT0_app a b : splitT0 a = a -> splitT0 (a ++ String "T" b) = a.
Proof.
  induction a as [| c r IH]; intros H; cbn in *.
  - reflexivity.
  - destruct (Ascii.eqb c "T"); [discriminate|].
    injection H as H. rewrite IH by assumption. reflexivity.
Qed.

Lemma splitT0_digit k r :
  splitT0 (String (digitChar (k mod 10)) r)
  = String (digitChar (k mod 10)) (splitT0 r).
Proof. cbn. rewrite digitChar_not_T by apply mod10_range. reflexivity. Qed.

Lemma splitT0_isoDate t : splitT0 (isoDate t) = isoDate t.
Proof.
  unfold isoDate, isoYear.
  destruct (_ && _); [| destruct (_ <? _)];
    cbn [pad6 pad4 pad2 append]; unfold pad2;
    repeat (rewrite splitT0_digit
            || (progress change (splitT0 (String "-" ?r)) with (String "-" (splitT0 r)))
            || (progress change (splitT0 (String "+" ?r)) with (String "+" (splitT0 r))));
    reflexivity.
Qed.

(** [toISOString().split("T")[0]] is the printed date. *)
Lemma splitT0_isoString t : splitT0 (isoString t) = isoDate t.
Proof. unfold isoString. cbn [append]. apply splitT0_app, splitT0_isoDate. Qed.

Lemma TimeClip_ok t : Z.abs t <= maxTime -> TimeClip t = Some t.
Proof. intros H. unfold TimeClip. apply Z.leb_le in H. rewrite H. reflexivity. Qed.

Lemma TimeClip_Some t u : TimeClip t = Some u -> u = t /\ Z.abs t <= maxTime.
Proof.
  unfold TimeClip. destruct (Z.leb_spec (Z.abs t) maxTime); intros E;
    inversion E; subst; auto.
Qed.

Lemma midnight_in_range t : Z.abs t <= maxTime -> Z.abs (MakeDate (Day t) 0) <= maxTime.
Proof.
  unfold MakeDate, Day, msPerDay, maxTime. intros H.
  Z.div_mod_to_equations. lia.
Qed.

(** ** The Date object *)

Section DateFacts.
Context {host : Host}.

Lemma Date_parse_in_range s t : Date_parse s = Some t -> Z.abs t <= maxTime.
Proof.
  unfold Date_parse.
  destruct (calendarDay s); [| destruct (fallbackParse s); [| discriminate]];
    intros H; apply TimeClip_Some in H as [-> H]; exact H.
Qed.

(** Parsing what [toISOString().split("T")[0]] printed gives midnight
    (UTC) of the printed day. *)
Lemma Date_parse_isoDate t :
  Z.abs t <= maxTime -> Date_parse (isoDate t) = Some (MakeDate (Day t) 0).
Proof.
  intros H. unfold Date_parse. rewrite calendarDay_isoDate by assumption.
  apply TimeClip_ok, midnight_in_range, H.
Qed.

Lemma toISOString_date t : 
  bind (toISOString (Some t)) (fun iso => Value (splitT0 iso)) = Value (isoDate t).
Proof. cbn. rewrite splitT0_isoString. reflexivity. Qed.

Lemma WeekDay_range t : 0 <= WeekDay t < 7.
Proof. unfold WeekDay. apply Z.mod_pos_bound. lia. Qed.
End DateFacts.

(** *** On a host with a constant offset from UTC *)

Section ConstantOffsetFacts.
Context {host : Host} {tza : Z} {fixed : ConstantOffset tza}.

Lemma LocalTime_constant t : LocalTime t = t + tza.
Proof. unfold LocalTime. rewrite constant_offset. reflexivity. Qed.

Lemma UTC_constant t : UTC t = t - tza.
Proof. unfold UTC. rewrite constant_offset. reflexivity. Qed.

(** [d.setDate(d.getDate() + k)] moves the time value by [k] days. *)
Lemma setDate_getDate t k :
  setDate (Some t) (num_add (getDate (Some t)) (Some k))
  = TimeClip (t + k * msPerDay).
Proof.
  unfold setDate, getDate, num_add. rewrite UTC_constant.
  rewrite MakeDay_fields. f_equal.
  pose proof (Day_TimeWithinDay (LocalTime t)) as E.
  rewrite LocalTime_constant in *. unfold MakeDate in *. lia.
Qed.

Lemma setDate_getDate_sub t j k :
  setDate (Some t) (num_add (num_sub (getDate (Some t)) (Some j)) (Some k))
  = TimeClip (t + (k - j) * msPerDay).
Proof.
  rewrite <- setDate_getDate. unfold getDate, num_add, num_sub.
  do 2 f_equal. lia.
Qed.

(** In a zone at or east of Greenwich the local weekday of a date-only
    time value is the weekday of its calendar day. *)
Lemma WeekDay_LocalTime_midnight d :
  0 <= tza < msPerDay ->
  WeekDay (LocalTime (MakeDate d 0)) = WeekDay (MakeDate d 0).
Proof.
  intros H. unfold WeekDay. rewrite LocalTime_constant.
  rewrite Day_LocalTime_midnight by assumption.
  rewrite Day_MakeDate. reflexivity.
Qed.
End ConstantOffsetFacts.

(** ** [getWorkingDaysInRange] *)

Section RangeFacts.
Context {host : Host} {tza : Z} {fixed : ConstantOffset tza}.
Variable holidays : list string.

Lemma daysFrom_In c n t :
  In t (daysFrom c n) <->
  exists i, 0 <= i < Z.of_nat n /\ t = c + i * msPerDay.
Proof.
  revert c. induction n as [| n IH]; intros c; cbn [daysFrom In].
  - split; [tauto | intros (i & Hi & _); lia].
  - rewrite IH. split.
    + intros [<- | (i & Hi & ->)].
      * exists 0. lia.
      * exists (i + 1). lia.
    + intros (i & Hi & ->).
      destruct (Z.eq_dec i 0) as [-> | Hne]; [left; lia |].
      right. exists (i - 1). lia.
Qed.

(** The loop returns, with the working days among the dates it visits
    appended in the order of the visit. *)
Lemma workingDaysLoop_spec n : forall c e acc fuel,
  Z.abs c <= maxTime -> e <= maxTime ->
  Z.of_nat n = Z.max 0 ((e - c) / msPerDay + 1) ->
  (n < fuel)%nat ->
  workingDaysLoop fuel (Some c) (Some e) holidays acc
  = Value (acc ++ filter (workable holidays) (map isoDate (daysFrom c n))).
Proof.
  induction n as [| n IH]; intros c e acc fuel Hc He Hn Hfuel;
    (destruct fuel as [| fuel]; [lia |]); cbn [workingDaysLoop].
  - assert (e < c).
    { unfold msPerDay in *. Z.div_mod_to_equations. lia. }
    unfold Date_le, num_le.
    replace (c <=? e) with false by (symmetry; apply Z.leb_gt; lia).
    cbn. rewrite app_nil_r. reflexivity.
  - assert (c <= e).
    { unfold msPerDay in *. Z.div_mod_to_equations. lia. }
    unfold Date_le, num_le.
    replace (c <=? e) with true by (symmetry; apply Z.leb_le; lia).
    cbn [toISOString bind]. rewrite splitT0_isoString.
    rewrite setDate_getDate.
    cbn [daysFrom map filter]. fold (workable holidays (isoDate c)).
    replace (1 * msPerDay) with msPerDay by lia.
    set (acc' := if workable holidays (isoDate c) then acc ++ [isoDate c] else acc).
    assert (Hacc : forall l,
      acc' ++ l = acc ++ (if workable holidays (isoDate c)
                          then isoDate c :: l else l)).
    { intros l. unfold acc'. destruct (workable _ _); [| reflexivity].
      rewrite <- app_assoc. reflexivity. }
    unfold TimeClip.
    destruct (Z.leb_spec (Z.abs (c + msPerDay)) maxTime) as [Hin | Hout].
    + rewrite (IH (c + msPerDay) e acc' fuel); try lia.
      * rewrite Hacc. destruct (workable _ _); reflexivity.
      * unfold msPerDay in *. Z.div_mod_to_equations. lia.
    + assert (n = 0%nat) as ->.
      { unfold msPerDay, maxTime in *. Z.div_mod_to_equations. lia. }
      destruct fuel as [| fuel]; [lia |]. cbn [workingDaysLoop Date_le num_le].
      cbn [daysFrom map filter]. rewrite <- Hacc, app_nil_r. reflexivity.
Qed.

(** [getWorkingDaysInRange] always returns: the working days among the
    dates from the start to the end when both parse, nothing otherwise. *)
Lemma getWorkingDaysInRange_spec startDate endDate :
  getWorkingDaysInRange startDate endDate holidays
  = Value match Date_parse startDate, Date_parse endDate with
          | Some c, Some e =>
              filter (workable holidays)
                (map isoDate (daysFrom c (Z.to_nat ((e - c) / msPerDay + 1))))
          | _, _ => []
          end.
Proof.
  unfold getWorkingDaysInRange, Date_new.
  destruct (Date_parse startDate) as [c |] eqn:Ec;
    [destruct (Date_parse endDate) as [e |] eqn:Ee |]; try reflexivity.
  unfold loopFuel.
  apply Date_parse_in_range in Ec, Ee.
  rewrite (workingDaysLoop_spec (Z.to_nat ((e - c) / msPerDay + 1))); try lia.
  reflexivity.
Qed.
End RangeFacts.

Section RangeProperties.
Context {host : Host}.
Variable holidays : list string.

Lemma dayOf_isoDate t : Z.abs t <= maxTime -> dayOf (isoDate t) = Some (Day t).
Proof.
  intros H. unfold dayOf. rewrite Date_parse_isoDate by assumption.
  rewrite Day_MakeDate. reflexivity.
Qed.

Lemma filter_map_comm {A B : Type} (p : B -> bool) (f : A -> B) (l : list A) :
  filter p (map f l) = map f (filter (fun x => p (f x)) l).
Proof.
  induction l as [| x l IH]; cbn; [reflexivity |].
  destruct (p (f x)); cbn; rewrite IH; reflexivity.
Qed.

Lemma StronglySorted_map_filter {A : Type} (f : A -> Z) (q : A -> bool) l :
  StronglySorted Z.lt (map f l) -> StronglySorted Z.lt (map f (filter q l)).
Proof.
  induction l as [| x l IH]; cbn; intros H; [constructor |].
  inversion H as [| ? ? Hs Hall]; subst.
  destruct (q x); cbn; [constructor |]; auto.
  rewrite Forall_forall in *. intros y Hy. apply Hall.
  apply in_map_iff in Hy as (z & <- & Hz). apply filter_In in Hz as [Hz _].
  apply in_map. exact Hz.
Qed.

Lemma daysFrom_sorted n : forall c, StronglySorted Z.lt (map Day (daysFrom c n)).
Proof.
  induction n as [| n IH]; intros c; cbn; constructor; [apply IH |].
  rewrite Forall_forall. intros d Hd.
  apply in_map_iff in Hd as (t & <- & Ht).
  apply daysFrom_In in Ht as (i & Hi & ->).
  replace (c + msPerDay + i * msPerDay) with (c + (i + 1) * msPerDay) by lia.
  rewrite Day_add_days. lia.
Qed.

(** The time values the loop visits between two valid time values. *)
Lemma daysFrom_visited c e t :
  Z.abs c <= maxTime -> Z.abs e <= maxTime ->
  In t (daysFrom c (Z.to_nat ((e - c) / msPerDay + 1))) ->
  Z.abs t <= maxTime /\ Day c <= Day t <= Day e /\ t <= e
  /\ exists i, 0 <= i /\ t = c + i * msPerDay.
Proof.
  intros Hc He Ht. apply daysFrom_In in Ht as (i & Hi & ->).
  rewrite Day_add_days.
  assert (c + i * msPerDay <= e).
  { unfold msPerDay in *. Z.div_mod_to_equations. lia. }
  assert (Day c + i <= Day e).
  { replace (Day c + i) with (Day (c + i * msPerDay)) by apply Day_add_days.
    unfold Day, msPerDay in *. Z.div_mod_to_equations. lia. }
  split; [unfold msPerDay in *; lia |].
  split; [lia |]. split; [lia |]. exists i. lia.
Qed.
End RangeProperties.

Section RangeClaim.
Context {host : Host} {tza : Z} {fixed : ConstantOffset tza}.

Lemma isWeekend_false_weekday s d :
  0 <= tza < msPerDay ->
  Date_parse s = Some (MakeDate d 0) ->
  isWeekend s = false ->
  exists w, weekdayOf s = Some w /\ w <> 0 /\ w <> 6.
Proof.
  intros Htz Hs Hw. unfold weekdayOf. rewrite Hs.
  exists (WeekDay (MakeDate d 0)). split; [reflexivity |].
  unfold isWeekend, Date_new, getDay in Hw. rewrite Hs in Hw.
  rewrite WeekDay_LocalTime_midnight in Hw by assumption.
  apply orb_false_iff in Hw as [H0 H6]. cbn in H0, H6.
  apply Z.eqb_neq in H0, H6. auto.
Qed.

(** On a host whose offset from UTC never changes, [getWorkingDaysInRange]
    returns strictly ascending days between the start and the end, none of
    them a weekend day by the test of the code or a holiday; at or east of
    UTC, none a Saturday or a Sunday. *)
Lemma getWorkingDaysInRange_constant_offset
    (startDate endDate : string) (holidays : list string) :
  exists l,
    getWorkingDaysInRange startDate endDate holidays = Value l
    /\ (exists ds,
          map dayOf l = map Some ds
          /\ StronglySorted Z.lt ds
          /\ forall d, In d ds ->
               exists s e, dayOf startDate = Some s /\ dayOf endDate = Some e
                           /\ s <= d <= e)
    /\ (forall s, In s l ->
          isWeekend s = false /\ includes holidays s = false
          /\ (0 <= tza < msPerDay ->
              exists w, weekdayOf s = Some w /\ w <> 0 /\ w <> 6))
    /\ (forall ts te, Date_parse startDate = Some ts ->
          Date_parse endDate = Some te -> te < ts -> l = []).
Proof.
  rewrite getWorkingDaysInRange_spec.
  eexists. split; [reflexivity |].
  destruct (Date_parse startDate) as [c |] eqn:Ec;
    [destruct (Date_parse endDate) as [e |] eqn:Ee |].
  2, 3: (split; [exists []; repeat split; [constructor | intros ? []] |];
         split; [intros ? [] | reflexivity]).
  pose proof (Date_parse_in_range _ _ Ec) as Hc.
  pose proof (Date_parse_in_range _ _ Ee) as He.
  set (n := Z.to_nat ((e - c) / msPerDay + 1)).
  split; [| split].
  - exists (map Day (filter (fun t => workable holidays (isoDate t)) (daysFrom c n))).
    split; [| split].
    + rewrite filter_map_comm, !map_map. apply map_ext_in.
      intros t Ht. apply filter_In in Ht as [Ht _].
      apply daysFrom_visited in Ht as [Ht _]; try assumption.
      apply dayOf_isoDate, Ht.
    + apply StronglySorted_map_filter, daysFrom_sorted.
    + intros d Hd. apply in_map_iff in Hd as (t & <- & Ht).
      apply filter_In in Ht as [Ht _].
      apply daysFrom_visited in Ht as (_ & Hr & _); try assumption.
      exists (Day c), (Day e). unfold dayOf. rewrite Ec, Ee. auto.
  - intros s Hs. apply filter_In in Hs as [Hs Hw].
    apply in_map_iff in Hs as (t & <- & Ht).
    apply daysFrom_visited in Ht as (Ht & _); try assumption.
    unfold workable in Hw. apply andb_true_iff in Hw as [Hw Hh].
    apply negb_true_iff in Hw, Hh.
    split; [assumption |]. split; [assumption |]. intros Htz.
    apply (isWeekend_false_weekday _ (Day t)); try assumption.
    apply Date_parse_isoDate, Ht.
  - intros ts te Hts Hte Hlt. inversion Hts; inversion Hte; subst.
    replace n with 0%nat; [reflexivity |].
    assert ((te - ts) / msPerDay + 1 <= 0).
    { unfold msPerDay. Z.div_mod_to_equations. lia. }
    unfold n. lia.
Qed.
End RangeClaim.

Section RangeClaimAnyHost.
Context {host : Host}.

(** [setDate] leaves a time value a Date can hold, or NaN. *)
Lemma setDate_in_range d n c : setDate d n = Some c -> Z.abs c <= maxTime.
Proof.
  destruct d as [t |], n as [k |]; try discriminate.
  unfold setDate. intros H. apply TimeClip_Some in H as [-> H]. exact H.
Qed.

(** One turn of the loop, from a date up to the end. *)
Lemma workingDaysLoop_turn holidays fuel c e acc :
  c <= e ->
  workingDaysLoop (S fuel) (Some c) (Some e) holidays acc
  = workingDaysLoop fuel (setDate (Some c) (num_add (getDate (Some c)) (Some 1)))
      (Some e) holidays
      (if workable holidays (isoDate c) then acc ++ [isoDate c] else acc).
Proof.
  intros Hle. apply Z.leb_le in Hle.
  change (workingDaysLoop (S fuel) (Some c) (Some e) holidays acc)
    with (if c <=? e
          then iso <- Value (isoString c) ;;
               workingDaysLoop fuel
                 (setDate (Some c) (num_add (getDate (Some c)) (Some 1)))
                 (Some e) holidays
                 (if workable holidays (splitT0 iso)
                  then acc ++ [splitT0 iso] else acc)
          else Value acc).
  rewrite Hle. cbn [bind]. rewrite splitT0_isoString. reflexivity.
Qed.

(** Whatever the loop returns was already in the list, or is the printed
    date of a time value up to the end that passed the test of the loop. *)
Lemma workingDaysLoop_pushed holidays fuel : forall current end_ acc l,
  (forall c, current = Some c -> Z.abs c <= maxTime) ->
  workingDaysLoop fuel current end_ holidays acc = Value l ->
  forall s, In s l ->
    In s acc
    \/ (workable holidays s = true
        /\ exists c e, end_ = Some e /\ c <= e /\ Z.abs c <= maxTime
                       /\ s = isoDate c).
Proof.
  induction fuel as [| fuel IH]; intros current end_ acc l Hrange H s Hs;
    [discriminate |].
  destruct current as [c |], end_ as [e |];
    try (injection H as <-; left; exact Hs).
  destruct (Z.le_gt_cases c e) as [Hle | Hgt].
  - rewrite (workingDaysLoop_turn _ _ _ _ _ Hle) in H.
    apply IH with (s := s) in H;
      [| intros c' Hc'; exact (setDate_in_range _ _ _ Hc') | exact Hs].
    destruct H as [H | H]; [| right; exact H].
    destruct (workable holidays (isoDate c)) eqn:E; [| left; exact H].
    apply in_app_or in H as [H | [<- | []]]; [left; exact H |].
    right. split; [exact E |]. exists c, e. auto.
  - apply Z.leb_gt in Hgt.
    change (workingDaysLoop (S fuel) (Some c) (Some e) holidays acc)
      with (if c <=? e
            then iso <- toISOString (Some c) ;;
                 workingDaysLoop fuel
                   (setDate (Some c) (num_add (getDate (Some c)) (Some 1)))
                   (Some e) holidays
                   (if negb (isWeekend (splitT0 iso))
                       && negb (includes holidays (splitT0 iso))
                    then acc ++ [splitT0 iso] else acc)
            else Value acc) in H.
    rewrite Hgt in H. injection H as <-. left. exact Hs.
Qed.

End RangeClaimAnyHost.


(** ** [getWorkingDaysInWeek] *)

Section WeekFacts.
Context {host : Host} {tza : Z} {fixed : ConstantOffset tza}.

(** For a date at least five days inside the range of time values,
    [getWorkingDaysInWeek] returns the working days among five consecutive
    days; the first is the day of the date, moved by one minus the local
    weekday number of the date. *)
Lemma getWorkingDaysInWeek_spec dateStr holidays t :
  Date_parse dateStr = Some t ->
  Z.abs t + 5 * msPerDay <= maxTime ->
  getWorkingDaysInWeek dateStr holidays
  = Value (filter (workable holidays)
             (map isoDate
                (daysFrom (MakeDate (Day t + 1 - WeekDay (LocalTime t)) 0) 5))).
Proof.
  intros Ht Hr. unfold getWorkingDaysInWeek, Date_new, Date_copy.
  rewrite Ht. cbn [getDay].
  pose proof (WeekDay_range (LocalTime t)) as Hw.
  set (w := WeekDay (LocalTime t)) in *.
  rewrite setDate_getDate_sub.
  set (tm := t + (1 - w) * msPerDay).
  assert (Hm : - maxTime <= tm /\ tm + 4 * msPerDay <= maxTime).
  { unfold tm, msPerDay, maxTime in *. lia. }
  rewrite (TimeClip_ok tm) by (unfold msPerDay in *; lia).
  rewrite setDate_getDate.
  rewrite (TimeClip_ok (tm + 4 * msPerDay)) by (unfold msPerDay in *; lia).
  cbn [toISOString bind]. rewrite !splitT0_isoString.
  rewrite getWorkingDaysInRange_spec.
  rewrite !Date_parse_isoDate by (unfold msPerDay in *; lia).
  rewrite Day_add_days. unfold tm. rewrite Day_add_days.
  replace ((MakeDate (Day t + (1 - w) + 4) 0 - MakeDate (Day t + (1 - w)) 0)
             / msPerDay + 1) with 5.
  - replace (Day t + (1 - w)) with (Day t + 1 - w) by lia. reflexivity.
  - unfold MakeDate, msPerDay. Z.div_mod_to_equations. lia.
Qed.
End WeekFacts.

(** ** [validateAttendanceMarkable] *)

Section ValidatorFacts.
Context {host : Host}.

(** The result, once the week is known: the reasons of the failed checks,
    one list per check, in the order of the checks. *)
Lemma validateAttendanceMarkable_unfold studentId date_ daysPerWeekAllowed
    startDate endDate holidays existingAttendance :
  validateAttendanceMarkable studentId date_ daysPerWeekAllowed
    startDate endDate holidays existingAttendance
  = (weekWorkingDays <- getWorkingDaysInWeek date_ holidays ;;
     let errs :=
       rangeReason date_ startDate endDate
       ++ workingDayReason date_ holidays
       ++ duplicateReason date_ existingAttendance
       ++ weeklyReason daysPerWeekAllowed weekWorkingDays existingAttendance in
     Value {| isValid := match errs with [] => true | _ => false end;
              errors := errs |}).
Proof.
  unfold validateAttendanceMarkable.
  destruct (getWorkingDaysInWeek date_ holidays) as [wk | e |]; cbn [bind];
    try reflexivity.
  unfold rangeReason, workingDayReason, duplicateReason, weeklyReason,
    weekCount, isValidWorkingDay.
  destruct (isWithinInternshipPeriod date_ startDate endDate);
    destruct (isWeekend date_); destruct (includes holidays date_);
    destruct (existsb _ existingAttendance);
    destruct (daysPerWeekAllowed <=? _); reflexivity.
Qed.

Lemma weeklyLimitMessage_head n :
  exists rest, weeklyLimitMessage n = String "W" rest.
Proof. unfold weeklyLimitMessage. cbn [append]. eexists. reflexivity. Qed.

Lemma weekCount_split weekWorkingDays existingAttendance :
  weekCount weekWorkingDays existingAttendance
  = weekCountOf present weekWorkingDays existingAttendance
    + weekCountOf absent weekWorkingDays existingAttendance.
Proof.
  unfold weekCount, weekCountOf.
  induction existingAttendance as [| a l IH]; [reflexivity |].
  cbn [filter]. destruct (includes weekWorkingDays (date a)); cbn [andb];
    [| exact IH].
  destruct (status a); cbn [AttendanceStatus_eqb List.length]; lia.
Qed.

(** C10. The result does not depend on [studentId]. *)
Theorem validateAttendanceMarkable_ignores_studentId
    (studentId1 studentId2 date_ : string) (daysPerWeekAllowed : Z)
    (startDate endDate : string) (holidays : list string)
    (existingAttendance : list AttendanceRecord) :
  validateAttendanceMarkable studentId1 date_ daysPerWeekAllowed
    startDate endDate holidays existingAttendance
  = validateAttendanceMarkable studentId2 date_ daysPerWeekAllowed
      startDate endDate holidays existingAttendance.
Proof. reflexivity. Qed.
End ValidatorFacts.

(** *** On a host with a constant offset from UTC *)

Section ValidatorClaims.
Context {host : Host} {tza : Z} {fixed : ConstantOffset tza}.

Lemma validDate_week date_ holidays :
  validDate date_ = true ->
  exists weekWorkingDays,
    getWorkingDaysInWeek date_ holidays = Value weekWorkingDays.
Proof.
  unfold validDate. destruct (Date_parse date_) as [t |] eqn:Et;
    [| discriminate].
  intros H. apply Z.leb_le in H.
  eexists. apply (getWorkingDaysInWeek_spec _ _ t); assumption.
Qed.

(** C1. On a host with a constant offset from UTC, a date whose week can
    be computed is validated by the four checks, all of them: the result is returned, [errors] is the reasons of
    the range, working-day, duplicate and weekly-quota checks that failed,
    in that order, and [isValid] holds exactly when [errors] is empty.  A
    record of [existingAttendance] dated on the date makes the result
    invalid, with "Attendance already marked for this date" among the
    errors. *)
Theorem validateAttendanceMarkable_collects_reasons
    (studentId date_ : string) (daysPerWeekAllowed : Z)
    (startDate endDate : string) (holidays : list string)
    (existingAttendance : list AttendanceRecord) :
  validDate date_ = true ->
  exists r weekWorkingDays,
    validateAttendanceMarkable studentId date_ daysPerWeekAllowed
      startDate endDate holidays existingAttendance = Value r
    /\ getWorkingDaysInWeek date_ holidays = Value weekWorkingDays
    /\ errors r =
         rangeReason date_ startDate endDate
         ++ workingDayReason date_ holidays
         ++ duplicateReason date_ existingAttendance
         ++ weeklyReason daysPerWeekAllowed weekWorkingDays existingAttendance
    /\ (isValid r = true <-> errors r = [])
    /\ ((exists a, In a existingAttendance /\ date a = date_) ->
        isValid r = false
        /\ In "Attendance already marked for this date" (errors r)).
Proof.
  intros Hd. destruct (validDate_week date_ holidays Hd) as [wk Hwk].
  rewrite validateAttendanceMarkable_unfold, Hwk. cbn [bind].
  eexists. exists wk. split; [reflexivity |]. split; [reflexivity |].
  cbn [errors isValid]. split; [reflexivity |]. split.
  - destruct (_ ++ _); split; congruence.
  - intros (a & Ha & Hdate).
    assert (Hdup : duplicateReason date_ existingAttendance
                   = ["Attendance already marked for this date"]).
    { unfold duplicateReason.
      replace (existsb _ existingAttendance) with true; [reflexivity |].
      symmetry. apply existsb_exists. exists a. split; [assumption |].
      apply String.eqb_eq, Hdate. }
    rewrite Hdup.
    assert (Hin : In "Attendance already marked for this date"
              (rangeReason date_ startDate endDate
               ++ workingDayReason date_ holidays
               ++ ["Attendance already marked for this date"]
               ++ weeklyReason daysPerWeekAllowed wk existingAttendance)).
    { rewrite !in_app_iff. right. right. left. left. reflexivity. }
    split; [| exact Hin].
    destruct (_ ++ _); [destruct Hin | reflexivity].
Qed.

(** C2. On a host with a constant offset from UTC, for a date whose week
    can be computed: the weekly-quota check counts the existing records,
    Present and Absent alike, dated on one of the working days of the week
    of the date,
    and its reason is among the errors exactly when that count has reached
    [daysPerWeekAllowed]: rejected with the count at the limit, not
    rejected by this check with the count one below. *)
Theorem weekly_quota_inclusive_cap
    (studentId date_ : string) (daysPerWeekAllowed : Z)
    (startDate endDate : string) (holidays : list string)
    (existingAttendance : list AttendanceRecord) :
  validDate date_ = true ->
  exists r weekWorkingDays,
    validateAttendanceMarkable studentId date_ daysPerWeekAllowed
      startDate endDate holidays existingAttendance = Value r
    /\ getWorkingDaysInWeek date_ holidays = Value weekWorkingDays
    /\ (In (weeklyLimitMessage daysPerWeekAllowed) (errors r)
        <-> daysPerWeekAllowed <= weekCount weekWorkingDays existingAttendance)
    /\ weekCount weekWorkingDays existingAttendance
       = weekCountOf present weekWorkingDays existingAttendance
         + weekCountOf absent weekWorkingDays existingAttendance
    /\ (weekCount weekWorkingDays existingAttendance = daysPerWeekAllowed ->
        isValid r = false)
    /\ (weekCount weekWorkingDays existingAttendance = daysPerWeekAllowed - 1 ->
        ~ In (weeklyLimitMessage daysPerWeekAllowed) (errors r)).
Proof.
  intros Hd. destruct (validDate_week date_ holidays Hd) as [wk Hwk].
  rewrite validateAttendanceMarkable_unfold, Hwk. cbn [bind].
  eexists. exists wk. split; [reflexivity |]. split; [reflexivity |].
  cbn [errors isValid].
  destruct (weeklyLimitMessage_head daysPerWeekAllowed) as [rest Hmsg].
  assert (Hiff : In (weeklyLimitMessage daysPerWeekAllowed)
            (rangeReason date_ startDate endDate
             ++ workingDayReason date_ holidays
             ++ duplicateReason date_ existingAttendance
             ++ weeklyReason daysPerWeekAllowed wk existingAttendance)
          <-> daysPerWeekAllowed <= weekCount wk existingAttendance).
  { rewrite !in_app_iff.
    unfold rangeReason, workingDayReason, duplicateReason, weeklyReason.
    destruct (Z.leb_spec daysPerWeekAllowed (weekCount wk existingAttendance))
      as [Hle | Hgt].
    - split; [intros _; exact Hle |]. intros _. do 3 right. left. reflexivity.
    - split; [| lia]. rewrite Hmsg.
      destruct (isWithinInternshipPeriod date_ startDate endDate);
        destruct (isWeekend date_); destruct (includes holidays date_);
        destruct (existsb _ existingAttendance); cbn;
        intuition discriminate. }
  split; [exact Hiff |]. split; [apply weekCount_split |]. split.
  - intros Heq. assert (Hin := proj2 Hiff ltac:(lia)).
    destruct (_ ++ _); [destruct Hin | reflexivity].
  - intros Heq Hin. apply Hiff in Hin. lia.
Qed.
End ValidatorClaims.

Section WorkingDayClaim.
Context {host : Host} {tza : Z} {fixed : ConstantOffset tza}.

Lemma isWeekend_calendar s d :
  0 <= tza < msPerDay ->
  Date_parse s = Some (MakeDate d 0) ->
  isWeekend s = (((d + 4) mod 7 =? 0) || ((d + 4) mod 7 =? 6)).
Proof.
  intros Htz Hs. unfold isWeekend, Date_new. rewrite Hs.
  cbn [getDay num_eq]. rewrite WeekDay_LocalTime_midnight by assumption.
  unfold WeekDay. rewrite Day_MakeDate. reflexivity.
Qed.

End WorkingDayClaim.

(** ** [countAttendance] *)

Section CountFacts.
Context {host : Host}.

(** The records of one status dated within the range. *)
Lemma countStep_fold startDate endDate records : forall np na,
  fold_left (countStep (getTime (Date_new startDate)) (getTime (Date_new endDate)))
    records (np, na)
  = (np + Z.of_nat (List.length (filter (fun r =>
            isWithinInternshipPeriod (date r) startDate endDate
            && AttendanceStatus_eqb (status r) present) records)),
     na + Z.of_nat (List.length (filter (fun r =>
            isWithinInternshipPeriod (date r) startDate endDate
            && AttendanceStatus_eqb (status r) absent) records))).
Proof.
  induction records as [| r l IH]; intros np na; cbn [fold_left filter].
  - cbn. f_equal; lia.
  - unfold countStep at 2. fold (isWithinInternshipPeriod (date r) startDate endDate).
    destruct (isWithinInternshipPeriod (date r) startDate endDate); cbn [andb].
    + destruct (status r); cbn [AttendanceStatus_eqb]; rewrite IH;
        cbn [List.length]; f_equal; lia.
    + rewrite IH. reflexivity.
Qed.

(** C7. [countAttendance] tallies exactly the records dated within the
    inclusive range: [present] is the number of them that are Present,
    [absent] the number that are Absent, and [total] is their sum. *)
Theorem countAttendance_tallies_range
    (records : list AttendanceRecord) (startDate endDate : string) :
  let c := countAttendance records startDate endDate in
  cnt_present c
  = Z.of_nat (List.length (filter (fun r =>
        isWithinInternshipPeriod (date r) startDate endDate
        && AttendanceStatus_eqb (status r) present) records))
  /\ cnt_absent c
     = Z.of_nat (List.length (filter (fun r =>
        isWithinInternshipPeriod (date r) startDate endDate
        && AttendanceStatus_eqb (status r) absent) records))
  /\ total c = cnt_present c + cnt_absent c.
Proof.
  unfold countAttendance. rewrite countStep_fold. cbn. auto.
Qed.

(** The range is inclusive at both ends. *)
Lemma isWithinInternshipPeriod_iff s startDate endDate :
  isWithinInternshipPeriod s startDate endDate = true
  <-> exists t a b, Date_parse s = Some t /\ Date_parse startDate = Some a
                    /\ Date_parse endDate = Some b /\ a <= t <= b.
Proof.
  unfold isWithinInternshipPeriod, Date_new, getTime, num_ge, num_le.
  destruct (Date_parse s) as [t |], (Date_parse startDate) as [a |],
    (Date_parse endDate) as [b |]; cbn;
    try (split; [discriminate | intros (? & ? & ? & ? & ? & ? & ?); discriminate]).
  - rewrite andb_true_iff, !Z.leb_le. split.
    + intros H. exists t, a, b. auto.
    + intros (? & ? & ? & E1 & E2 & E3 & H).
      inversion E1; inversion E2; inversion E3; subst. exact H.
  - rewrite andb_false_r.
    split; [discriminate | intros (? & ? & ? & ? & ? & ? & ?); discriminate].
Qed.
End CountFacts.

(** ** Malformed dates *)

Section MalformedFacts.
Context {host : Host}.

Lemma getWorkingDaysInWeek_unparsable date_ holidays :
  Date_parse date_ = None ->
  getWorkingDaysInWeek date_ holidays = Throws (RangeError "Invalid time value").
Proof.
  intros H. unfold getWorkingDaysInWeek, Date_new, Date_copy. rewrite H.
  reflexivity.
Qed.

End MalformedFacts.

(** ** The custom working-days utility *)

Section CustomDaysClaim.
Context {host : Host}.
Import CustomWorkingDays.

Lemma dayNameAt_weekday t :
  exists name, dayNameAt (Some (WeekDay t)) = Some name /\ In name dayNames.
Proof.
  pose proof (WeekDay_range t) as H.
  assert (WeekDay t = 0 \/ WeekDay t = 1 \/ WeekDay t = 2 \/ WeekDay t = 3
          \/ WeekDay t = 4 \/ WeekDay t = 5 \/ WeekDay t = 6) as Hc by lia.
  unfold dayNameAt.
  repeat (destruct Hc as [-> | Hc]; [eexists; split; [reflexivity | cbn; tauto] |]).
  rewrite Hc. eexists; split; [reflexivity | cbn; tauto].
Qed.

End CustomDaysClaim.
(** ** [calculateAttendancePercentage]

    The binary64 operations are those of the Standard Library's primitive
    floats, specified by [SpecFloat]: a result is the exact value rounded to
    the nearest number the format holds.  What is needed of the rounding here
    is that it never crosses a number the format holds: the rounded value of
    a number between two multiples of a power of two lies between them. *)

(** *** Mantissas and shifts *)
(** A mantissa of [d] binary digits lies between [2^(d-1)] and [2^d]. *)
Lemma digits2_pos_bounds m :
  2 ^ (Zpos (digits2_pos m) - 1) <= Zpos m < 2 ^ Zpos (digits2_pos m).
Proof.
  induction m as [m IH | m IH |]; cbn [digits2_pos].
  - rewrite Pos2Z.inj_succ. replace (Z.succ (Zpos (digits2_pos m)) - 1)
      with (Z.succ (Zpos (digits2_pos m) - 1)) by lia.
    rewrite !Z.pow_succ_r by lia. lia.
  - rewrite Pos2Z.inj_succ. replace (Z.succ (Zpos (digits2_pos m)) - 1)
      with (Z.succ (Zpos (digits2_pos m) - 1)) by lia.
    rewrite !Z.pow_succ_r by lia. lia.
  - cbn. lia.
Qed.

Lemma Zdigits2_upper m d :
  0 <= m -> 0 <= d -> m < 2 ^ d -> Zdigits2 m <= d.
Proof.
  intros Hm Hd Hlt. destruct m as [| m | m]; cbn [Zdigits2]; [lia | | lia].
  pose proof (digits2_pos_bounds m) as [Hlo _].
  destruct (Z.le_gt_cases (Zpos (digits2_pos m)) d) as [H | H]; [exact H |].
  assert (2 ^ d <= 2 ^ (Zpos (digits2_pos m) - 1)) by (apply Z.pow_le_mono_r; lia).
  lia.
Qed.

(* iter_pos as nat iteration *)
(** The iteration of [SpecFloat], as an iteration over [nat]. *)
Lemma iter_pos_nat {A} (f : A -> A) p : forall x,
  iter_pos f p x = Nat.iter (Pos.to_nat p) f x.
Proof.
  assert (Hdouble : forall n (x : A),
            Nat.iter n f (Nat.iter n f x) = Nat.iter (n + n) f x)
    by (intros n x; symmetry; apply Nat.iter_add).
  induction p as [p IH | p IH |]; intros x; cbn [iter_pos].
  - rewrite !IH, Hdouble, <- Nat.iter_succ_r. f_equal. lia.
  - rewrite !IH, Hdouble. f_equal. lia.
  - reflexivity.
Qed.

(** Shifting a mantissa right by one digit halves it; no digit is lost
    when it is even. *)
Lemma shr_1_m mrs : 0 <= shr_m mrs -> shr_m (shr_1 mrs) = shr_m mrs / 2.
Proof.
  destruct mrs as [m r s]. cbn [shr_m]. intros H.
  destruct m as [| [m | m |] | m]; cbn [shr_1 shr_m].
  - reflexivity.
  - rewrite (Pos2Z.inj_xI m). Z.div_mod_to_equations. lia.
  - rewrite (Pos2Z.inj_xO m). Z.div_mod_to_equations. lia.
  - reflexivity.
  - lia.
Qed.

Lemma shr_1_exact mrs :
  0 <= shr_m mrs -> shr_r mrs = false -> shr_s mrs = false ->
  shr_m mrs mod 2 = 0 ->
  shr_r (shr_1 mrs) = false /\ shr_s (shr_1 mrs) = false.
Proof.
  destruct mrs as [m r s]. cbn [shr_m shr_r shr_s]. intros H -> -> Hm.
  destruct m as [| [m | m |] | m]; cbn [shr_1 shr_r shr_s orb]; auto.
  - rewrite (Pos2Z.inj_xI m) in Hm. exfalso. Z.div_mod_to_equations. lia.
  - discriminate.
  - lia.
Qed.

(** Shifting [n] times divides by [2^n]. *)
Lemma shr_iter_m n : forall mrs,
  0 <= shr_m mrs ->
  shr_m (Nat.iter n shr_1 mrs) = shr_m mrs / 2 ^ Z.of_nat n.
Proof.
  induction n as [| n IH]; intros mrs H.
  - cbn. rewrite Z.div_1_r. reflexivity.
  - rewrite Nat.iter_succ_r, IH by (rewrite shr_1_m by assumption; apply Z.div_pos; lia).
    rewrite shr_1_m by assumption.
    rewrite Nat2Z.inj_succ, Z.pow_succ_r by lia.
    rewrite Z.div_div by lia. reflexivity.
Qed.

Lemma shr_iter_exact n : forall mrs,
  0 <= shr_m mrs -> shr_r mrs = false -> shr_s mrs = false ->
  shr_m mrs mod 2 ^ Z.of_nat n = 0 ->
  shr_r (Nat.iter n shr_1 mrs) = false /\ shr_s (Nat.iter n shr_1 mrs) = false.
Proof.
  induction n as [| n IH]; intros mrs H Hr Hs Hm.
  - cbn. auto.
  - rewrite Nat2Z.inj_succ, Z.pow_succ_r in Hm by lia.
    pose proof (Z.pow_pos_nonneg 2 (Z.of_nat n) ltac:(lia) ltac:(lia)) as Hp.
    apply Z.mod_divide in Hm; [| lia]. destruct Hm as [c Hc].
    assert (Hc' : shr_m mrs = c * 2 ^ Z.of_nat n * 2) by (rewrite Hc; ring).
    assert (H2 : shr_m mrs mod 2 = 0) by (rewrite Hc'; apply Z_mod_mult).
    destruct (shr_1_exact mrs H Hr Hs H2) as [Hr1 Hs1].
    rewrite Nat.iter_succ_r. apply IH; try assumption.
    + rewrite shr_1_m by assumption. apply Z.div_pos; lia.
    + rewrite shr_1_m by assumption. rewrite Hc', Z.div_mul by lia.
      apply Z_mod_mult.
Qed.

Lemma shr_record_of_loc_m m l : shr_m (shr_record_of_loc m l) = m.
Proof. destruct l as [| []]; reflexivity. Qed.

(** [shr]: the mantissa is divided by [2^k]; the location stays exact
    when the division is. *)
Lemma shr_spec m l e n :
  0 <= m ->
  let k := Z.max n 0 in
  exists mrs,
    shr (shr_record_of_loc m l) e n = (mrs, e + k)
    /\ shr_m mrs = m / 2 ^ k
    /\ (l = loc_Exact -> m mod 2 ^ k = 0 -> loc_of_shr_record mrs = loc_Exact).
Proof.
  intros Hm k. unfold shr. destruct n as [| p | p].
  - exists (shr_record_of_loc m l). subst k. cbn [Z.max Z.compare].
    rewrite Z.add_0_r, Z.pow_0_r, Z.div_1_r, shr_record_of_loc_m.
    repeat split. intros -> _. reflexivity.
  - exists (iter_pos shr_1 p (shr_record_of_loc m l)).
    assert (Ek : k = Z.of_nat (Pos.to_nat p)) by (subst k; lia).
    replace (e + Zpos p) with (e + k) by lia.
    rewrite iter_pos_nat, Ek. split; [reflexivity |]. split.
    + rewrite shr_iter_m; rewrite shr_record_of_loc_m; [reflexivity | assumption].
    + intros -> Hmod.
      destruct (shr_iter_exact (Pos.to_nat p) (shr_record_of_loc m loc_Exact))
        as [Hr Hs]; try reflexivity; try assumption.
      destruct (Nat.iter _ _ _) as [m' r' s']. cbn in Hr, Hs. subst. reflexivity.
  - exists (shr_record_of_loc m l). subst k. cbn [Z.max Z.compare].
    rewrite Z.add_0_r, Z.pow_0_r, Z.div_1_r, shr_record_of_loc_m.
    repeat split. intros -> _. reflexivity.
Qed.

(** Rounding a truncated mantissa keeps it or adds one, and keeps it when
    nothing was lost. *)
Lemma round_nearest_even_bounds m l :
  m <= round_nearest_even m l <= m + 1
  /\ (l = loc_Exact -> round_nearest_even m l = m).
Proof.
  destruct l as [| []]; cbn [round_nearest_even]; try (split; [lia | auto; discriminate]).
  destruct (Z.even m); split; try lia; discriminate.
Qed.

Lemma fexp_64 z : fexp prec emax z = fexp64 z.
Proof. reflexivity. Qed.

(** The exponent after one alignment stays at or below [eb] for a mantissa
    below [2^53 * 2^(eb - e)]. *)
Lemma aligned_exponent m e eb :
  0 <= m -> e <= eb -> -1074 <= eb -> m < 2 ^ (53 + (eb - e)) ->
  e + Z.max (fexp64 (Zdigits2 m + e) - e) 0 <= eb.
Proof.
  intros Hm He Hb Hlt.
  pose proof (Zdigits2_upper m (53 + (eb - e)) Hm ltac:(lia) Hlt).
  unfold fexp64. lia.
Qed.

(** Scaling a bound [c * 2^(eb - e)] down by [2^k] when [e + k <= eb]. *)
Lemma scaled_bound c e k eb :
  0 <= k -> e + k <= eb ->
  c * 2 ^ (eb - e) = c * 2 ^ (eb - (e + k)) * 2 ^ k.
Proof.
  intros Hk He. rewrite <- Z.mul_assoc, <- Z.pow_add_r by lia.
  do 2 f_equal. lia.
Qed.

(** Rounding does not cross a number the format holds: a value between
    [lo * 2^eb] and [hi * 2^eb] (with [hi] of at most 53 digits) is rounded
    to a number between them, of exponent at most [eb]. *)
Lemma binary_round_aux_between m e l lo hi eb :
  0 <= m -> e <= eb -> -1074 <= eb <= 971 -> 0 < hi < 2 ^ 53 ->
  lo * 2 ^ (eb - e) <= m <= hi * 2 ^ (eb - e) ->
  (m = hi * 2 ^ (eb - e) -> l = loc_Exact) ->
  SFbetween (binary_round_aux prec emax false m e l) lo hi eb.
Proof.
  intros Hm He Heb Hhi Hb Hex.
  unfold binary_round_aux, shr_fexp. rewrite !fexp_64.
  set (k1 := Z.max (fexp64 (Zdigits2 m + e) - e) 0).
  destruct (shr_spec m l e (fexp64 (Zdigits2 m + e) - e) Hm)
    as (mrs1 & -> & Hm1 & Hl1). fold k1 in Hm1, Hl1 |- *.
  assert (Hk1 : 0 <= k1) by (unfold k1; lia).
  assert (Hpow : forall z, 0 <= z -> 0 < 2 ^ z)
    by (intros z Hz; apply Z.pow_pos_nonneg; lia).
  assert (Hlt : m < 2 ^ (53 + (eb - e))).
  { rewrite Z.pow_add_r by lia.
    pose proof (Hpow (eb - e) ltac:(lia)). nia. }
  assert (He1 : e + k1 <= eb) by (apply aligned_exponent; assumption || lia).
  set (e1 := e + k1) in *.
  (* bounds at exponent e1 *)
  rewrite (scaled_bound lo e k1 eb), (scaled_bound hi e k1 eb) in Hb by assumption.
  rewrite (scaled_bound hi e k1 eb) in Hex by assumption.
  fold e1 in Hb, Hex.
  set (A1 := lo * 2 ^ (eb - e1)) in *. set (B1 := hi * 2 ^ (eb - e1)) in *.
  pose proof (Hpow k1 Hk1) as Hp1.
  assert (Hm1b : A1 <= shr_m mrs1 <= B1).
  { rewrite Hm1. split.
    - apply Z.div_le_lower_bound; lia.
    - apply Z.div_le_upper_bound; lia. }
  pose proof (round_nearest_even_bounds (shr_m mrs1) (loc_of_shr_record mrs1))
    as [Hr Hrex].
  set (m2 := round_nearest_even (shr_m mrs1) (loc_of_shr_record mrs1)) in *.
  assert (Hm2 : A1 <= m2 <= B1).
  { split; [lia |].
    destruct (Z.eq_dec (shr_m mrs1) B1) as [E | N]; [| lia].
    assert (Em : m = B1 * 2 ^ k1).
    { rewrite Hm1 in E.
      pose proof (Z.mul_div_le m (2 ^ k1) Hp1). rewrite E in *. lia. }
    rewrite Hrex; [lia |]. apply Hl1; [apply Hex, Em |].
    rewrite Em. apply Z_mod_mult. }
  assert (Hm2pos : 0 <= m2).
  { assert (0 <= shr_m mrs1) by (rewrite Hm1; apply Z.div_pos; lia). lia. }
  (* second alignment *)
  cbv beta iota. rewrite ?fexp_64.
  change (round_nearest_even (shr_m mrs1) (loc_of_shr_record mrs1)) with m2.
  change (e + k1) with e1.
  set (k2 := Z.max (fexp64 (Zdigits2 m2 + e1) - e1) 0).
  destruct (shr_spec m2 loc_Exact e1 (fexp64 (Zdigits2 m2 + e1) - e1) Hm2pos)
    as (mrs2 & -> & Hm3 & _). fold k2 in Hm3 |- *.
  assert (Hk2 : 0 <= k2) by (unfold k2; lia).
  assert (Hlt2 : m2 < 2 ^ (53 + (eb - e1))).
  { rewrite Z.pow_add_r by lia.
    pose proof (Hpow (eb - e1) ltac:(lia)). unfold B1 in Hm2. nia. }
  assert (He2 : e1 + k2 <= eb) by (apply aligned_exponent; assumption || lia).
  set (e2 := e1 + k2) in *.
  unfold A1, B1 in Hm2.
  rewrite (scaled_bound lo e1 k2 eb), (scaled_bound hi e1 k2 eb) in Hm2
    by assumption.
  fold e2 in Hm2.
  pose proof (Hpow k2 Hk2) as Hp2.
  assert (Hm3b : lo * 2 ^ (eb - e2) <= shr_m mrs2 <= hi * 2 ^ (eb - e2)).
  { rewrite Hm3. split.
    - apply Z.div_le_lower_bound; lia.
    - apply Z.div_le_upper_bound; lia. }
  assert (Hm3pos : 0 <= shr_m mrs2) by (rewrite Hm3; apply Z.div_pos; lia).
  destruct (shr_m mrs2) as [| m3 | m3] eqn:E3; [| | lia].
  - cbn [SFbetween]. pose proof (Hpow (eb - e2) ltac:(lia)). nia.
  - replace (e2 <=? emax - prec) with true
      by (symmetry; apply Z.leb_le; unfold emax, prec; lia).
    cbn [SFbetween]. auto.
Qed.

(** Aligning a mantissa to a smaller exponent keeps the value. *)
Lemma shl_align_spec mx ex ex' :
  exists mz ez,
    shl_align mx ex ex' = (mz, ez)
    /\ ez = Z.min ex ex' /\ Zpos mz = Zpos mx * 2 ^ (ex - ez).
Proof.
  unfold shl_align. destruct (ex' - ex) as [| d | d] eqn:E.
  - exists mx, ex. split; [reflexivity |]. split; [lia |].
    replace (ex - ex) with 0 by lia. lia.
  - exists mx, ex. split; [reflexivity |]. split; [lia |].
    replace (ex - ex) with 0 by lia. lia.
  - exists (Pos.iter xO mx d), ex'. split; [reflexivity |]. split; [lia |].
    replace (ex - ex') with (Zpos d) by lia.
    change (Pos.iter xO mx d) with (shift_pos d mx).
    rewrite shift_pos_correct.
    change (Zpower_pos 2 d) with (2 ^ Zpos d). lia.
Qed.

(** A positive integer below 2^53 is converted exactly. *)
Lemma Prim2SF_float_of_Z p :
  0 < p < 2 ^ 53 -> SFbetween (Prim2SF (float_of_Z p)) p p 0.
Proof.
  intros Hp. unfold float_of_Z.
  replace (p <? 0) with false by (symmetry; apply Z.ltb_ge; lia).
  rewrite of_uint63_spec, Uint63.of_Z_spec.
  rewrite Z.mod_small by (unfold wB; cbn; lia).
  destruct p as [| m | m]; try lia.
  cbn [binary_normalize]. unfold binary_round.
  destruct (shl_align_spec m 0 (fexp prec emax (Zpos (digits2_pos m) + 0)))
    as (mz & ez & -> & Hez & Hmz).
  assert (He : ez <= 0) by lia.
  replace (0 - ez) with (- ez) in Hmz by lia.
  apply binary_round_aux_between; try lia.
  - replace (0 - ez) with (- ez) by lia. lia.
  - intros _. reflexivity.
Qed.

Lemma new_location_zero d : new_location d 0 = loc_Exact.
Proof.
  unfold new_location, new_location_even, new_location_odd.
  destruct (Z.even d); reflexivity.
Qed.

Lemma pow2_pos z : 0 <= z -> 0 < 2 ^ z.
Proof. intros H. apply Z.pow_pos_nonneg; lia. Qed.

(** The quotient of two positive numbers that hold the integers [p] and
    [t], between two bounds that are multiples of [2^eb]. *)
Lemma SFdiv_between mx ex my ey p t lo hi eb :
  ex <= 0 -> ey <= 0 ->
  Zpos mx = p * 2 ^ (- ex) -> Zpos my = t * 2 ^ (- ey) ->
  -1074 <= eb <= 0 -> 0 < hi < 2 ^ 53 ->
  lo * t <= p * 2 ^ (- eb) <= hi * t ->
  SFbetween (SFdiv prec emax (S754_finite false mx ex) (S754_finite false my ey))
    lo hi eb.
Proof.
  intros Hex Hey Hmx Hmy Heb Hhi Hb.
  pose proof (pow2_pos (- ex) ltac:(lia)) as Ha.
  pose proof (pow2_pos (- ey) ltac:(lia)) as Hbp.
  pose proof (pow2_pos (- eb) ltac:(lia)) as Hc.
  set (a := 2 ^ (- ex)) in *. set (b := 2 ^ (- ey)) in *.
  set (c := 2 ^ (- eb)) in *.
  assert (Hp : 0 < p) by nia. assert (Ht : 0 < t) by nia.
  cbn [SFdiv xorb]. unfold SFdiv_core_binary. cbn [Zdigits2].
  rewrite fexp_64.
  pose proof (digits2_pos_bounds mx) as [Hd1 _].
  pose proof (digits2_pos_bounds my) as [_ Hd2].
  set (d1 := Zpos (digits2_pos mx)) in *. set (d2 := Zpos (digits2_pos my)) in *.
  set (e' := Z.min (fexp64 (d1 + ex - (d2 + ey))) (ex - ey)).
  assert (He' : e' <= eb).
  { destruct (Z.le_gt_cases e' eb) as [H | H]; [exact H | exfalso].
    assert (Hz : d1 - 1 - ey - eb >= 53 + d2 - ex)
      by (unfold e', fexp64 in H; lia).
    assert (H1 : Zpos mx * b * c <= hi * Zpos my * a).
    { rewrite Hmx, Hmy.
      assert (p * c * (a * b) <= hi * t * (a * b))
        by (apply Z.mul_le_mono_nonneg_r; nia).
      lia. }
    assert (H2 : hi * Zpos my * a < 2 ^ 53 * 2 ^ d2 * a).
    { apply Z.mul_lt_mono_pos_r; [assumption |].
      apply Z.mul_lt_mono_nonneg; lia. }
    assert (H3 : 2 ^ (d1 - 1) * b * c <= Zpos mx * b * c).
    { apply Z.mul_le_mono_nonneg_r; [lia |].
      apply Z.mul_le_mono_nonneg_r; lia. }
    assert (H4 : 2 ^ (d1 - 1 - ey - eb) < 2 ^ (53 + d2 - ex)).
    { replace (d1 - 1 - ey - eb) with ((d1 - 1) + (- ey) + (- eb)) by lia.
      replace (53 + d2 - ex) with (53 + d2 + (- ex)) by lia.
      unfold d1, d2 in *. rewrite !Z.pow_add_r by lia.
      fold a b c. lia. }
    apply Z.pow_lt_mono_r_iff in H4; unfold d2; lia. }
  assert (Hs : 0 <= ex - ey - e') by (unfold e'; lia).
  set (s := ex - ey - e') in *.
  assert (Hm' : match s with
                | 0 => Zpos mx
                | Zpos _ => Z.shiftl (Zpos mx) s
                | Zneg _ => 0
                end = Zpos mx * 2 ^ s).
  { destruct s as [| s' | s'] eqn:Es; [cbn; lia | | lia].
    apply Z.shiftl_mul_pow2. lia. }
  rewrite Hm'.
  pose proof (Z_div_mod (Zpos mx * 2 ^ s) (Zpos my) ltac:(lia)) as Hdiv.
  destruct (Z.div_eucl (Zpos mx * 2 ^ s) (Zpos my)) as [q r].
  destruct Hdiv as [Hq Hr].
  pose proof (pow2_pos (eb - e') ltac:(lia)) as HP.
  set (P := 2 ^ (eb - e')) in *.
  assert (HM : Zpos mx * 2 ^ s = p * c * (P * b)).
  { rewrite Hmx. unfold a, b, c, P, s.
    rewrite <- !Z.mul_assoc, <- !Z.pow_add_r by lia.
    do 2 f_equal. lia. }
  rewrite HM in Hq.
  assert (Hlo : lo * P * Zpos my <= p * c * (P * b)).
  { rewrite Hmy.
    assert (lo * t * (P * b) <= p * c * (P * b))
      by (apply Z.mul_le_mono_nonneg_r; nia).
    lia. }
  assert (Hup : p * c * (P * b) <= hi * P * Zpos my).
  { rewrite Hmy.
    assert (p * c * (P * b) <= hi * t * (P * b))
      by (apply Z.mul_le_mono_nonneg_r; nia).
    lia. }
  assert (Hql : lo * P <= q) by nia.
  assert (Hqu : q <= hi * P) by nia.
  apply binary_round_aux_between; try lia.
  - nia.
  - intros Eq. assert (r = 0) by nia. subst r. apply new_location_zero.
Qed.

(** The product with a positive number, between two bounds that are
    multiples of [2^eb']. *)
Lemma SFmul_between x mc ec lo hi eb lo' hi' eb' :
  SFbetween x lo hi eb ->
  eb + ec <= eb' -> -1074 <= eb' <= 971 -> 0 < hi' < 2 ^ 53 ->
  lo' * 2 ^ (eb' - eb - ec) <= lo * Zpos mc ->
  hi * Zpos mc <= hi' * 2 ^ (eb' - eb - ec) ->
  SFbetween (SFmul prec emax x (S754_finite false mc ec)) lo' hi' eb'.
Proof.
  intros Hx He Heb' Hhi' Hlo Hup.
  pose proof (pow2_pos (eb' - eb - ec) ltac:(lia)) as HP.
  set (P := 2 ^ (eb' - eb - ec)) in *.
  destruct x as [[|] | | | [|] mx ex]; cbn [SFbetween] in Hx; try contradiction.
  - cbn [SFmul xorb SFbetween]. nia.
  - destruct Hx as (Hex & Hl & Hu).
    cbn [SFmul xorb].
    pose proof (pow2_pos (eb - ex) ltac:(lia)) as HR.
    assert (E : 2 ^ (eb' - (ex + ec)) = P * 2 ^ (eb - ex)).
    { unfold P. rewrite <- Z.pow_add_r by lia. f_equal. lia. }
    set (R := 2 ^ (eb - ex)) in *.
    apply binary_round_aux_between; try lia.
    + rewrite E, Pos2Z.inj_mul. split.
      * assert (lo' * P * R <= lo * Zpos mc * R)
          by (apply Z.mul_le_mono_nonneg_r; lia).
        assert (lo * R * Zpos mc <= Zpos mx * Zpos mc)
          by (apply Z.mul_le_mono_nonneg_r; lia).
        lia.
      * assert (hi * Zpos mc * R <= hi' * P * R)
          by (apply Z.mul_le_mono_nonneg_r; lia).
        assert (Zpos mx * Zpos mc <= hi * R * Zpos mc)
          by (apply Z.mul_le_mono_nonneg_r; lia).
        lia.
    + intros _. reflexivity.
Qed.

(** [integerValue] reads back the integer a number was made from. *)
Lemma integerValue_float_of_Z n :
  0 <= n < 2 ^ 53 -> integerValue (float_of_Z n) = Some n.
Proof.
  intros Hn. destruct (Z.eq_dec n 0) as [-> | Hne]; [reflexivity |].
  pose proof (Prim2SF_float_of_Z n ltac:(lia)) as H.
  unfold integerValue.
  destruct (Prim2SF (float_of_Z n)) as [[|] | | | [|] m e];
    cbn [SFbetween] in H; try contradiction; try lia.
  destruct H as (He & Hl & Hu).
  replace (0 - e) with (- e) in * by lia.
  assert (Em : Zpos m = n * 2 ^ (- e)) by lia.
  pose proof (pow2_pos (- e) ltac:(lia)) as HP.
  destruct (Z.leb_spec 0 e) as [H0 | H0].
  - assert (e = 0) by lia. subst e. cbn in Em |- *. f_equal. lia.
  - rewrite Em, Z_mod_mult. cbn [Z.eqb]. rewrite Z.div_mul by lia. reflexivity.
Qed.

(** [Math.round] of a number between two bounds that are multiples of
    [2^eb], below a half: an integer between the roundings of the bounds. *)
Lemma Math_round_between x lo hi eb a b :
  SFbetween (Prim2SF x) lo hi eb -> eb <= -1 ->
  (2 * a - 1) * 2 ^ (- eb - 1) <= lo ->
  hi < (2 * b + 1) * 2 ^ (- eb - 1) ->
  b < 2 ^ 53 ->
  exists n, integerValue (Math_round x) = Some n /\ a <= n <= b /\ 0 <= n.
Proof.
  intros Hx Heb Hlo Hhi Hb53.
  pose proof (pow2_pos (- eb - 1) ltac:(lia)) as HP.
  set (P := 2 ^ (- eb - 1)) in *.
  unfold Math_round.
  destruct (Prim2SF x) as [[|] | | | [|] m e] eqn:Ex;
    cbn [SFbetween] in Hx; try contradiction.
  - exists 0. unfold integerValue. rewrite Ex. split; [reflexivity |]. nia.
  - destruct Hx as (He & Hl & Hu).
    replace (0 <=? e) with false by (symmetry; apply Z.leb_gt; lia).
    pose proof (pow2_pos (eb - e) ltac:(lia)) as HR.
    assert (Ek : 2 ^ (- e) = 2 * (P * 2 ^ (eb - e))).
    { unfold P. rewrite <- Z.pow_add_r, <- Z.pow_succ_r by lia. f_equal. lia. }
    assert (Ek1 : 2 ^ (- e + 1) = 4 * (P * 2 ^ (eb - e))).
    { rewrite Z.pow_add_r, Ek by lia. lia. }
    set (R := 2 ^ (eb - e)) in *.
    cbv zeta. rewrite Ek, Ek1.
    set (n := (2 * Zpos m + 2 * (P * R)) / (4 * (P * R))).
    assert (Hn : a <= n < b + 1).
    { unfold n. split.
      - apply Z.div_le_lower_bound; [nia |].
        assert ((2 * a - 1) * P * R <= lo * R)
          by (apply Z.mul_le_mono_nonneg_r; lia).
        lia.
      - apply Z.div_lt_upper_bound; [nia |].
        assert (hi * R <= ((2 * b + 1) * P - 1) * R)
          by (apply Z.mul_le_mono_nonneg_r; lia).
        nia. }
    assert (Hn0 : 0 <= n) by (unfold n; apply Z.div_pos; nia).
    exists n. split; [| lia].
    destruct (Z.eqb_spec n 0) as [-> | Hne]; [reflexivity |].
    apply integerValue_float_of_Z. lia.
Qed.

Lemma Prim2SF_hundred :
  Prim2SF (float_of_Z 100) = S754_finite false 7036874417766400 (-46).
Proof. vm_compute. reflexivity. Qed.

(** The mantissa and exponent of a positive integer below 2^53. *)
Lemma Prim2SF_integer v :
  0 < v < 2 ^ 53 ->
  exists m e, Prim2SF (float_of_Z v) = S754_finite false m e
              /\ e <= 0 /\ Zpos m = v * 2 ^ (- e).
Proof.
  intros Hv. pose proof (Prim2SF_float_of_Z v Hv) as H.
  destruct (Prim2SF (float_of_Z v)) as [[|] | | | [|] m e];
    cbn [SFbetween] in H; try contradiction; try lia.
  destruct H as (He & Hl & Hu). exists m, e. split; [reflexivity |].
  replace (0 - e) with (- e) in * by lia. lia.
Qed.

(** The number [calculateAttendancePercentage] rounds, bracketed at scale
    [2^-s]. *)
Lemma product_between s p t :
  0 < p < 2 ^ 53 -> 0 < t < 2 ^ 53 -> 8 <= s <= 53 ->
  quotientHigh s p t < 2 ^ 53 ->
  SFbetween
    (Prim2SF (PrimFloat.mul (PrimFloat.div (float_of_Z p) (float_of_Z t))
                            (float_of_Z 100)))
    (productLow s p t) (productHigh s p t) (7 - s).
Proof.
  intros Hp Ht Hs Hhi.
  rewrite FloatAxioms.mul_spec, FloatAxioms.div_spec, Prim2SF_hundred.
  destruct (Prim2SF_integer p Hp) as (mx & ex & -> & Hex & Hmx).
  destruct (Prim2SF_integer t Ht) as (my & ey & -> & Hey & Hmy).
  unfold SF64mul, SF64div.
  assert (H53 : 2 ^ 53 = 9007199254740992) by reflexivity.
  pose proof (pow2_pos s ltac:(lia)) as HS.
  pose proof (Z.mul_div_le (p * 2 ^ s) t ltac:(lia)) as Hq1.
  pose proof (Z.mul_succ_div_gt (p * 2 ^ s + t - 1) t ltac:(lia)) as Hq4.
  fold (quotientLow s p t) in Hq1. fold (quotientHigh s p t) in Hq4.
  assert (Hhi0 : 0 < quotientHigh s p t) by nia.
  pose proof (Z.mul_div_le (100 * quotientLow s p t) 128 ltac:(lia)) as Hy1.
  pose proof (Z.mul_succ_div_gt (100 * quotientHigh s p t + 127) 128 ltac:(lia)) as Hy2.
  pose proof (Z.mul_div_le (100 * quotientHigh s p t + 127) 128 ltac:(lia)) as Hy3.
  fold (productLow s p t) in Hy1. fold (productHigh s p t) in Hy2, Hy3.
  apply (SFmul_between _ _ _ (quotientLow s p t) (quotientHigh s p t) (- s));
    try lia.
  - apply (SFdiv_between mx ex my ey p t); try assumption; try lia.
    rewrite Z.opp_involutive. lia.
  - replace (7 - s - - s - -46) with 53 by lia. rewrite H53. lia.
  - replace (7 - s - - s - -46) with 53 by lia. rewrite H53. lia.
Qed.

(** A quotient 100 * p / t at least [mu / (2 t)] above [a - 1/2] gives a
    product of at least [a - 1/2], when [227 t <= mu * 2^(s - 1)]; and
    likewise from above. *)
Lemma productLow_bracket s p t a mu :
  0 < p -> 0 < t -> 8 <= s ->
  (2 * a - 1) * t + mu <= 200 * p -> 227 * t <= mu * (128 * 2 ^ (s - 8)) ->
  (2 * a - 1) * 2 ^ (s - 8) <= productLow s p t.
Proof.
  intros Hp Ht Hs Hz Hmu.
  assert (ES : 2 ^ s = 256 * 2 ^ (s - 8)).
  { replace s with (8 + (s - 8)) at 1 by lia. rewrite Z.pow_add_r by lia.
    reflexivity. }
  pose proof (pow2_pos (s - 8) ltac:(lia)) as HV.
  set (V := 2 ^ (s - 8)) in *.
  pose proof (Z.mul_succ_div_gt (p * 2 ^ s) t ltac:(lia)) as Hq.
  pose proof (Z.mul_succ_div_gt (100 * quotientLow s p t) 128 ltac:(lia)) as Hy.
  fold (quotientLow s p t) in Hq. fold (productLow s p t) in Hy.
  rewrite ES in Hq.
  destruct (Z.le_gt_cases ((2 * a - 1) * V) (productLow s p t)) as [H | H];
    [exact H | exfalso].
  assert (Hm : 100 * quotientLow s p t * t <= ((2 * a - 1) * V * 128 - 1) * t)
    by (apply Z.mul_le_mono_nonneg_r; lia).
  assert (Hz' : ((2 * a - 1) * t + mu) * (128 * V) <= 200 * p * (128 * V))
    by (apply Z.mul_le_mono_nonneg_r; lia).
  lia.
Qed.

Lemma productHigh_bracket s p t b mu :
  0 < p -> 0 < t -> 8 <= s ->
  200 * p <= (2 * b + 1) * t - mu -> 227 * t <= mu * (128 * 2 ^ (s - 8)) ->
  productHigh s p t < (2 * b + 1) * 2 ^ (s - 8).
Proof.
  intros Hp Ht Hs Hz Hmu.
  assert (ES : 2 ^ s = 256 * 2 ^ (s - 8)).
  { replace s with (8 + (s - 8)) at 1 by lia. rewrite Z.pow_add_r by lia.
    reflexivity. }
  pose proof (pow2_pos (s - 8) ltac:(lia)) as HV.
  set (V := 2 ^ (s - 8)) in *.
  pose proof (Z.mul_div_le (p * 2 ^ s + t - 1) t ltac:(lia)) as Hq.
  pose proof (Z.mul_div_le (100 * quotientHigh s p t + 127) 128 ltac:(lia)) as Hy.
  fold (quotientHigh s p t) in Hq. fold (productHigh s p t) in Hy.
  rewrite ES in Hq.
  destruct (Z.lt_ge_cases (productHigh s p t) ((2 * b + 1) * V)) as [H | H];
    [exact H | exfalso].
  assert (Hm : ((2 * b + 1) * V * 128 - 127) * t <= 100 * quotientHigh s p t * t)
    by (apply Z.mul_le_mono_nonneg_r; lia).
  assert (Hz' : 200 * p * (128 * V) <= ((2 * b + 1) * t - mu) * (128 * V))
    by (apply Z.mul_le_mono_nonneg_r; lia).
  lia.
Qed.

Lemma Prim2SF_zero : Prim2SF (float_of_Z 0) = S754_zero false.
Proof. vm_compute. reflexivity. Qed.

(** A positive number of working days is not taken for zero. *)
Lemma totalWorkingDays_not_zero t :
  0 < t < 2 ^ 53 -> PrimFloat.eqb (float_of_Z t) (float_of_Z 0) = false.
Proof.
  intros Ht. rewrite FloatAxioms.eqb_spec, Prim2SF_zero.
  destruct (Prim2SF_integer t Ht) as (m & e & -> & _). reflexivity.
Qed.

(** The number [calculateAttendancePercentage] rounds, for no present day
    and for as many present days as working days. *)
Lemma product_none t :
  0 < t < 2 ^ 53 ->
  SFbetween
    (Prim2SF (PrimFloat.mul (PrimFloat.div (float_of_Z 0) (float_of_Z t))
                            (float_of_Z 100)))
    0 0 (-46).
Proof.
  intros Ht.
  rewrite FloatAxioms.mul_spec, FloatAxioms.div_spec, Prim2SF_hundred,
    Prim2SF_zero.
  destruct (Prim2SF_integer t Ht) as (m & e & -> & _).
  cbn. lia.
Qed.

Lemma product_all t :
  0 < t < 2 ^ 53 ->
  SFbetween
    (Prim2SF (PrimFloat.mul (PrimFloat.div (float_of_Z t) (float_of_Z t))
                            (float_of_Z 100)))
    (100 * 2 ^ 46) (100 * 2 ^ 46) (-46).
Proof.
  intros Ht.
  rewrite FloatAxioms.mul_spec, FloatAxioms.div_spec, Prim2SF_hundred.
  destruct (Prim2SF_integer t Ht) as (m & e & -> & He & Hm).
  unfold SF64mul, SF64div.
  apply (SFmul_between _ _ _ 1 1 0); try lia.
  apply (SFdiv_between m e m e t t); try assumption; lia.
Qed.

Lemma quotientScale_spec p t :
  0 < t <= p -> p <= 2 ^ 42 ->
  9 <= quotientScale p t <= 51
  /\ quotientHigh (quotientScale p t) p t < 2 ^ 53
  /\ 227 * t <= 128 * 2 ^ (quotientScale p t - 8).
Proof.
  intros Ht Hp. unfold quotientScale.
  pose proof (Z.mul_div_le p t ltac:(lia)) as Ha1.
  pose proof (Z.mul_succ_div_gt p t ltac:(lia)) as Ha2.
  assert (Ha : 1 <= p / t) by (apply Z.div_le_lower_bound; lia).
  assert (Ha42 : p / t <= 2 ^ 42).
  { apply Z.div_le_upper_bound; [lia |]. nia. }
  set (a := p / t) in *.
  pose proof (Z.log2_nonneg a) as HL0.
  assert (HL42 : Z.log2 a <= 42).
  { rewrite <- (Z.log2_pow2 42) by lia. apply Z.log2_le_mono. exact Ha42. }
  destruct (Z.log2_spec a ltac:(lia)) as [HU1 HU2].
  rewrite Z.pow_succ_r in HU2 by lia.
  set (L := Z.log2 a) in *.
  pose proof (pow2_pos L HL0) as HU.
  pose proof (pow2_pos (51 - L - 8) ltac:(lia)) as HV.
  assert (EUV : 2 ^ L * 2 ^ (51 - L - 8) = 2 ^ 43).
  { rewrite <- Z.pow_add_r by lia. f_equal. lia. }
  assert (ES : 2 ^ (51 - L) = 256 * 2 ^ (51 - L - 8)).
  { replace (51 - L) with (8 + (51 - L - 8)) at 1 by lia.
    rewrite Z.pow_add_r by lia. reflexivity. }
  set (U := 2 ^ L) in *. set (V := 2 ^ (51 - L - 8)) in *.
  assert (HUt : U * t <= p) by nia.
  assert (HpU : p + 1 <= 2 * U * t) by nia.
  assert (H43 : 2 ^ 43 = 8796093022208) by reflexivity.
  assert (H42 : 2 ^ 42 = 4398046511104) by reflexivity.
  assert (H53 : 2 ^ 53 = 9007199254740992) by reflexivity.
  rewrite H43 in EUV. rewrite H42 in *. rewrite H53.
  split; [lia |]. split.
  - unfold quotientHigh. rewrite ES.
    apply Z.div_lt_upper_bound; [lia |].
    assert (Hm : (p + 1) * V <= 2 * U * t * V)
      by (apply Z.mul_le_mono_nonneg_r; lia).
    replace (2 * U * t * V) with (2 * (U * V) * t) in Hm by ring.
    rewrite EUV in Hm. lia.
  - destruct (Z.le_gt_cases (227 * t) (128 * V)) as [H | H];
      [exact H | exfalso].
    assert (Hm : (128 * V + 1) * U <= 227 * t * U)
      by (apply Z.mul_le_mono_nonneg_r; lia).
    replace ((128 * V + 1) * U) with (128 * (U * V) + U) in Hm by ring.
    rewrite EUV in Hm. lia.
Qed.

(** The percentage of present days and working days whose quotient is
    bracketed at scale [2^-s] finely enough: the nearest integer, a tie going
    either way. *)
Lemma percentage_nearest s p t :
  0 < p < 2 ^ 53 -> 0 < t < 2 ^ 53 -> 8 <= s <= 53 ->
  quotientHigh s p t < 2 ^ 53 -> 227 * t <= 128 * 2 ^ (s - 8) ->
  exactPercentage p t < 2 ^ 53 ->
  exists n,
    integerValue
      (Math_round (PrimFloat.mul (PrimFloat.div (float_of_Z p) (float_of_Z t))
                                 (float_of_Z 100))) = Some n
    /\ exactPercentage p t - 1 <= n <= exactPercentage p t
    /\ ((200 * p + t) mod (2 * t) <> 0 -> n = exactPercentage p t).
Proof.
  intros Hp Ht Hs Hq Hmargin HE53.
  set (y := PrimFloat.mul (PrimFloat.div (float_of_Z p) (float_of_Z t))
                          (float_of_Z 100)).
  pose proof (product_between s p t Hp Ht Hs Hq) as Hy. fold y in Hy.
  pose proof (Z.mul_div_le (200 * p + t) (2 * t) ltac:(lia)) as He1.
  pose proof (Z.mul_succ_div_gt (200 * p + t) (2 * t) ltac:(lia)) as He2.
  pose proof (Z.div_mod (200 * p + t) (2 * t) ltac:(lia)) as Hmod.
  fold (exactPercentage p t) in He1, He2, Hmod, HE53 |- *.
  set (E := exactPercentage p t) in *.
  pose proof (pow2_pos (s - 8) ltac:(lia)) as HV.
  assert (Hhi : productHigh s p t < (2 * E + 1) * 2 ^ (s - 8))
    by (apply (productHigh_bracket s p t E 1); lia).
  assert (Hlo : (2 * (E - 1) - 1) * 2 ^ (s - 8) <= productLow s p t).
  { apply (productLow_bracket s p t (E - 1) (2 * t)); try lia.
    assert (t * 1 <= t * 2 ^ (s - 8)) by (apply Z.mul_le_mono_nonneg_l; lia).
    lia. }
  assert (Eexp : - (7 - s) - 1 = s - 8) by lia.
  destruct (Math_round_between y _ _ (7 - s) (E - 1) E Hy) as (n & Hn & Hb & _);
    rewrite ?Eexp; try lia.
  exists n. split; [exact Hn |]. split; [lia |]. intros Htie.
  assert (Hlo' : (2 * E - 1) * 2 ^ (s - 8) <= productLow s p t)
    by (apply (productLow_bracket s p t E 1); lia).
  destruct (Math_round_between y _ _ (7 - s) E E Hy) as (n' & Hn' & Hb' & _);
    rewrite ?Eexp; try lia.
  rewrite Hn in Hn'. injection Hn' as <-. lia.
Qed.


(** ** The week of a Sunday *)

(** C3 (the code departs from it on Sundays).  2024-03-10 is a Sunday;
    [getWorkingDaysInWeek] gives for it the five days that follow, 2024-03-11
    to 2024-03-15, not days of the week from Monday 2024-03-04 that contains
    it; [validateWeeklyAttendanceLimit] of the custom working-days utility
    starts the week of the same date on 2024-03-04. *)
Theorem getWorkingDaysInWeek_sunday_gives_following_week :
  weekdayOf (host := UTC_host) "2024-03-10" = Some 0
  /\ getWorkingDaysInWeek (host := UTC_host) "2024-03-10" []
     = Value ["2024-03-11"; "2024-03-12"; "2024-03-13"; "2024-03-14";
              "2024-03-15"]
  /\ toISOString (CustomWorkingDays.startOfWeek (host := UTC_host) "2024-03-10")
     = Value "2024-03-04T00:00:00.000Z".
Proof. repeat split; vm_compute; reflexivity. Qed.

(** ** Instances *)

Lemma UTC_host_constant : ConstantOffset (host := UTC_host) 0.
Proof. intros t isUTC. reflexivity. Qed.

Lemma IST_host_constant : ConstantOffset (host := IST_host) 19800000.
Proof. intros t isUTC. reflexivity. Qed.

Lemma validateAttendanceMarkable_collects_reasons_witness :
  validDate (host := UTC_host) "2024-03-05" = true
  /\ exists r,
       validateAttendanceMarkable (host := UTC_host) "s1" "2024-03-05" 5
         "2024-03-01" "2024-08-31" []
         [{| date := "2024-03-05"; status := present |}] = Value r
       /\ isValid r = false
       /\ In "Attendance already marked for this date" (errors r).
Proof.
  split; [reflexivity |].
  destruct (validateAttendanceMarkable_collects_reasons (host := UTC_host)
              (fixed := UTC_host_constant) "s1" "2024-03-05" 5 "2024-03-01" "2024-08-31" []
              [{| date := "2024-03-05"; status := present |}] eq_refl)
    as (r & wk & Hr & _ & _ & _ & Hdup).
  exists r. split; [exact Hr |]. apply Hdup.
  eexists. split; [left; reflexivity | reflexivity].
Defined.

Lemma weekly_quota_inclusive_cap_witness :
  validDate (host := UTC_host) "2024-03-07" = true
  /\ exists r,
       validateAttendanceMarkable (host := UTC_host) "s1" "2024-03-07" 2
         "2024-03-01" "2024-08-31" []
         [{| date := "2024-03-04"; status := present |};
          {| date := "2024-03-05"; status := present |}] = Value r
       /\ isValid r = false
       /\ In "Weekly attendance limit exceeded (2 days per week allowed)"
             (errors r).
Proof.
  split; [reflexivity |].
  destruct (weekly_quota_inclusive_cap (host := UTC_host)
              (fixed := UTC_host_constant) "s1" "2024-03-07" 2 "2024-03-01" "2024-08-31" []
              [{| date := "2024-03-04"; status := present |};
               {| date := "2024-03-05"; status := present |}] eq_refl)
    as (r & wk & Hr & Hwk & Hiff & _ & Hcap & _).
  assert (Ewk : wk = ["2024-03-04"; "2024-03-05"; "2024-03-06"; "2024-03-07";
                      "2024-03-08"]).
  { assert (E : getWorkingDaysInWeek (host := UTC_host) "2024-03-07" []
                = Value ["2024-03-04"; "2024-03-05"; "2024-03-06";
                         "2024-03-07"; "2024-03-08"]) by (vm_compute; reflexivity).
    rewrite E in Hwk. injection Hwk as <-. reflexivity. }
  subst wk. exists r. split; [exact Hr |]. split.
  - apply Hcap. reflexivity.
  - apply Hiff. vm_compute. discriminate.
Defined.









(** ** Further properties of the validator *)

Section AcceptanceFacts.
Context {host : Host} {tza : Z} {fixed : ConstantOffset tza}.

Lemma existsb_date_false date_ (existingAttendance : list AttendanceRecord) :
  existsb (fun a => String.eqb (date a) date_) existingAttendance = false
  <-> forall a, In a existingAttendance -> date a <> date_.
Proof.
  split.
  - intros H a Ha E.
    assert (existsb (fun a => String.eqb (date a) date_) existingAttendance = true).
    { apply existsb_exists. exists a. split; [assumption |].
      apply String.eqb_eq, E. }
    congruence.
  - intros H. apply not_true_is_false. intros E.
    apply existsb_exists in E as (a & Ha & E).
    apply String.eqb_eq in E. exact (H a Ha E).
Qed.

End AcceptanceFacts.

(** ** Further properties of the working-day calendar *)

Section CalendarFacts.
Context {host : Host} {tza : Z} {fixed : ConstantOffset tza}.

Lemma daysFrom_midnights ds de d :
  ds <= d <= de ->
  In (MakeDate d 0)
     (daysFrom (MakeDate ds 0)
        (Z.to_nat ((MakeDate de 0 - MakeDate ds 0) / msPerDay + 1))).
Proof.
  intros H. apply daysFrom_In. exists (d - ds).
  replace ((MakeDate de 0 - MakeDate ds 0) / msPerDay) with (de - ds).
  - unfold MakeDate. split; lia.
  - unfold MakeDate, msPerDay. Z.div_mod_to_equations. lia.
Qed.

(** On a host with a constant offset from UTC, between two date-only
    strings [getWorkingDaysInRange] leaves out no working day: the result
    holds exactly the printed dates of the days from the start to the end
    that are no weekend day and no holiday.  (Where the offset changes
    during the range, days are lost or come twice.) *)
Theorem getWorkingDaysInRange_complete
    (startDate endDate : string) (holidays : list string) (ds de : Z) :
  Date_parse startDate = Some (MakeDate ds 0) ->
  Date_parse endDate = Some (MakeDate de 0) ->
  exists l,
    getWorkingDaysInRange startDate endDate holidays = Value l
    /\ forall s, In s l <->
         exists d, ds <= d <= de /\ s = isoDate (MakeDate d 0)
                   /\ isWeekend s = false /\ includes holidays s = false.
Proof.
  intros Hs He. rewrite getWorkingDaysInRange_spec, Hs, He.
  eexists. split; [reflexivity |]. intros s.
  pose proof (Date_parse_in_range _ _ Hs) as Rs.
  pose proof (Date_parse_in_range _ _ He) as Re.
  rewrite filter_In, in_map_iff. unfold workable.
  rewrite andb_true_iff, !negb_true_iff. split.
  - intros [(t & <- & Ht) [Hw Hh]].
    apply daysFrom_visited in Ht as (_ & Hday & Hle & i & Hi & ->);
      try assumption.
    exists (ds + i). rewrite !Day_add_days, !Day_MakeDate in Hday.
    replace (MakeDate (ds + i) 0) with (MakeDate ds 0 + i * msPerDay)
      by (unfold MakeDate; lia).
    repeat split; (assumption || lia).
  - intros (d & Hd & -> & Hw & Hh). split; [| split; assumption].
    exists (MakeDate d 0). split; [reflexivity |].
    apply daysFrom_midnights, Hd.
Qed.

Lemma filter_length_le {A : Type} (p : A -> bool) (l : list A) :
  (List.length (filter p l) <= List.length l)%nat.
Proof. induction l as [| x l IH]; cbn; [| destruct (p x); cbn]; lia. Qed.

Lemma filter_length_mono {A : Type} (p q : A -> bool) (l : list A) :
  (forall x, p x = true -> q x = true) ->
  (List.length (filter p l) <= List.length (filter q l))%nat.
Proof.
  intros H. induction l as [| x l IH]; cbn; [lia |].
  destruct (p x) eqn:Ep.
  - rewrite (H x Ep). cbn. lia.
  - destruct (q x); cbn; lia.
Qed.

Lemma daysFrom_length c n : List.length (daysFrom c n) = n.
Proof. revert c. induction n as [| n IH]; intros c; cbn; [| rewrite IH]; reflexivity. Qed.

Lemma includes_incl (l l' : list string) s :
  incl l l' -> includes l s = true -> includes l' s = true.
Proof.
  unfold includes. intros Hi H. apply existsb_exists in H as (x & Hx & E).
  apply existsb_exists. exists x. split; [apply Hi, Hx | exact E].
Qed.

(** On a host with a constant offset from UTC, the total of working days
    of an internship is returned for every input; it is never more than the number of days from the start to the
    end, it is 0 when a date does not parse or the start is after the end,
    and registering more holidays never increases it. *)
Theorem getTotalWorkingDaysInInternship_bounds
    (startDate endDate : string) (holidays holidays' : list string) :
  exists n n',
    getTotalWorkingDaysInInternship startDate endDate holidays = Value n
    /\ getTotalWorkingDaysInInternship startDate endDate holidays' = Value n'
    /\ 0 <= n
    /\ (incl holidays holidays' -> n' <= n)
    /\ match Date_parse startDate, Date_parse endDate with
       | Some ts, Some te =>
           (te < ts -> n = 0) /\ (ts <= te -> n <= (te - ts) / msPerDay + 1)
       | _, _ => n = 0
       end.
Proof.
  unfold getTotalWorkingDaysInInternship.
  rewrite !getWorkingDaysInRange_spec. cbn [bind].
  eexists. eexists. split; [reflexivity |]. split; [reflexivity |].
  split; [lia |].
  destruct (Date_parse startDate) as [ts |], (Date_parse endDate) as [te |];
    try (split; [intros _; reflexivity | reflexivity]).
  set (n := Z.to_nat ((te - ts) / msPerDay + 1)).
  split; [| split].
  - intros Hincl. apply inj_le, filter_length_mono. intros s.
    unfold workable. rewrite !andb_true_iff, !negb_true_iff.
    intros [Hw Hh]. split; [assumption |].
    destruct (includes holidays s) eqn:E; [| reflexivity].
    rewrite (includes_incl _ _ _ Hincl E) in Hh. discriminate.
  - intros Hlt. replace n with 0%nat; [reflexivity |].
    assert ((te - ts) / msPerDay + 1 <= 0)
      by (unfold msPerDay; Z.div_mod_to_equations; lia).
    unfold n. lia.
  - intros Hle.
    assert (0 <= (te - ts) / msPerDay + 1)
      by (unfold msPerDay; Z.div_mod_to_equations; lia).
    pose proof (filter_length_le (workable holidays) (map isoDate (daysFrom ts n))) as L.
    rewrite length_map, daysFrom_length in L. unfold n in *. lia.
Qed.
End CalendarFacts.

Section DayNameFacts.
Context {host : Host}.

(** [getDayName] and [isWeekend] agree: a date is a weekend day exactly
    when its day name is Saturday or Sunday; the name is [undefined] exactly
    for a date that does not parse. *)
Theorem getDayName_weekend (dateStr : string) :
  (isWeekend dateStr = true <->
   getDayName dateStr = Some "Sunday" \/ getDayName dateStr = Some "Saturday")
  /\ (getDayName dateStr = None <-> Date_parse dateStr = None)
  /\ (forall name, getDayName dateStr = Some name ->
        In name ["Sunday"; "Monday"; "Tuesday"; "Wednesday"; "Thursday";
                 "Friday"; "Saturday"]).
Proof.
  unfold isWeekend, getDayName, Date_new.
  destruct (Date_parse dateStr) as [t |]; cbn [getDay num_eq].
  - pose proof (WeekDay_range (LocalTime t)) as H.
    assert (Hc : WeekDay (LocalTime t) = 0 \/ WeekDay (LocalTime t) = 1
                 \/ WeekDay (LocalTime t) = 2 \/ WeekDay (LocalTime t) = 3
                 \/ WeekDay (LocalTime t) = 4 \/ WeekDay (LocalTime t) = 5
                 \/ WeekDay (LocalTime t) = 6) by lia.
    destruct Hc as [E | [E | [E | [E | [E | [E | E]]]]]]; rewrite E; cbn;
      repeat split; intros;
      try discriminate; try reflexivity;
      try (first [left; reflexivity | right; reflexivity]);
      try (match goal with
           | Hor : _ \/ _ |- _ => destruct Hor; discriminate
           end);
      match goal with
      | Hname : _ = Some _ |- _ =>
          cbv in Hname; injection Hname as Hname; subst;
          repeat (first [left; reflexivity | right])
      end.
  - cbn. repeat split; intros; try discriminate; try reflexivity.
    match goal with Hor : _ \/ _ |- _ => destruct Hor; discriminate end.
Qed.
End DayNameFacts.

(** ** The week of a date that is no Sunday *)

Section WeekShape.
Context {host : Host} {tza : Z} {fixed : ConstantOffset tza}.

Lemma daysFrom_MakeDate n : forall m,
  daysFrom (MakeDate m 0) n
  = map (fun k => MakeDate (m + Z.of_nat k) 0) (seq 0 n).
Proof.
  induction n as [| n IH]; intros m; [reflexivity |].
  cbn [daysFrom seq map]. f_equal; [f_equal; lia |].
  replace (MakeDate m 0 + msPerDay) with (MakeDate (m + 1) 0)
    by (unfold MakeDate; lia).
  rewrite IH, <- seq_shift, map_map. apply map_ext. intros k. f_equal. lia.
Qed.

(** The local weekday [isWeekend] reads off a printed date. *)
Lemma isWeekend_isoDate x :
  Z.abs x <= maxTime ->
  isWeekend (isoDate x)
  = (let w := (Day x + tza / msPerDay + 4) mod 7 in (w =? 0) || (w =? 6)).
Proof.
  intros Hx. unfold isWeekend, Date_new.
  rewrite Date_parse_isoDate by assumption. cbn [getDay num_eq].
  assert (E : WeekDay (LocalTime (MakeDate (Day x) 0))
              = (Day x + tza / msPerDay + 4) mod 7).
  { unfold WeekDay. rewrite LocalTime_constant. unfold MakeDate.
    rewrite Z.add_0_r.
    unfold Day at 1. rewrite Z.div_add_l by (unfold msPerDay; lia).
    reflexivity. }
  rewrite E. reflexivity.
Qed.

(** On a host with a constant offset from UTC, at or east of it, for a
    date-only string at least five days inside the range of time values:
    [getWorkingDaysInWeek] returns the days that are not holidays among five
    consecutive days that start on a Monday.  When the date is no Sunday that
    Monday is at most five days before the date (the date's own week); when
    it is a Sunday, the Monday is the day after it. *)
Theorem getWorkingDaysInWeek_monday_to_friday
    (dateStr : string) (holidays : list string) (d : Z) :
  0 <= tza < msPerDay ->
  Date_parse dateStr = Some (MakeDate d 0) ->
  Z.abs (MakeDate d 0) + 5 * msPerDay <= maxTime ->
  let w := (d + 4) mod 7 in
  let monday := d + 1 - w in
  getWorkingDaysInWeek dateStr holidays
  = Value (filter (fun s => negb (includes holidays s))
             (map (fun k => isoDate (MakeDate (monday + k) 0)) [0; 1; 2; 3; 4]))
  /\ (monday + 4) mod 7 = 1
  /\ (w <> 0 -> monday <= d <= monday + 5)
  /\ (w = 0 -> monday = d + 1).
Proof.
  intros Htz Hd Hr w monday.
  assert (Hw : 0 <= w < 7) by (apply Z.mod_pos_bound; lia).
  split; [| split; [| split]].
  - rewrite (getWorkingDaysInWeek_spec _ _ _ Hd Hr).
    rewrite WeekDay_LocalTime_midnight by assumption.
    unfold WeekDay. rewrite !Day_MakeDate. fold w. fold monday.
    rewrite daysFrom_MakeDate. cbn [seq map].
    f_equal. rewrite !Z.add_0_r.
    change (Z.of_nat 1) with 1. change (Z.of_nat 2) with 2.
    change (Z.of_nat 3) with 3. change (Z.of_nat 4) with 4.
    replace (monday + 0) with monday by lia.
    apply filter_ext_in. intros s Hs. unfold workable.
    assert (Hwk : isWeekend s = false); [| rewrite Hwk; reflexivity].
    assert (Hk : exists k, 0 <= k <= 4 /\ s = isoDate (MakeDate (monday + k) 0)).
    { cbn in Hs.
      destruct Hs as [<- | [<- | [<- | [<- | [<- | []]]]]];
        [exists 0 | exists 1 | exists 2 | exists 3 | exists 4];
        (split; [lia |]); try reflexivity.
      f_equal. f_equal. lia. }
    destruct Hk as (k & Hk & ->).
    rewrite isWeekend_isoDate
      by (unfold monday, MakeDate, msPerDay, maxTime in *; lia).
    rewrite Day_MakeDate, (Z.div_small tza msPerDay) by assumption.
    cbv zeta. unfold monday, w.
    apply orb_false_iff. split; apply Z.eqb_neq;
      Z.div_mod_to_equations; lia.
  - unfold monday, w. Z.div_mod_to_equations. lia.
  - unfold monday. lia.
  - unfold monday. lia.
Qed.
End WeekShape.

(** ** [getNextWorkingDay] *)

Section NextWorkingDay.
Context {host : Host} {tza : Z} {fixed : ConstantOffset tza}.
Variable holidays : list string.

Lemma nextWorkingDayLoop_spec fuel : forall c k,
  - maxTime <= c -> c + k * msPerDay <= maxTime ->
  0 <= k < Z.of_nat fuel ->
  workable holidays (isoDate (c + k * msPerDay)) = true ->
  (forall j, 0 <= j < k ->
     workable holidays (isoDate (c + j * msPerDay)) = false) ->
  nextWorkingDayLoop fuel (Some c) holidays = Value (Some (c + k * msPerDay)).
Proof.
  induction fuel as [| fuel IH]; intros c k Hc Hm Hk Hwork Hfirst; [lia |].
  cbn [nextWorkingDayLoop toISOString bind]. rewrite splitT0_isoString.
  rewrite setDate_getDate.
  destruct (Z.eq_dec k 0) as [-> | Hne].
  - replace (c + 0 * msPerDay) with c in * by lia.
    unfold workable in Hwork.
    apply andb_true_iff in Hwork as [Hw Hh].
    apply negb_true_iff in Hw, Hh. rewrite Hw, Hh. reflexivity.
  - assert (Hstep : nextWorkingDayLoop fuel (TimeClip (c + 1 * msPerDay)) holidays
                    = Value (Some (c + k * msPerDay))).
    { rewrite TimeClip_ok by (unfold msPerDay, maxTime in *; lia).
      rewrite (IH (c + 1 * msPerDay) (k - 1)).
      - do 2 f_equal. lia.
      - unfold msPerDay in *. lia.
      - replace (c + 1 * msPerDay + (k - 1) * msPerDay)
          with (c + k * msPerDay) by lia. assumption.
      - lia.
      - replace (c + 1 * msPerDay + (k - 1) * msPerDay)
          with (c + k * msPerDay) by lia. assumption.
      - intros j Hj.
        replace (c + 1 * msPerDay + j * msPerDay)
          with (c + (j + 1) * msPerDay) by lia.
        apply Hfirst. lia. }
    specialize (Hfirst 0 ltac:(lia)).
    replace (c + 0 * msPerDay) with c in Hfirst by lia.
    unfold workable in Hfirst.
    destruct (isWeekend (isoDate c)); [exact Hstep |].
    destruct (includes holidays (isoDate c)); [exact Hstep | discriminate].
Qed.

Lemma first_true (p : nat -> bool) n :
  (exists k, (k < n)%nat /\ p k = true) ->
  exists k, (k < n)%nat /\ p k = true /\ forall j, (j < k)%nat -> p j = false.
Proof.
  induction n as [| n IH]; intros (k & Hk & Hp); [lia |].
  destruct (existsb p (seq 0 n)) eqn:E.
  - apply existsb_exists in E as (i & Hi & Hpi). apply in_seq in Hi.
    destruct IH as (m & Hm & Hpm & Hmin); [exists i; split; [lia | assumption] |].
    exists m. split; [lia | auto].
  - exists n. split; [lia |].
    assert (Hnone : forall j, (j < n)%nat -> p j = false).
    { intros j Hj. apply not_true_is_false. intros Hpj.
      assert (existsb p (seq 0 n) = true).
      { apply existsb_exists. exists j. split; [apply in_seq; lia | assumption]. }
      congruence. }
    split; [| exact Hnone].
    destruct (Nat.eq_dec k n) as [-> | Hne]; [assumption |].
    rewrite Hnone in Hp by lia. discriminate.
Qed.

Lemma includes_In (l : list string) s : includes l s = true <-> In s l.
Proof.
  unfold includes. rewrite existsb_exists. split.
  - intros (x & Hx & E). apply String.eqb_eq in E. subst. assumption.
  - intros H. exists s. split; [assumption | apply String.eqb_refl].
Qed.

(** One day in each of [length holidays + 1] consecutive weeks is a local
    Monday, and those days cannot all be holidays. *)
Lemma exists_workable c :
  - maxTime <= c ->
  c + (7 * Z.of_nat (S (List.length holidays))) * msPerDay <= maxTime ->
  exists k, (k < 7 * S (List.length holidays))%nat
            /\ workable holidays (isoDate (c + Z.of_nat k * msPerDay)) = true.
Proof.
  intros Hc Hm.
  set (h := List.length holidays) in *.
  set (j0 := (1 - (Day c + tza / msPerDay + 4)) mod 7).
  assert (Hj0 : 0 <= j0 < 7) by (apply Z.mod_pos_bound; lia).
  set (s := fun i : nat => isoDate (c + (7 * Z.of_nat i + j0) * msPerDay)).
  assert (Hrange : forall i, (i < S h)%nat ->
            Z.abs (c + (7 * Z.of_nat i + j0) * msPerDay) <= maxTime).
  { intros i Hi. unfold msPerDay, maxTime in *. lia. }
  assert (Hweek : forall i, (i < S h)%nat -> isWeekend (s i) = false).
  { intros i Hi. unfold s. rewrite isWeekend_isoDate by (apply Hrange, Hi).
    rewrite Day_add_days. cbv zeta. unfold j0.
    apply orb_false_iff. split; apply Z.eqb_neq;
      Z.div_mod_to_equations; lia. }
  destruct (forallb (fun i => includes holidays (s i)) (seq 0 (S h))) eqn:Eall.
  - exfalso. rewrite forallb_forall in Eall.
    assert (Hnd : NoDup (map s (seq 0 (S h)))).
    { apply (NoDup_map_inv dayOf). rewrite map_map.
      rewrite (map_ext_in _ (fun i : nat => Some (Day c + j0 + 7 * Z.of_nat i))).
      - apply NoDup_map_NoDup_ForallPairs; [| apply seq_NoDup].
        intros a b _ _ E.
        assert (Day c + j0 + 7 * Z.of_nat a = Day c + j0 + 7 * Z.of_nat b)
          by congruence.
        lia.
      - intros i Hi. apply in_seq in Hi. unfold s.
        rewrite dayOf_isoDate by (apply Hrange; lia).
        rewrite Day_add_days. f_equal. lia. }
    assert (Hincl : incl (map s (seq 0 (S h))) holidays).
    { intros x Hx. apply in_map_iff in Hx as (i & <- & Hi).
      apply includes_In, Eall, Hi. }
    pose proof (NoDup_incl_length Hnd Hincl) as Hlen.
    rewrite length_map, length_seq in Hlen. unfold h in Hlen. lia.
  - assert (Hex : exists i, (i < S h)%nat /\ includes holidays (s i) = false).
    { clear -Eall. revert Eall. generalize (S h) as n. intros n.
      induction n as [| n IH]; intros E; [discriminate |].
      rewrite seq_S, forallb_app in E. cbn in E.
      destruct (forallb _ (seq 0 n)) eqn:E0.
      - exists n. split; [lia |]. rewrite andb_true_r in E. exact E.
      - destruct (IH eq_refl) as (i & Hi & Hf). exists i. split; [lia | exact Hf]. }
    destruct Hex as (i & Hi & Hf).
    exists (Z.to_nat (7 * Z.of_nat i + j0)). split; [lia |].
    rewrite Z2Nat.id by lia. unfold workable. fold (s i).
    rewrite (Hweek i Hi), Hf. reflexivity.
Qed.

End NextWorkingDay.

Section NextWorkingDayThrows.
Context {host : Host}.
Variable holidays : list string.

(** A date that does not parse makes [getNextWorkingDay] throw. *)
Lemma getNextWorkingDay_unparsable dateStr :
  Date_parse dateStr = None ->
  getNextWorkingDay dateStr holidays = Throws (RangeError "Invalid time value").
Proof.
  intros H. unfold getNextWorkingDay, Date_new, nextWorkingDayFuel. rewrite H.
  reflexivity.
Qed.
End NextWorkingDayThrows.

(** ** Printed dates compare as their days *)

Lemma N_of_digitChar k : 0 <= k < 10 -> N_of_ascii (digitChar k) = Z.to_N (48 + k).
Proof. intros H. apply digit_cases in H. each_digit H. Qed.

Lemma compare_digitChar a b :
  0 <= a < 10 -> 0 <= b < 10 ->
  Ascii.compare (digitChar a) (digitChar b) = (a ?= b).
Proof.
  intros Ha Hb. unfold Ascii.compare.
  rewrite !N_of_digitChar by assumption.
  rewrite Z2N.inj_compare by lia. apply Z.add_compare_mono_l.
Qed.

(** Two digits against two digits, then the rest. *)
Lemma compare_pad2 a b s s' :
  0 <= a < 100 -> 0 <= b < 100 ->
  String.compare (pad2 a ++ s) (pad2 b ++ s')
  = match a ?= b with Eq => String.compare s s' | c => c end.
Proof.
  intros Ha Hb. unfold pad2. cbn [append String.compare].
  rewrite !compare_digitChar by apply mod10_range.
  destruct (Z.compare_spec (a / 10 mod 10) (b / 10 mod 10)) as [E1 | E1 | E1];
    destruct (Z.compare_spec (a mod 10) (b mod 10)) as [E2 | E2 | E2];
    destruct (Z.compare_spec a b) as [E | E | E];
    try reflexivity; exfalso; Z.div_mod_to_equations; lia.
Qed.

Lemma compare_dash s s' :
  String.compare (String "-" s) (String "-" s') = String.compare s s'.
Proof. reflexivity. Qed.

Lemma append_nil_r_pad2 d : (pad2 d ++ "")%string = pad2 d.
Proof. reflexivity. Qed.

Lemma compare_printed y1 m1 d1 y2 m2 d2 :
  0 <= y1 <= 9999 -> 0 <= y2 <= 9999 ->
  0 <= m1 < 100 -> 0 <= m2 < 100 -> 0 <= d1 < 100 -> 0 <= d2 < 100 ->
  String.compare (isoYear y1 ++ "-" ++ pad2 m1 ++ "-" ++ pad2 d1)
                 (isoYear y2 ++ "-" ++ pad2 m2 ++ "-" ++ pad2 d2)
  = compare3 (y1, m1, d1) (y2, m2, d2).
Proof.
  intros Hy1 Hy2 Hm1 Hm2 Hd1 Hd2. unfold isoYear.
  replace ((0 <=? y1) && (y1 <=? 9999)) with true
    by (symmetry; apply andb_true_iff; split; apply Z.leb_le; lia).
  replace ((0 <=? y2) && (y2 <=? 9999)) with true
    by (symmetry; apply andb_true_iff; split; apply Z.leb_le; lia).
  unfold pad4.
  assert (P : forall k, pad2 k = pad2 (k mod 100)).
  { intros k. unfold pad2.
    replace (k mod 100 / 10 mod 10) with (k / 10 mod 10)
      by (Z.div_mod_to_equations; lia).
    replace (k mod 100 mod 10) with (k mod 10)
      by (Z.div_mod_to_equations; lia).
    reflexivity. }
  rewrite (P y1), (P y2).
  assert (A : forall a b c : string, ((a ++ b) ++ c = a ++ b ++ c)%string).
  { intros a b c. induction a as [| x a IH]; cbn; [| rewrite IH]; reflexivity. }
  rewrite !A.
  rewrite compare_pad2
    by (split; [apply Z.div_pos; lia | apply Z.div_lt_upper_bound; lia]).
  rewrite compare_pad2 by (apply Z.mod_pos_bound; lia).
  cbn [append]. rewrite compare_dash.
  change (String "-" (pad2 d1)) with (("-" ++ pad2 d1)%string).
  change (String "-" (pad2 d2)) with (("-" ++ pad2 d2)%string).
  rewrite compare_pad2 by assumption.
  cbn [append]. rewrite compare_dash.
  rewrite <- (append_nil_r_pad2 d1), <- (append_nil_r_pad2 d2).
  rewrite compare_pad2 by assumption.
  unfold compare3.
  destruct (Z.compare_spec (y1 / 100) (y2 / 100)) as [E1 | E1 | E1];
    destruct (Z.compare_spec (y1 mod 100) (y2 mod 100)) as [E2 | E2 | E2];
    destruct (Z.compare_spec y1 y2) as [E | E | E];
    try reflexivity; try (exfalso; Z.div_mod_to_equations; lia).
  destruct (m1 ?= m2); try reflexivity. destruct (d1 ?= d2); reflexivity.
Qed.

(** The year, month and date of a day order days. *)
Lemma compare3_fields a b :
  compare3 (YearFromTime a, MonthFromTime a + 1, DateFromTime a)
           (YearFromTime b, MonthFromTime b + 1, DateFromTime b)
  = (Day a ?= Day b).
Proof.
  unfold compare3.
  pose proof (YearFromDay_spec (Day a)) as Ya.
  pose proof (YearFromDay_spec (Day b)) as Yb.
  fold (YearFromTime a) in Ya. fold (YearFromTime b) in Yb.
  destruct (Z.compare_spec (YearFromTime a) (YearFromTime b)) as [Ey | Ey | Ey].
  - assert (El : InLeapYear a = InLeapYear b) by (unfold InLeapYear; rewrite Ey; reflexivity).
    assert (Ed : Day a - Day b = DayWithinYear a - DayWithinYear b)
      by (unfold DayWithinYear; rewrite Ey; lia).
    pose proof (DayWithinYear_range a) as Ra.
    pose proof (DayWithinYear_range b) as Rb.
    rewrite InLeapYear_DaysInYear in Ra, Rb.
    unfold DateFromTime, MonthFromTime. rewrite <- El.
    rewrite (Z.compare_sub (Day a) (Day b)), Ed.
    destruct (InLeapYear_cases a) as [L | L]; rewrite L in *;
      unfold monthOfDayWithinYear;
      repeat match goal with
             | |- context [?x <? ?y] => destruct (Z.ltb_spec x y)
             end;
      cbn [monthStart];
      match goal with
      | |- match ?c with _ => _ end = _ =>
          let c' := eval cbv in c in change c with c'
      end;
      cbv iota; symmetry;
      first [ apply Z.compare_lt_iff; lia
            | apply Z.compare_gt_iff; lia
            | (rewrite (Z.compare_sub (_ + 1) (_ + 1)); f_equal; lia) ].
  - symmetry. apply Z.compare_lt_iff.
    pose proof (DayFromYear_mono (YearFromTime a + 1) (YearFromTime b) ltac:(lia)).
    unfold YearFromTime in *. lia.
  - symmetry. apply Z.compare_gt_iff.
    pose proof (DayFromYear_mono (YearFromTime b + 1) (YearFromTime a) ltac:(lia)).
    unfold YearFromTime in *. lia.
Qed.

Lemma isoDate_compare a b :
  0 <= YearFromTime a <= 9999 -> 0 <= YearFromTime b <= 9999 ->
  String.compare (isoDate a) (isoDate b) = (Day a ?= Day b).
Proof.
  intros Ha Hb. unfold isoDate.
  pose proof (MonthFromTime_range a). pose proof (MonthFromTime_range b).
  pose proof (DateFromTime_range a) as Da.
  pose proof (DateFromTime_range b) as Db.
  pose proof (DaysInMonth_le_31 (YearFromTime a) (MonthFromTime a + 1) ltac:(lia)).
  pose proof (DaysInMonth_le_31 (YearFromTime b) (MonthFromTime b + 1) ltac:(lia)).
  rewrite compare_printed by lia. apply compare3_fields.
Qed.

(** For dates of the years 0000 to 9999, [a < b] on the printed dates is
    the order of the days. *)
Lemma isoDate_ltb a b :
  0 <= YearFromTime a <= 9999 -> 0 <= YearFromTime b <= 9999 ->
  String.ltb (isoDate a) (isoDate b) = (Day a <? Day b).
Proof.
  intros Ha Hb. unfold String.ltb, Z.ltb.
  rewrite isoDate_compare by assumption. reflexivity.
Qed.

(** The printed date depends on the day only. *)
Lemma isoDate_Day a b : Day a = Day b -> isoDate a = isoDate b.
Proof.
  intros E. unfold isoDate, DateFromTime, MonthFromTime, DayWithinYear,
    InLeapYear, YearFromTime. rewrite E. reflexivity.
Qed.

Lemma isoDate_midnight t : isoDate (MakeDate (Day t) 0) = isoDate t.
Proof. apply isoDate_Day, Day_MakeDate. Qed.

(** ** The custom working-days utility, continued *)

Section UtilityFacts.
Context {host : Host}.

Lemma dayName_reason_head name rest :
  In name CustomWorkingDays.dayNames ->
  exists c tail, (name ++ rest)%string = String c tail /\ c <> "D"%char.
Proof.
  intros H. cbn in H.
  destruct H as [<- | [<- | [<- | [<- | [<- | [<- | [<- | []]]]]]]];
    cbn [append]; eexists; eexists; (split; [reflexivity | discriminate]).
Qed.


(** Without custom days the utility and [isValidWorkingDay] of the
    attendance module accept the same printed dates of the internship
    period: neither a weekend day nor a holiday. *)
Theorem custom_default_agrees_with_attendance
    (config : CustomWorkingDays.WorkingDaysConfig) (holidays : list string) (t : Z) :
  Z.abs t <= maxTime ->
  String.ltb (isoDate t) (CustomWorkingDays.internshipStartDate config) = false ->
  String.ltb (CustomWorkingDays.internshipEndDate config) (isoDate t) = false ->
  CustomWorkingDays.customDays config = None \/ CustomWorkingDays.customDays config = Some [] ->
  exists r,
    CustomWorkingDays.isValidWorkingDay (CustomWorkingDays.DateString (isoDate t)) config holidays
    = Value r
    /\ wd_isValid r = wd_isValid (isValidWorkingDay (isoDate t) holidays).
Proof.
  intros Ht Hs He Hc.
  unfold CustomWorkingDays.isValidWorkingDay, isValidWorkingDay, isWeekend, Date_new.
  rewrite Date_parse_isoDate by assumption.
  cbn [toISOString bind]. rewrite splitT0_isoString, isoDate_midnight, Hs, He.
  destruct (includes holidays (isoDate t)).
  - eexists. split; [reflexivity |].
    destruct (_ || _); reflexivity.
  - destruct Hc as [-> | ->]; destruct (_ || _); eexists;
      (split; [reflexivity | reflexivity]).
Qed.
End UtilityFacts.

Section UtilityRange.
Context {host : Host}.
Variable config : CustomWorkingDays.WorkingDaysConfig.
Variable holidays : list string.

(** On a date string that parses the utility's check returns. *)
Lemma custom_isValidWorkingDay_returns s t :
  Date_parse s = Some t ->
  exists r,
    CustomWorkingDays.isValidWorkingDay (CustomWorkingDays.DateString s)
      config holidays = Value r.
Proof.
  intros H. unfold CustomWorkingDays.isValidWorkingDay, Date_new. rewrite H.
  cbn [toISOString bind].
  destruct (String.ltb _ _); [eexists; reflexivity |].
  destruct (String.ltb _ _); [eexists; reflexivity |].
  destruct (includes _ _); [eexists; reflexivity |].
  destruct (CustomWorkingDays.customDays config) as [[| d ds] |];
    try (destruct (_ || _); eexists; reflexivity).
  destruct (negb _); eexists; reflexivity.
Qed.

(** What a valid result of the utility's check says of a printed date. *)
Lemma customValid_facts t :
  Z.abs t <= maxTime ->
  customValid config holidays (isoDate t) = true ->
  String.ltb (isoDate t) (CustomWorkingDays.internshipStartDate config) = false
  /\ String.ltb (CustomWorkingDays.internshipEndDate config) (isoDate t) = false
  /\ includes holidays (isoDate t) = false.
Proof.
  intros Ht. unfold customValid, CustomWorkingDays.isValidWorkingDay, Date_new.
  rewrite Date_parse_isoDate by assumption.
  cbn [toISOString bind]. rewrite splitT0_isoString, isoDate_midnight.
  destruct (String.ltb (isoDate t) _); [discriminate |].
  destruct (String.ltb _ (isoDate t)); [discriminate |].
  destruct (includes holidays (isoDate t)); [discriminate |]. auto.
Qed.

End UtilityRange.

Section UtilityRangeLoop.
Context {host : Host} {tza : Z} {fixed : ConstantOffset tza}.
Variable config : CustomWorkingDays.WorkingDaysConfig.
Variable holidays : list string.

Lemma custom_workingDaysLoop_spec n : forall c e acc fuel,
  Z.abs c <= maxTime -> e <= maxTime ->
  Z.of_nat n = Z.max 0 ((e - c) / msPerDay + 1) ->
  (n < fuel)%nat ->
  WorkingDaysUtility.workingDaysLoop fuel (Some c) (Some e) config holidays acc
  = Value (acc ++ filter (customValid config holidays)
                    (map isoDate (daysFrom c n))).
Proof.
  induction n as [| n IH]; intros c e acc fuel Hc He Hn Hfuel;
    (destruct fuel as [| fuel]; [lia |]);
    cbn [WorkingDaysUtility.workingDaysLoop].
  - assert (e < c) by (unfold msPerDay in *; Z.div_mod_to_equations; lia).
    unfold Date_le, num_le.
    replace (c <=? e) with false by (symmetry; apply Z.leb_gt; lia).
    cbn. rewrite app_nil_r. reflexivity.
  - assert (c <= e) by (unfold msPerDay in *; Z.div_mod_to_equations; lia).
    unfold Date_le, num_le.
    replace (c <=? e) with true by (symmetry; apply Z.leb_le; lia).
    cbn [toISOString bind]. rewrite splitT0_isoString, setDate_getDate.
    destruct (custom_isValidWorkingDay_returns config holidays (isoDate c) _
                (Date_parse_isoDate c Hc)) as [r Hr].
    cbn [daysFrom map filter]. unfold customValid at 1. rewrite Hr.
    cbn [bind]. replace (1 * msPerDay) with msPerDay by lia.
    set (acc' := if wd_isValid r then acc ++ [isoDate c] else acc).
    assert (Hacc : forall l,
      acc' ++ l = acc ++ (if wd_isValid r then isoDate c :: l else l)).
    { intros l. unfold acc'. destruct (wd_isValid r); [| reflexivity].
      rewrite <- app_assoc. reflexivity. }
    unfold TimeClip.
    destruct (Z.leb_spec (Z.abs (c + msPerDay)) maxTime) as [Hin | Hout].
    + rewrite (IH (c + msPerDay) e acc' fuel); try lia.
      * rewrite Hacc. destruct (wd_isValid r); reflexivity.
      * unfold msPerDay in *. Z.div_mod_to_equations. lia.
    + assert (n = 0%nat) as ->
        by (unfold msPerDay, maxTime in *; Z.div_mod_to_equations; lia).
      destruct fuel as [| fuel]; [lia |].
      cbn [WorkingDaysUtility.workingDaysLoop Date_le num_le].
      cbn [daysFrom map filter]. rewrite <- Hacc, app_nil_r. reflexivity.
Qed.

Lemma custom_getWorkingDaysInRange_spec startDate endDate :
  WorkingDaysUtility.getWorkingDaysInRange startDate endDate config holidays
  = Value match Date_parse startDate, Date_parse endDate with
          | Some c, Some e =>
              filter (customValid config holidays)
                (map isoDate (daysFrom c (Z.to_nat ((e - c) / msPerDay + 1))))
          | _, _ => []
          end.
Proof.
  unfold WorkingDaysUtility.getWorkingDaysInRange, Date_new, Date_copy.
  destruct (Date_parse startDate) as [c |] eqn:Ec;
    [destruct (Date_parse endDate) as [e |] eqn:Ee |]; try reflexivity.
  unfold loopFuel. apply Date_parse_in_range in Ec, Ee.
  rewrite (custom_workingDaysLoop_spec (Z.to_nat ((e - c) / msPerDay + 1)));
    try lia.
  reflexivity.
Qed.

(** On a host with a constant offset from UTC, [getWorkingDaysInRange] of
    the utility returns for every input, in ascending order of the days,
    dates the utility's [isValidWorkingDay] accepts; whatever range is asked for, each of them is within the
    internship period of the policy (as strings) and no holiday.
    [getTotalExpectedWorkingDays] returns too, and gives 0 for a policy whose
    start or end date does not parse. *)
Theorem custom_getWorkingDaysInRange_valid_days (startDate endDate : string) :
  exists l n,
    WorkingDaysUtility.getWorkingDaysInRange startDate endDate config holidays
    = Value l
    /\ (forall s, In s l ->
          customValid config holidays s = true
          /\ String.ltb s (CustomWorkingDays.internshipStartDate config) = false
          /\ String.ltb (CustomWorkingDays.internshipEndDate config) s = false
          /\ includes holidays s = false)
    /\ (exists ds, map dayOf l = map Some ds /\ StronglySorted Z.lt ds)
    /\ WorkingDaysUtility.getTotalExpectedWorkingDays config holidays = Value n
    /\ 0 <= n
    /\ (Date_parse (CustomWorkingDays.internshipStartDate config) = None
        \/ Date_parse (CustomWorkingDays.internshipEndDate config) = None ->
        n = 0).
Proof.
  unfold WorkingDaysUtility.getTotalExpectedWorkingDays.
  rewrite !custom_getWorkingDaysInRange_spec. cbn [bind].
  eexists. eexists. split; [reflexivity |].
  split; [| split; [| split; [reflexivity | split; [lia |]]]].
  - destruct (Date_parse startDate) as [c |] eqn:Ec;
      [destruct (Date_parse endDate) as [e |] eqn:Ee |]; try (intros ? []).
    intros s Hs. apply filter_In in Hs as [Hs Hv].
    apply in_map_iff in Hs as (t & <- & Ht).
    apply daysFrom_visited in Ht as (Ht & _);
      try (eapply Date_parse_in_range; eassumption).
    split; [exact Hv |]. apply customValid_facts; assumption.
  - destruct (Date_parse startDate) as [c |] eqn:Ec;
      [destruct (Date_parse endDate) as [e |] eqn:Ee |];
      try (exists []; split; [reflexivity | constructor]).
    exists (map Day (filter (fun t => customValid config holidays (isoDate t))
                       (daysFrom c (Z.to_nat ((e - c) / msPerDay + 1))))).
    split.
    + rewrite filter_map_comm, !map_map. apply map_ext_in.
      intros t Ht. apply filter_In in Ht as [Ht _].
      apply daysFrom_visited in Ht as [Ht _];
        try (eapply Date_parse_in_range; eassumption).
      apply dayOf_isoDate, Ht.
    + apply StronglySorted_map_filter, daysFrom_sorted.
  - intros [E | E]; rewrite E; [reflexivity |].
    destruct (Date_parse (CustomWorkingDays.internshipStartDate config));
      reflexivity.
Qed.
End UtilityRangeLoop.

(** ** [validateWeeklyAttendanceLimit] and [hasDatePassed] *)

Section WeekLimitFacts.
Context {host : Host} {tza : Z} {fixed : ConstantOffset tza}.

Lemma setHoursZero_value t :
  CustomWorkingDays.setHoursZero (Some t)
  = TimeClip (MakeDate (Day (LocalTime t)) 0 - tza).
Proof.
  unfold CustomWorkingDays.setHoursZero. rewrite UTC_constant. reflexivity.
Qed.

Lemma local_midnight_bounds t :
  t - msPerDay < MakeDate (Day (LocalTime t)) 0 - tza <= t.
Proof.
  pose proof (MakeDate_Day_le (LocalTime t)) as H.
  rewrite LocalTime_constant in *. lia.
Qed.

(** On a host with a constant offset from UTC, for a date that parses, at
    least seven days inside the range of time values: the week of
    [validateWeeklyAttendanceLimit] starts at 00:00 of a local Monday, ends 23:59:59.999 of the Sunday after it and holds the date,
    whatever its weekday; the count is that of the student's present records
    dated within it, and the result is valid exactly when the count is below
    [daysPerWeek]. *)
Theorem validateWeeklyAttendanceLimit_week
    (studentEmail_ date_ : string)
    (config : CustomWorkingDays.WorkingDaysConfig)
    (existingAttendance : list WorkingDaysUtility.WeekRecord) (t : Z) :
  Date_parse date_ = Some t ->
  Z.abs t + 7 * msPerDay <= maxTime ->
  exists s,
    CustomWorkingDays.startOfWeek date_ = Some s
    /\ WorkingDaysUtility.endOfWeek date_ = Some (s + 7 * msPerDay - 1)
    /\ TimeWithinDay (LocalTime s) = 0
    /\ WeekDay (LocalTime s) = 1
    /\ s <= t <= s + 7 * msPerDay - 1
    /\ let r := WorkingDaysUtility.validateWeeklyAttendanceLimit
                  studentEmail_ date_ config existingAttendance in
       WorkingDaysUtility.count r
       = Z.of_nat (List.length
           (filter (presentWithin studentEmail_ s (s + 7 * msPerDay - 1))
                   existingAttendance))
       /\ WorkingDaysUtility.limit r = CustomWorkingDays.daysPerWeek config
       /\ (WorkingDaysUtility.wl_isValid r = true
           <-> WorkingDaysUtility.count r < CustomWorkingDays.daysPerWeek config).
Proof.
  intros Ht Hm.
  set (w := WeekDay (LocalTime t)).
  pose proof (WeekDay_range (LocalTime t)) as Hw. fold w in Hw.
  assert (Hcases : exists k,
            -6 <= k - w <= 0
            /\ (Day (LocalTime t) + (k - w) + 4) mod 7 = 1
            /\ CustomWorkingDays.startOfWeek date_
               = CustomWorkingDays.setHoursZero
                   (TimeClip (t + (k - w) * msPerDay))).
  { unfold CustomWorkingDays.startOfWeek, Date_new, Date_copy. rewrite Ht.
    cbn [getDay num_eq]. fold w.
    destruct (Z.eqb_spec w 0) as [E0 | E0]; [exists (-6) | exists 1];
      (split; [lia |]); rewrite setDate_getDate_sub;
      (split; [| reflexivity]); unfold w, WeekDay in *;
      Z.div_mod_to_equations; lia. }
  destruct Hcases as (k & Hk & Hmon & Hstart0).
  set (t1 := t + (k - w) * msPerDay) in *.
  set (s := MakeDate (Day (LocalTime t1)) 0 - tza).
  assert (Hstart : CustomWorkingDays.startOfWeek date_ = Some s).
  { rewrite Hstart0.
    rewrite TimeClip_ok by (unfold t1, msPerDay, maxTime in *; lia).
    rewrite setHoursZero_value. fold s.
    pose proof (local_midnight_bounds t1).
    apply TimeClip_ok. unfold s, t1, msPerDay, maxTime in *. lia. }
  pose proof (local_midnight_bounds t1) as Hs. fold s in Hs.
  assert (Hls : LocalTime s = MakeDate (Day (LocalTime t1)) 0)
    by (unfold s; rewrite (LocalTime_constant (_ - tza)); lia).
  assert (Hend : WorkingDaysUtility.endOfWeek date_ = Some (s + 7 * msPerDay - 1)).
  { unfold WorkingDaysUtility.endOfWeek, Date_copy. rewrite Hstart.
    rewrite setDate_getDate.
    rewrite TimeClip_ok by (unfold t1, msPerDay, maxTime in *; lia).
    unfold WorkingDaysUtility.setHoursEndOfDay. rewrite UTC_constant.
    replace (LocalTime (s + 6 * msPerDay))
      with (LocalTime s + 6 * msPerDay) by (rewrite !LocalTime_constant; lia).
    rewrite Day_add_days, Hls, Day_MakeDate.
    replace (MakeDate (Day (LocalTime t1) + 6)
               (23 * 3600000 + 59 * 60000 + 59 * 1000 + 999) - tza)
      with (s + 7 * msPerDay - 1) by (unfold s, MakeDate, msPerDay; lia).
    apply TimeClip_ok. unfold t1, msPerDay, maxTime in *. lia. }
  assert (Hday : Day (LocalTime t1) = Day (LocalTime t) + (k - w)).
  { unfold t1. replace (LocalTime (t + (k - w) * msPerDay))
      with (LocalTime t + (k - w) * msPerDay)
      by (rewrite !LocalTime_constant; lia).
    apply Day_add_days. }
  exists s. split; [exact Hstart |]. split; [exact Hend |].
  split; [| split; [| split]].
  - rewrite Hls. unfold TimeWithinDay, MakeDate, msPerDay.
    rewrite Z.add_0_r. apply Z.mod_mul. lia.
  - unfold WeekDay at 1. rewrite Hls, Day_MakeDate, Hday. exact Hmon.
  - pose proof (MakeDate_Day_le (LocalTime t)) as Hlt.
    unfold s. rewrite Hday. rewrite LocalTime_constant in Hlt |- *.
    unfold MakeDate, msPerDay in *. lia.
  - cbv zeta. unfold WorkingDaysUtility.validateWeeklyAttendanceLimit.
    cbn [WorkingDaysUtility.count WorkingDaysUtility.limit
         WorkingDaysUtility.wl_isValid].
    rewrite Hstart, Hend. split; [| split; [reflexivity | apply Z.ltb_lt]].
    do 2 f_equal. apply filter_ext. intros att.
    unfold WorkingDaysUtility.countedInWeek, presentWithin, Date_new,
      num_ge, num_le.
    destruct (String.eqb _ studentEmail_); [| reflexivity].
    destruct (String.eqb _ "present"); [| reflexivity].
    cbn [negb orb andb].
    destruct (Date_parse (WorkingDaysUtility.wr_date att)); reflexivity.
Qed.

(** On a host with a constant offset from UTC, for a date and a present
    time at least a day inside the range of time values: a date has passed
    exactly when its local day is before the local day of now; today has
    not passed. *)
Theorem hasDatePassed_by_local_day (now : Z) (dateStr : string) (t : Z) :
  Date_parse dateStr = Some t ->
  msPerDay - maxTime <= t ->
  msPerDay - maxTime <= now <= maxTime ->
  hasDatePassed now dateStr = (Day (LocalTime t) <? Day (LocalTime now)).
Proof.
  intros Ht Hlo Hnow. pose proof (Date_parse_in_range _ _ Ht) as Hr.
  unfold hasDatePassed, Date_new. rewrite Ht, !setHoursZero_value.
  pose proof (local_midnight_bounds t). pose proof (local_midnight_bounds now).
  rewrite !TimeClip_ok by (unfold msPerDay, maxTime in *; lia).
  unfold MakeDate, msPerDay.
  destruct (Z.ltb_spec (Day (LocalTime t)) (Day (LocalTime now)));
    [apply Z.ltb_lt | apply Z.ltb_ge]; lia.
Qed.
End WeekLimitFacts.

(** ** The data store and the faculty attendance routes *)

Section StoreFacts.
Import DataStore.

Lemma mapGet_mapSet {V : Type} (m : list (string * V)) k v k' :
  mapGet (mapSet m k v) k' = if String.eqb k k' then Some v else mapGet m k'.
Proof.
  induction m as [| [k0 v0] m IH]; cbn [mapSet mapGet].
  - reflexivity.
  - destruct (String.eqb_spec k0 k) as [-> | Hne]; cbn [mapGet].
    + destruct (String.eqb k k'); reflexivity.
    + rewrite IH. destruct (String.eqb_spec k0 k') as [-> | Hne'].
      * destruct (String.eqb_spec k k') as [-> | _]; [contradiction | reflexivity].
      * reflexivity.
Qed.

(** A record that was added is read back last among those of its student;
    the records of the other students are as they were. *)
Lemma getAttendance_addAttendance store record studentEmail :
  getAttendance (addAttendance store record) studentEmail
  = if String.eqb (record_studentEmail record) studentEmail
    then getAttendance store studentEmail ++ [record]
    else getAttendance store studentEmail.
Proof.
  unfold addAttendance, getAttendance at 1. cbn [attendance].
  rewrite mapGet_mapSet.
  destruct (String.eqb_spec (record_studentEmail record) studentEmail) as [-> | _];
    reflexivity.
Qed.

Lemma NoDup_snoc {A : Type} (l : list A) x :
  NoDup l -> ~ In x l -> NoDup (l ++ [x]).
Proof.
  induction l as [| y l IH]; intros Hnd Hx; cbn.
  - constructor; [intros [] | constructor].
  - inversion Hnd as [| ? ? Hy Hl]; subst. constructor.
    + rewrite in_app_iff. intros [Hin | [-> | []]]; [contradiction |].
      apply Hx. left. reflexivity.
    + apply IH; [assumption |]. intros Hin. apply Hx. right. assumption.
Qed.

Lemma addAttendance_keeps_unique store record :
  uniqueDates store ->
  ~ In (record_date record)
       (map record_date (getAttendance store (record_studentEmail record))) ->
  uniqueDates (addAttendance store record).
Proof.
  intros Hu Hnew e. rewrite getAttendance_addAttendance.
  destruct (String.eqb_spec (record_studentEmail record) e) as [<- | _];
    [| apply Hu].
  rewrite map_app. cbn [map].
  apply NoDup_snoc; [apply Hu | exact Hnew].
Qed.
End StoreFacts.

Section HandlerFacts.
Context {host : Host} {tza : Z} {fixed : ConstantOffset tza}.
Import DataStore FacultyRoutes.
Variable zodMessage : Body -> string.

(** On a host with a constant offset from UTC the validator returns or
    throws; its loop does not run out of fuel. *)
Lemma validateAttendanceMarkable_outcome studentId date_ daysPerWeekAllowed
    startDate endDate holidays existingAttendance :
  (exists weekWorkingDays,
     getWorkingDaysInWeek date_ holidays = Value weekWorkingDays
     /\ validateAttendanceMarkable studentId date_ daysPerWeekAllowed
          startDate endDate holidays existingAttendance
        = Value (let errs :=
                   rangeReason date_ startDate endDate
                   ++ workingDayReason date_ holidays
                   ++ duplicateReason date_ existingAttendance
                   ++ weeklyReason daysPerWeekAllowed weekWorkingDays
                        existingAttendance in
                 {| isValid := match errs with [] => true | _ => false end;
                    errors := errs |}))
  \/ validateAttendanceMarkable studentId date_ daysPerWeekAllowed
       startDate endDate holidays existingAttendance
     = Throws (RangeError "Invalid time value").
Proof.
  rewrite validateAttendanceMarkable_unfold.
  assert (Hweek : (exists l, getWorkingDaysInWeek date_ holidays = Value l)
                  \/ getWorkingDaysInWeek date_ holidays
                     = Throws (RangeError "Invalid time value")).
  { unfold getWorkingDaysInWeek.
    destruct (setDate (Date_copy (Date_new date_)) _) as [m |];
      [| right; reflexivity].
    destruct (setDate (Date_copy (Some m)) _) as [f |];
      [| right; reflexivity].
    cbn [toISOString bind]. rewrite getWorkingDaysInRange_spec.
    left. eexists. reflexivity. }
  destruct Hweek as [[l Hl] | Ht]; [left | right].
  - exists l. split; [exact Hl |]. rewrite Hl. reflexivity.
  - rewrite Ht. reflexivity.
Qed.

Lemma duplicateReason_fresh date_ (records : list StoredAttendance) :
  duplicateReason date_ (map asAttendanceRecord records) = [] ->
  ~ In date_ (map record_date records).
Proof.
  unfold duplicateReason. intros H Hin.
  apply in_map_iff in Hin as (r & Hr & Hin).
  assert (E : existsb (fun a => String.eqb (date a) date_)
                (map asAttendanceRecord records) = true).
  { apply existsb_exists. exists (asAttendanceRecord r).
    split; [apply in_map, Hin |]. cbn. apply String.eqb_eq, Hr. }
  rewrite E in H. discriminate.
Qed.

(** On a host with a constant offset from UTC, [handleMarkAttendance]
    always answers.  Unless the answer is the
    success response (status 200) the store is unchanged; on success exactly
    one record is added, dated on a date none of the records of its student
    had.  So a store in which no student has two records with the same date
    string stays such a store. *)
Theorem handleMarkAttendance_keeps_dates_unique
    (store : Store) (user : option User) (body : Body)
    (now created updated : Z) :
  exists response store',
    handleMarkAttendance zodMessage store user body now created updated
    = Value (response, store')
    /\ (statusCode response <> 200 -> store' = store)
    /\ (statusCode response = 200 ->
        exists record,
          store' = addAttendance store record
          /\ body_date body = JString (record_date record)
          /\ ~ In (record_date record)
                  (map record_date
                     (getAttendance store (record_studentEmail record))))
    /\ (uniqueDates store -> uniqueDates store').
Proof.
  unfold handleMarkAttendance.
  destruct (parseMarkAttendance body) as [[[[studentId date_] status_] remarks] |] eqn:Ep.
  2: { eexists. eexists. split; [reflexivity |]. cbn.
       repeat split; auto; intros; lia. }
  assert (Hdate : body_date body = JString date_).
  { unfold parseMarkAttendance in Ep.
    destruct (body_studentId body), (body_date body), (body_status body);
      try discriminate.
    destruct (_ && _); [| discriminate].
    destruct (parseStatus _); [| discriminate].
    destruct (body_remarks body); try discriminate;
      injection Ep as _ <- _ _; reflexivity. }
  destruct user as [u |].
  2: { eexists. eexists. split; [reflexivity |]. cbn.
       repeat split; auto; intros; lia. }
  destruct (find _ (getAllStudents store)) as [student |].
  2: { eexists. eexists. split; [reflexivity |]. cbn.
       repeat split; auto; intros; lia. }
  destruct (validateAttendanceMarkable_outcome studentId date_
              (student_daysPerWeekAllowed student)
              (student_internshipStartDate student)
              (student_internshipEndDate student) []
              (map asAttendanceRecord (getAttendance store (student_email student))))
    as [(wk & _ & ->) | ->].
  2: { eexists. eexists. split; [reflexivity |]. cbn.
       repeat split; auto; intros; lia. }
  cbv zeta. cbn [isValid errors].
  destruct (rangeReason _ _ _) as [| e1 l1] eqn:E1.
  2: { cbn. eexists. eexists. split; [reflexivity |]. cbn.
       repeat split; auto; intros; lia. }
  destruct (workingDayReason _ _) as [| e2 l2] eqn:E2.
  2: { cbn. eexists. eexists. split; [reflexivity |]. cbn.
       repeat split; auto; intros; lia. }
  destruct (duplicateReason _ _) as [| e3 l3] eqn:E3.
  2: { cbn. eexists. eexists. split; [reflexivity |]. cbn.
       repeat split; auto; intros; lia. }
  destruct (weeklyReason _ _ _) as [| e4 l4] eqn:E4.
  2: { cbn. eexists. eexists. split; [reflexivity |]. cbn.
       repeat split; auto; intros; lia. }
  cbn [app negb]. eexists. eexists. split; [reflexivity |].
  pose proof (duplicateReason_fresh _ _ E3) as Hfresh.
  split; [cbn; intros; lia |]. split.
  - intros _. eexists. split; [reflexivity |]. split; [exact Hdate | exact Hfresh].
  - intros Hu. apply addAttendance_keeps_unique; assumption.
Qed.

(** On a host with a constant offset from UTC: after a mark was accepted,
    the same request is refused, whenever it is made, with "Attendance already marked for this date", and changes
    nothing. *)
Theorem handleMarkAttendance_twice_refused
    (store store' : Store) (user : option User) (body : Body)
    (now created updated : Z) (response : Response) :
  handleMarkAttendance zodMessage store user body now created updated
  = Value (response, store') ->
  statusCode response = 200 ->
  forall now' created' updated',
    handleMarkAttendance zodMessage store' user body now' created' updated'
    = Value (ErrorResponse 400 "Cannot mark attendance"
               (Some "Attendance already marked for this date"), store').
Proof.
  unfold handleMarkAttendance.
  destruct (parseMarkAttendance body) as [[[[studentId date_] status_] remarks] |];
    [| intros H; injection H as <- _; cbn; lia].
  destruct user as [u |]; [| intros H; injection H as <- _; cbn; lia].
  destruct (find _ (getAllStudents store)) as [student |] eqn:Ef;
    [| intros H; injection H as <- _; cbn; lia].
  destruct (validateAttendanceMarkable_outcome studentId date_
              (student_daysPerWeekAllowed student)
              (student_internshipStartDate student)
              (student_internshipEndDate student) []
              (map asAttendanceRecord (getAttendance store (student_email student))))
    as [(wk & Hwk & ->) | ->];
    [| intros H; injection H as <- _; cbn; lia].
  cbv zeta. cbn [isValid errors].
  destruct (rangeReason _ _ _) as [| e1 l1] eqn:E1;
    [| cbn; intros H; injection H as <- _; cbn; lia].
  destruct (workingDayReason _ _) as [| e2 l2] eqn:E2;
    [| cbn; intros H; injection H as <- _; cbn; lia].
  destruct (duplicateReason _ _) as [| e3 l3] eqn:E3;
    [| cbn; intros H; injection H as <- _; cbn; lia].
  destruct (weeklyReason _ _ _) as [| e4 l4] eqn:E4;
    [| cbn; intros H; injection H as <- _; cbn; lia].
  cbn [app negb]. intros H _ now' created' updated'.
  injection H as _ <-.
  match goal with
  | |- context [addAttendance store ?r] => set (record := r)
  end.
  assert (Hstud : getAllStudents (addAttendance store record) = getAllStudents store)
    by reflexivity.
  rewrite Hstud, Ef.
  rewrite getAttendance_addAttendance. cbn [record_studentEmail record].
  rewrite String.eqb_refl.
  destruct (validateAttendanceMarkable_outcome studentId date_
              (student_daysPerWeekAllowed student)
              (student_internshipStartDate student)
              (student_internshipEndDate student) []
              (map asAttendanceRecord
                 (getAttendance store (student_email student) ++ [record])))
    as [(wk' & Hwk' & ->) | Hthrow].
  - cbv zeta. cbn [isValid errors]. rewrite E1, E2.
    assert (Hdup : duplicateReason date_
              (map asAttendanceRecord
                 (getAttendance store (student_email student) ++ [record]))
            = ["Attendance already marked for this date"]).
    { unfold duplicateReason.
      replace (existsb _ _) with true; [reflexivity |].
      symmetry. apply existsb_exists. exists (asAttendanceRecord record).
      split; [apply in_map, in_or_app; right; left; reflexivity |].
      cbn. apply String.eqb_refl. }
    rewrite Hdup. reflexivity.
  - exfalso.
    rewrite validateAttendanceMarkable_unfold, Hwk in Hthrow. discriminate.
Qed.
End HandlerFacts.

Lemma year_range_time t :
  0 <= YearFromTime t <= 9999 -> -62167219200000 <= t < 253402300800000.
Proof.
  intros H. unfold YearFromTime in H.
  pose proof (YearFromDay_spec (Day t)) as [Hlo Hhi].
  pose proof (DayFromYear_mono 0 (YearFromDay (Day t)) ltac:(lia)) as M1.
  pose proof (DayFromYear_mono (YearFromDay (Day t) + 1) 10000 ltac:(lia)) as M2.
  assert (E0 : DayFromYear 0 = -719528) by reflexivity.
  assert (E1 : DayFromYear 10000 = 2932897) by reflexivity.
  pose proof (MakeDate_Day_le t) as Hd.
  unfold MakeDate, msPerDay in Hd. lia.
Qed.

Section ValidateRouteFacts.
Context {host : Host} {tza : Z} {fixed : ConstantOffset tza}.
Import DataStore FacultyRoutes.
Variable zodMessage : Body -> string.

(** On a host with a constant offset from UTC, for a well-formed body, a
    known student and a date whose week can be computed,
    [handleValidateAttendance] answers with the reason of the first check
    that fails, in the order range, weekend, duplicate, weekly limit (it
    passes no holidays), and with [isValid] exactly when none fails.  The
    status sent plays no part.  The details carry the weekend flag of the
    date, and neither the holiday flag nor the weekly-limit flag is ever set,
    also when the weekly limit is the reason. *)
Theorem handleValidateAttendance_first_reason
    (store : Store) (body : Body) (studentId date_ : string)
    (status_ : AttendanceStatus) (student : Student) :
  parseValidateAttendance body = Some (studentId, date_, status_) ->
  find (fun s => String.eqb (student_id s) studentId) (getAllStudents store)
  = Some student ->
  validDate date_ = true ->
  exists weekWorkingDays,
    getWorkingDaysInWeek date_ [] = Value weekWorkingDays
    /\ let existing :=
         map asAttendanceRecord (getAttendance store (student_email student)) in
       let reasons :=
         rangeReason date_ (student_internshipStartDate student)
           (student_internshipEndDate student)
         ++ (if isWeekend date_ then ["Cannot mark attendance on weekends"] else [])
         ++ duplicateReason date_ existing
         ++ weeklyReason (student_daysPerWeekAllowed student) weekWorkingDays
              existing in
       handleValidateAttendance zodMessage store body
       = Value (ValidateAttendanceResponse
                  match reasons with [] => true | _ => false end
                  (hd_error reasons)
                  {| details_isWeekend := isWeekend date_;
                     details_isHoliday := false;
                     details_exceedsWeeklyLimit := false;
                     details_outsideInternshipDates :=
                       String.ltb date_ (student_internshipStartDate student)
                       || String.ltb (student_internshipEndDate student) date_ |}).
Proof.
  intros Hp Hf Hd.
  destruct (validDate_week date_ [] Hd) as [wk Hwk].
  exists wk. split; [exact Hwk |]. cbv zeta.
  unfold handleValidateAttendance. rewrite Hp, Hf.
  rewrite validateAttendanceMarkable_unfold, Hwk. cbn [bind isValid errors].
  unfold workingDayReason. cbn [includes existsb].
  reflexivity.
Qed.

(** On a host with a constant offset from UTC, for a valid calendar date
    and a policy with valid calendar dates, all of the years 0000 to 9999,
    the flag [outsideInternshipDates], which
    compares strings, is set exactly when the reason returned is the one of
    the range check, which compares time values. *)
Theorem handleValidateAttendance_outside_flag
    (store : Store) (body : Body) (studentId : string)
    (status_ : AttendanceStatus) (student : Student) (t ts te : Z) :
  parseValidateAttendance body = Some (studentId, isoDate t, status_) ->
  find (fun s => String.eqb (student_id s) studentId) (getAllStudents store)
  = Some student ->
  student_internshipStartDate student = isoDate ts ->
  student_internshipEndDate student = isoDate te ->
  0 <= YearFromTime t <= 9999 ->
  0 <= YearFromTime ts <= 9999 ->
  0 <= YearFromTime te <= 9999 ->
  exists valid reason_ details,
    handleValidateAttendance zodMessage store body
    = Value (ValidateAttendanceResponse valid reason_ details)
    /\ (details_outsideInternshipDates details = true
        <-> reason_ = Some "Date is outside internship period")
    /\ (details_outsideInternshipDates details = true
        <-> Day t < Day ts \/ Day te < Day t).
Proof.
  intros Hp Hf Hs He Yt Ys Ye.
  pose proof (year_range_time t Yt) as Rt.
  pose proof (year_range_time ts Ys) as Rts.
  pose proof (year_range_time te Ye) as Rte.
  assert (Bt : Z.abs t <= maxTime) by (unfold maxTime; lia).
  assert (Bts : Z.abs ts <= maxTime) by (unfold maxTime; lia).
  assert (Bte : Z.abs te <= maxTime) by (unfold maxTime; lia).
  assert (Hd : validDate (isoDate t) = true).
  { unfold validDate. rewrite Date_parse_isoDate by assumption.
    apply Z.leb_le. pose proof (MakeDate_Day_le t).
    unfold msPerDay, maxTime in *. lia. }
  destruct (validDate_week (isoDate t) [] Hd) as [wk Hwk].
  unfold handleValidateAttendance. rewrite Hp, Hf.
  rewrite validateAttendanceMarkable_unfold, Hwk. cbn [bind isValid errors].
  eexists. eexists. eexists. split; [reflexivity |].
  cbn [details_outsideInternshipDates]. rewrite Hs, He.
  rewrite !isoDate_ltb by assumption.
  assert (Hrange : rangeReason (isoDate t) (isoDate ts) (isoDate te)
                   = if (Day t <? Day ts) || (Day te <? Day t)
                     then ["Date is outside internship period"] else []).
  { unfold rangeReason, isWithinInternshipPeriod, Date_new, getTime.
    rewrite !Date_parse_isoDate by assumption.
    unfold num_ge, num_le, MakeDate, msPerDay.
    destruct (Z.ltb_spec (Day t) (Day ts)), (Z.ltb_spec (Day te) (Day t));
      cbn [orb];
      repeat match goal with
             | |- context [?a <=? ?b] => destruct (Z.leb_spec a b)
             end; cbn; try reflexivity; lia. }
  rewrite Hrange.
  split.
  - destruct ((Day t <? Day ts) || (Day te <? Day t)); cbn [app hd_error].
    + split; reflexivity.
    + split; [discriminate |]. intros Hr.
      unfold workingDayReason, duplicateReason, weeklyReason in Hr.
      destruct (weeklyLimitMessage_head (student_daysPerWeekAllowed student))
        as [rest Hmsg].
      rewrite Hmsg in Hr.
      destruct (isWeekend (isoDate t)); [discriminate |].
      cbn [includes existsb] in Hr.
      destruct (existsb _ _); [discriminate |].
      destruct (_ <=? _); discriminate.
  - rewrite orb_true_iff, !Z.ltb_lt. reflexivity.
Qed.
End ValidateRouteFacts.

(** ** Instances of the further properties *)

Ltac both_leb := split; apply Z.leb_le; vm_compute; reflexivity.


Lemma getWorkingDaysInRange_complete_witness :
  exists l,
    getWorkingDaysInRange (host := UTC_host) "2024-03-01" "2024-03-12"
      ["2024-03-05"] = Value l
    /\ In "2024-03-04" l.
Proof.
  destruct (getWorkingDaysInRange_complete (host := UTC_host)
              (fixed := UTC_host_constant)
              "2024-03-01" "2024-03-12" ["2024-03-05"] 19783 19794
              eq_refl eq_refl) as (l & Hl & Hin).
  exists l. split; [exact Hl |]. apply Hin. exists 19786.
  split; [lia |]. repeat split; vm_compute; reflexivity.
Defined.

Lemma getWorkingDaysInWeek_monday_to_friday_witness :
  getWorkingDaysInWeek (host := IST_host) "2024-03-07" ["2024-03-05"]
  = Value (filter (fun s => negb (includes ["2024-03-05"] s))
             (map (fun k => isoDate (MakeDate (19786 + k) 0)) [0; 1; 2; 3; 4])).
Proof.
  apply (getWorkingDaysInWeek_monday_to_friday (host := IST_host)
              (fixed := IST_host_constant)
           "2024-03-07" ["2024-03-05"] 19789).
  - cbn. unfold msPerDay. lia.
  - reflexivity.
  - apply Z.leb_le. vm_compute. reflexivity.
Defined.



Lemma custom_default_agrees_with_attendance_witness :
  exists r,
    CustomWorkingDays.isValidWorkingDay (host := UTC_host)
      (CustomWorkingDays.DateString (isoDate 1709510400000))
      {| CustomWorkingDays.daysPerWeek := 5;
         CustomWorkingDays.customDays := None;
         CustomWorkingDays.internshipStartDate := "2024-03-01";
         CustomWorkingDays.internshipEndDate := "2024-08-31" |}
      ["2024-03-04"]
    = Value r
    /\ wd_isValid r
       = wd_isValid (isValidWorkingDay (host := UTC_host)
                       (isoDate 1709510400000) ["2024-03-04"]).
Proof.
  apply (custom_default_agrees_with_attendance (host := UTC_host)
           {| CustomWorkingDays.daysPerWeek := 5;
              CustomWorkingDays.customDays := None;
              CustomWorkingDays.internshipStartDate := "2024-03-01";
              CustomWorkingDays.internshipEndDate := "2024-08-31" |}
           ["2024-03-04"] 1709510400000).
  - apply Z.leb_le. vm_compute. reflexivity.
  - vm_compute. reflexivity.
  - vm_compute. reflexivity.
  - left. reflexivity.
Defined.

Lemma validateWeeklyAttendanceLimit_week_witness :
  exists s,
    CustomWorkingDays.startOfWeek (host := IST_host) "2024-03-10" = Some s
    /\ WeekDay (LocalTime (host := IST_host) s) = 1
    /\ s <= 1710028800000 <= s + 7 * msPerDay - 1.
Proof.
  destruct (validateWeeklyAttendanceLimit_week (host := IST_host)
              (fixed := IST_host_constant)
              "a@x" "2024-03-10"
              {| CustomWorkingDays.daysPerWeek := 2;
                 CustomWorkingDays.customDays := None;
                 CustomWorkingDays.internshipStartDate := "2024-03-01";
                 CustomWorkingDays.internshipEndDate := "2024-08-31" |}
              [] 1710028800000 eq_refl
              ltac:(apply Z.leb_le; vm_compute; reflexivity))
    as (s & Hs & _ & _ & Hmon & Hin & _).
  exists s. auto.
Defined.

Lemma hasDatePassed_by_local_day_witness :
  hasDatePassed (host := IST_host) 1709942400000 "2024-03-08"
  = (Day (LocalTime (host := IST_host) 1709856000000)
     <? Day (LocalTime (host := IST_host) 1709942400000)).
Proof.
  apply (hasDatePassed_by_local_day (host := IST_host)
              (fixed := IST_host_constant)
           1709942400000 "2024-03-08" 1709856000000 eq_refl).
  - apply Z.leb_le. vm_compute. reflexivity.
  - both_leb.
Defined.

Lemma handleMarkAttendance_twice_refused_witness :
  let store :=
    {| DataStore.students :=
         [("a@x", {| DataStore.student_id := "S1";
                     DataStore.student_email := "a@x";
                     DataStore.student_internshipStartDate := "2024-03-01";
                     DataStore.student_internshipEndDate := "2024-08-31";
                     DataStore.student_daysPerWeekAllowed := 2 |})];
       DataStore.attendance := [] |} in
  let user := Some {| FacultyRoutes.user_email := "f@x";
                      FacultyRoutes.user_roleId := "F1" |} in
  let body :=
    {| FacultyRoutes.body_studentId := FacultyRoutes.JString "S1";
       FacultyRoutes.body_date := FacultyRoutes.JString "2024-03-04";
       FacultyRoutes.body_status := FacultyRoutes.JString "present";
       FacultyRoutes.body_remarks := FacultyRoutes.JUndefined |} in
  exists response store',
    FacultyRoutes.handleMarkAttendance (host := UTC_host) (fun _ => "Required")
      store user body 1 2 3 = Value (response, store')
    /\ FacultyRoutes.statusCode response = 200
    /\ FacultyRoutes.handleMarkAttendance (host := UTC_host) (fun _ => "Required")
         store' user body 4 5 6
       = Value (FacultyRoutes.ErrorResponse 400 "Cannot mark attendance"
                  (Some "Attendance already marked for this date"), store').
Proof.
  intros store user body.
  destruct (FacultyRoutes.handleMarkAttendance (host := UTC_host)
              (fun _ => "Required") store user body 1 2 3)
    as [[response store'] | e |] eqn:E; try (vm_compute in E; discriminate).
  exists response, store'. split; [reflexivity |].
  assert (Hcode : FacultyRoutes.statusCode response = 200).
  { vm_compute in E. injection E as <- _. reflexivity. }
  split; [exact Hcode |].
  apply (handleMarkAttendance_twice_refused (host := UTC_host)
              (fixed := UTC_host_constant)
           (fun _ => "Required") store store' user body 1 2 3 response E Hcode).
Defined.

Lemma handleValidateAttendance_first_reason_witness :
  let store :=
    {| DataStore.students :=
         [("a@x", {| DataStore.student_id := "S1";
                     DataStore.student_email := "a@x";
                     DataStore.student_internshipStartDate := "2024-03-01";
                     DataStore.student_internshipEndDate := "2024-08-31";
                     DataStore.student_daysPerWeekAllowed := 2 |})];
       DataStore.attendance := [] |} in
  let body :=
    {| FacultyRoutes.body_studentId := FacultyRoutes.JString "S1";
       FacultyRoutes.body_date := FacultyRoutes.JString "2024-09-07";
       FacultyRoutes.body_status := FacultyRoutes.JString "absent";
       FacultyRoutes.body_remarks := FacultyRoutes.JUndefined |} in
  exists response,
    FacultyRoutes.handleValidateAttendance (host := UTC_host)
      (fun _ => "Required") store body = Value response.
Proof.
  intros store body.
  destruct (handleValidateAttendance_first_reason (host := UTC_host)
              (fixed := UTC_host_constant)
              (fun _ => "Required") store body "S1" "2024-09-07" absent
              {| DataStore.student_id := "S1";
                 DataStore.student_email := "a@x";
                 DataStore.student_internshipStartDate := "2024-03-01";
                 DataStore.student_internshipEndDate := "2024-08-31";
                 DataStore.student_daysPerWeekAllowed := 2 |}
              eq_refl eq_refl eq_refl) as (wk & _ & Hresp).
  eexists. exact Hresp.
Defined.

Lemma handleValidateAttendance_outside_flag_witness :
  let store :=
    {| DataStore.students :=
         [("a@x", {| DataStore.student_id := "S1";
                     DataStore.student_email := "a@x";
                     DataStore.student_internshipStartDate := "2024-03-01";
                     DataStore.student_internshipEndDate := "2024-08-31";
                     DataStore.student_daysPerWeekAllowed := 2 |})];
       DataStore.attendance := [] |} in
  let body :=
    {| FacultyRoutes.body_studentId := FacultyRoutes.JString "S1";
       FacultyRoutes.body_date := FacultyRoutes.JString "2024-09-07";
       FacultyRoutes.body_status := FacultyRoutes.JString "absent";
       FacultyRoutes.body_remarks := FacultyRoutes.JUndefined |} in
  exists valid reason_ details,
    FacultyRoutes.handleValidateAttendance (host := UTC_host)
      (fun _ => "Required") store body
    = Value (FacultyRoutes.ValidateAttendanceResponse valid reason_ details)
    /\ FacultyRoutes.details_outsideInternshipDates details = true.
Proof.
  intros store body.
  destruct (handleValidateAttendance_outside_flag (host := UTC_host)
              (fixed := UTC_host_constant)
              (fun _ => "Required") store body "S1" absent
              {| DataStore.student_id := "S1";
                 DataStore.student_email := "a@x";
                 DataStore.student_internshipStartDate := "2024-03-01";
                 DataStore.student_internshipEndDate := "2024-08-31";
                 DataStore.student_daysPerWeekAllowed := 2 |}
              1725667200000 1709251200000 1725062400000
              eq_refl eq_refl eq_refl eq_refl
              ltac:(both_leb) ltac:(both_leb) ltac:(both_leb))
    as (valid & reason_ & details & Hresp & _ & Hflag).
  exists valid, reason_, details. split; [exact Hresp |].
  apply Hflag. right. apply Z.ltb_lt. vm_compute. reflexivity.
Defined.

Lemma getNextWorkingDay_unparsable_witness :
  getNextWorkingDay (host := UTC_host) "next week" ["2024-03-11"]
  = Throws (RangeError "Invalid time value").
Proof.
  apply (getNextWorkingDay_unparsable (host := UTC_host)
           ["2024-03-11"] "next week").
  reflexivity.
Defined.

Lemma getTotalWorkingDaysInInternship_bounds_witness :
  exists n,
    getTotalWorkingDaysInInternship (host := UTC_host)
      "2024-03-01" "2024-03-12" ["2024-03-05"] = Value n
    /\ 0 <= n <= 12.
Proof.
  destruct (getTotalWorkingDaysInInternship_bounds (host := UTC_host)
              (fixed := UTC_host_constant)
              "2024-03-01" "2024-03-12" ["2024-03-05"] [])
    as (n & n' & Hn & _ & Hpos & _ & Hb).
  exists n. split; [exact Hn |]. split; [exact Hpos |].
  assert (Es : Date_parse (host := UTC_host) "2024-03-01"
               = Some (MakeDate 19783 0)) by reflexivity.
  assert (Ee : Date_parse (host := UTC_host) "2024-03-12"
               = Some (MakeDate 19794 0)) by reflexivity.
  rewrite Es, Ee in Hb. destruct Hb as [_ Hb].
  assert (Hle : MakeDate 19783 0 <= MakeDate 19794 0)
    by (apply Z.leb_le; reflexivity).
  specialize (Hb Hle).
  assert (Eq : (MakeDate 19794 0 - MakeDate 19783 0) / msPerDay + 1 = 12)
    by reflexivity.
  rewrite Eq in Hb. exact Hb.
Defined.

Lemma custom_getWorkingDaysInRange_valid_days_witness :
  exists l,
    WorkingDaysUtility.getWorkingDaysInRange (host := UTC_host)
      "2024-02-26" "2024-03-12"
      {| CustomWorkingDays.daysPerWeek := 2;
         CustomWorkingDays.customDays := Some ["Monday"; "Saturday"];
         CustomWorkingDays.internshipStartDate := "2024-03-01";
         CustomWorkingDays.internshipEndDate := "2024-08-31" |}
      ["2024-03-04"] = Value l
    /\ forall s, In s l ->
         String.ltb s "2024-03-01" = false /\ includes ["2024-03-04"] s = false.
Proof.
  destruct (custom_getWorkingDaysInRange_valid_days (host := UTC_host)
              (fixed := UTC_host_constant)
              {| CustomWorkingDays.daysPerWeek := 2;
                 CustomWorkingDays.customDays := Some ["Monday"; "Saturday"];
                 CustomWorkingDays.internshipStartDate := "2024-03-01";
                 CustomWorkingDays.internshipEndDate := "2024-08-31" |}
              ["2024-03-04"] "2024-02-26" "2024-03-12")
    as (l & n & Hl & Hin & _).
  exists l. split; [exact Hl |]. intros s Hs.
  destruct (Hin s Hs) as (_ & Hstart & _ & Hh). split; assumption.
Defined.

Lemma handleMarkAttendance_keeps_dates_unique_witness :
  let store :=
    {| DataStore.students :=
         [("a@x", {| DataStore.student_id := "S1";
                     DataStore.student_email := "a@x";
                     DataStore.student_internshipStartDate := "2024-03-01";
                     DataStore.student_internshipEndDate := "2024-08-31";
                     DataStore.student_daysPerWeekAllowed := 2 |})];
       DataStore.attendance := [] |} in
  let user := Some {| FacultyRoutes.user_email := "f@x";
                      FacultyRoutes.user_roleId := "F1" |} in
  let body :=
    {| FacultyRoutes.body_studentId := FacultyRoutes.JString "S1";
       FacultyRoutes.body_date := FacultyRoutes.JString "2024-03-04";
       FacultyRoutes.body_status := FacultyRoutes.JString "present";
       FacultyRoutes.body_remarks := FacultyRoutes.JUndefined |} in
  exists response store',
    FacultyRoutes.handleMarkAttendance (host := UTC_host) (fun _ => "Required")
      store user body 1 2 3 = Value (response, store')
    /\ DataStore.uniqueDates store'.
Proof.
  intros store user body.
  destruct (handleMarkAttendance_keeps_dates_unique (host := UTC_host)
              (fixed := UTC_host_constant) (fun _ => "Required")
              store user body 1 2 3)
    as (response & store' & Hr & _ & _ & Hu).
  exists response, store'. split; [exact Hr |]. apply Hu.
  intros email. unfold DataStore.getAttendance. cbn. constructor.
Defined.
